(* ===== verification/_CoqProject ===== *)
-Q . S2P
Prelude.v
KvStore.v
Quiz.v
QuizView.v
QuizSpec.v
Server.v
ServerProps.v
ClientTypes.v
Api.v
Budget.v
BudgetView.v
JsDate.v
Eco.v
EcoView.v
Learning.v
Dash.v
Board.v
LeaderboardPage.v
AppShell.v
Profile.v
System.v
Auth.v
