(* ===== verification/Prelude.v ===== *)
(** * A verification development for FinanceQuest (yagna)

    FinanceQuest is a React single-page app (src/App.tsx and the tab
    components under src/) that talks to a Hono server on Deno
    (src/index.tsx) through a small API service (src/api.ts).  The server
    keeps every record in a key-value store (kv_store.tsx, which is not
    under src/).  The browser keeps one profile object in [App], and each
    tab reads it and writes updates into it.  The tabs also send requests
    whose answers change the server's copy of the same profile.  This
    development models each part as Rocq functions on explicit states and
    proves what each part guarantees, alone and composed.

    ** Files, in dependency order

    - [Prelude] (this file): the notation scope, the development's tactics
      and hint database, JavaScript arrays written by index
      ([js_array_set]), [String.prototype.split], [toLowerCase] and
      [includes] on ASCII strings, and generic lemmas on lists, strings
      and sorting.  [take_merge_sort_spec] is the [sort().slice(0, n)]
      lemma that the leaderboard and the recent transactions share.
      [toFixed0] is [Number.prototype.toFixed(0)] on exact rationals.
    - [KvStore]: the store interface.  [KvStore] is a class with [get],
      [set] and [getByPrefix].  [KvStoreLaws] holds the laws, and
      [gmap_kv] implements them on stdpp's [gmap].  This part is modelled
      from the spec, because the file is not under src/.
    - [Quiz] (src/QuizModal.tsx, with the question data of
      src/LearningModules.tsx): the quiz component as a state machine.
      [QuizState] holds its [useState] hooks.  The handlers
      [handleAnswerSelect], [handleNextQuestion], [handleRestart] and the
      interval callback [tick] are functions on it, and so are the two
      effects.  [enabled] is the set of events the JSX lets a user fire.
      [quiz_step] is one render-and-effect step, and [reachable] is the set
      of states it can reach from [mounted].
    - [QuizView] (src/QuizModal.tsx): the text the dialog prints:
      [formatTime] for the timer, and [getScoreColor] and
      [getPerformanceMessage] for the grade of the final score.
    - [QuizSpec]: the spec's QuizSession contract ([submitAnswer],
      [advance], [tick_op], [restart], with typed errors) and the
      abstraction [abs] from component states to sessions.
    - [Server] (src/index.tsx): the routes as functions of the request's
      external answers ([Env]: clock, uuid, identity service), the request
      and the store, returning the new store and the response.  [handle]
      is the Hono routing.  The helpers are [verifyUser], [updateUserXP],
      [updateUserPoints] and [updateUserEcoStats].
    - [ServerProps]: the server's guarantees, proved for any store that
      satisfies [KvStoreLaws].  [served] is the set of stores reachable by
      any sequence of requests from a given store.
    - [ClientTypes] (src/client.ts): JSON values, the objects the routes
      write ([to_json]), and the five declared types of the client.  Each
      type is a record with a decoder that accepts exactly the objects
      with its required fields.
    - [Api] (src/api.ts): the token choice and [Bearer] header of
      [makeRequest], its result ([ApiResult]), and each method as the
      route and body the server receives.  [call] composes a method with
      [Server.handle].  The file also holds the client-side profile
      object ([ProfileUpdate]), its spread [spread], and the [Effect]s a
      handler returns: toasts, profile updates and requests.
    - [JsDate]: the part of [Date] that BudgetingTools uses.  It has a
      Gregorian calendar, instants in UTC and in local time,
      [toISOString] of a date and [new Date] on it.  It gives [Budget]'s
      clock parameters their browser values, [today_js] and
      [in_current_month_js].
    - [BudgetView] and [EcoView]: what BudgetingTools and
      SustainableTracker render, and the inputs of their forms, each of
      which writes one field of the form state.
    - [Budget], [Eco], [Learning], [Dash], [Board] and [AppShell] model
      src/BudgetingTools.tsx, src/SustainableTracker.tsx,
      src/LearningModules.tsx, src/Dashboard.tsx, src/Leaderboard.tsx and
      src/App.tsx.  Each holds the component's [useState] hooks as a
      Record, its constant data, and its handlers.  A handler returns the
      new state and its effects.  A handler with an [await] or a
      [setTimeout] is split into the part that runs on the click
      ([_start]) and the part that runs on the answer or the timeout
      ([_done], [_fire]).  [Learning] also has the page's controls as
      events, with the JSX conditions that render them ([learn_enabled])
      and the step and run they define ([learn_step], [learn_run]).
    - [Dash] also computes what the statistics cards and goal rows show
      ([stats_view], [goal_view]).  Its lemma [stats_view_bounds] shows
      two display bugs: the level bar passes 100% above 3000 XP, and a
      streak of 7 days lights no dot.
    - [Board] also computes the rows of the main board ([row_view]).
      Its lemmas show that rows from the server print a red [NaN] change
      and no "(You)" mark, and that the Streak Master bar is not capped.
    - [LeaderboardPage] (src/Leaderboard.tsx): the rest of the page (stat
      cards, Refresh, the four tabs) and its reloads.  A [Page] counts the
      loads in flight.  [page_step] handles a tab change (which re-runs
      the effect), a search, Refresh, the 30-second interval and an
      answer.
    - [Profile] (src/UserProfile.tsx): the constants of the profile tab,
      its [isEditing] toggle, and what its header, badges, progress and
      timeline show.  The views take the props [App] passes and ignore
      them, as the component does.
    - [System]: the app and the server composed.  A [Sys] state holds the
      App and every tab, the store, the session, the toasts, and the
      pending requests and timers, each with the [userProfile] snapshot of
      its closure.  [sys_step] handles one event: a click, the [i]-th
      request answered, or the [i]-th timer fired.  [sys_run] handles a
      sequence of events, which makes every interleaving explicit.
    - [Auth] (src/api.ts and src/App.tsx): the auth client as the
      [IdentityClient] class with its [IdentityLaws], the [signIn],
      [signOut] and [getCurrentSession] methods on it, and [MemAuth], an
      in-memory client that keeps the laws.  It also holds what App
      renders ([app_view]), and the sign-in flow as a [Shell] stepped by
      [shell_step]: the App state, the client state and the profile loads
      in flight.

    ** What the theorems show

    - The quiz (C1-C6, C8, C9): the reachable states have these invariants:
      - the score is the points of the correct answers;
      - the streak is the run of correct answers at the end;
      - the answers are only appended;
      - the perfect bonus needs all answers correct (a lemma).

      Completion is reported exactly once, and the timer always ends the
      quiz.  The XP reported is bounded, and a timeout without answers
      reports (0, 0).  The spec's scenario (score 100, 325 XP) and the
      empty quiz that pays 100 XP are proved as lemmas of [Quiz].
    - The Learning page (C10, C11): no click sequence selects or quizzes
      a locked module.  Saving the same quiz twice posts the same
      progress and is paid twice by the server.
    - QuizView (C39, C40): the timer text is the minutes, a colon and a
      two-digit seconds part, and [m:ss] reads back to its seconds.  With the
      shipped questions, the two top grades can never be shown.
    - QuizSpec (C34, C35): the component refines the contract (a
      simulation by [abs]).  An attempt without Retake accepts at most
      [301 + 2n] events, by a decreasing measure.
    - The server (C12-C16, C18, C33):
      - an unauthenticated request is rejected and leaves the store
        unchanged;
      - an XP award sets the level from the new total; it never lowers a
        level that agrees with the XP, and it resets a level written by
        PUT /profile;
      - a badge is earned once per user, and the expense scan is the
        caller's own (both are invariants of every history);
      - every profile key holds a profile;
      - the leaderboard is the top 50 by points;
      - PUT /profile lets a caller take the first rank.
    - The client and its API (C19-C21, C23-C27, C36): the Bearer header
      round trip with [verifyUser], and a protected call served as the
      caller's route.  The category sums partition the spending.  The
      spending-status thresholds hold, the
      recent transactions are the newest, and the eco-impact toast fires
      at the right point.  The leaderboard search selects a row exactly
      when the lower-case query occurs in the lower-case name.
      The client.ts types match the achievements, eco actions and expenses
      the server writes, but never its profiles or progress, which lack
      [id].  The profile tab shows the same constant profile to every
      user.
    - Dates (C17, C22): east of UTC and at UTC, the month test counts
      exactly the expenses whose date text names the local month, and an
      expense added while the UTC date is the local date is counted.
      East of UTC, an expense added just after local
      midnight on the first of a month is dated the previous day, so
      the month's spending leaves it out.  The dates [toISOString]
      prints read back through [new Date] ([parse_format_date]).
    - The composed system (C28-C32): where the profile object and
      the server's profile agree, and where they diverge.  The expense
      award is never stored on the server.  The quiz XP differs between
      client and server.  The lesson timer loses an update, and a quick
      action can be paid twice.  Two lemmas show that [checkAuth] always
      ends loading, and that an incomplete expense sends nothing.
    - The Leaderboard page (C7): while the spinner turns a load is in
      flight (an invariant).  Loads are not ordered: a tab change starts a
      second load, the first answer re-enables Refresh, and the last
      answer wins.
    - Sign-in (C37, C38): for every auth client that keeps the laws, the
      user App shows signed in is always the session's user (an invariant
      of every run).  A profile answer that arrives after a sign-out is
      still applied: the next user, without a stored profile, is shown
      with the previous user's name and points.

    ** Numbers, bounds and fuel

    Integer fields of JS numbers are [Z], and amounts read by [parseFloat]
    are exact rationals [Q].  The theorems are stated in this exact
    arithmetic.  JS doubles agree with it while integers stay below 2^53.
    Amounts with a binary fraction, such as [0.1], are rounded in JS;
    the model does not follow that rounding.  [Math.floor] is [Qfloor].  No definition uses fuel:
    - the quiz's timer is a counter from 300 ([time_budget]), so the
      liveness theorem gives the number of ticks explicitly;
    - [sys_run] and [serve] recurse on the list of events or requests;
    - the slices of 50 (leaderboard) and 10 (recent transactions) are the
      code's constants.

    ** Not modelled

    - The identity provider (Supabase auth) is an external service.  The
      server takes its answers as the [Env] of a request.  The client is
      proved against the [IdentityClient] interface and its laws.  The
      [AuthModal] component is not in the repository.  Its sign-in is
      taken to be [apiService.signIn], followed by [onSuccess].
    - [toLocaleString] and [toLocaleDateString] depend on the browser's
      locale: the numbers they print are kept as numbers, and the date
      text is a parameter.
    - [createClient] in src/client.ts is a library call.  The share and
      overview parts of src/UserProfile.tsx only print constants.
    - The Dashboard's charts are drawn by a library from constant data.
    - Rendering, styling, icons and [console.log] are not modelled.
    - The store's failure branches ([catch] in the routes) are not
      modelled: the model's store never fails.
    - Network failures between client and server are not modelled: a
      request is answered by the server, and an error reply is an
      [ApiError]. *)

From stdpp Require Import base list strings sorting pretty.
From Stdlib Require Import Ascii.
From Stdlib Require Import ZArith NArith Lia.

(** ** Notation scope of the development *)

Declare Scope yagna_scope.
Delimit Scope yagna_scope with yagna.

(** ** JavaScript arrays written by index

    A JS array is a list of optional values: an index that was never
    written is a hole, read as [undefined].  [a[i] = x] overwrites in range
    and, out of range, extends the array with holes up to [i]. *)

Definition js_array_set {A} (l : list (option A)) (i : nat) (x : A)
  : list (option A) :=
  if bool_decide (i < length l) then <[i:=Some x]> l
  else l ++ replicate (i - length l) None ++ [Some x].

Notation "l '.[' i ':=' x ']'" := (js_array_set l i x)
  (at level 1, i at level 200, x at level 200, format "l .[ i  :=  x ]")
  : yagna_scope.

(** ** Tactics *)

(** Case on every [bool_decide] in the goal and the hypotheses, then try
    arithmetic. *)
Ltac decide_all :=
  repeat (case_bool_decide || match goal with
    | H : context [bool_decide ?P] |- _ => destruct (bool_decide_reflect P)
    end); try lia.

Create HintDb yagna discriminated.
Create Rewrite HintDb yagna_rw.

(** ** Shared lemmas *)

Section JsArray.
Context {A : Type}.
Implicit Types (l : list (option A)) (x : A).

Lemma js_array_set_push l i x :
  length l = i -> js_array_set l i x = l ++ [Some x].
Proof.
  intros <-. unfold js_array_set.
  rewrite bool_decide_eq_false_2 by lia. by rewrite Nat.sub_diag.
Qed.

Lemma js_array_set_length l i x :
  length (js_array_set l i x) = Nat.max (length l) (S i).
Proof.
  unfold js_array_set. case_bool_decide.
  - rewrite length_insert. lia.
  - rewrite !length_app, length_replicate. simpl. lia.
Qed.

Lemma js_array_set_lookup_eq l i x :
  js_array_set l i x !! i = Some (Some x).
Proof.
  unfold js_array_set. case_bool_decide.
  - by apply list_lookup_insert_eq.
  - rewrite lookup_app_r by lia. rewrite lookup_app_r by (rewrite length_replicate; lia).
    rewrite length_replicate.
    by replace (i - length l - (i - length l))%nat with 0%nat by lia.
Qed.

Lemma js_array_set_lookup_lt l i j x :
  j <> i -> j < length l -> js_array_set l i x !! j = l !! j.
Proof.
  intros Hne Hj. unfold js_array_set. case_bool_decide.
  - by apply list_lookup_insert_ne.
  - by apply lookup_app_l.
Qed.

End JsArray.

#[export] Hint Resolve js_array_set_push : yagna.
#[export] Hint Rewrite @js_array_set_length @js_array_set_lookup_eq : yagna_rw.

(** JS compares [i < n - 1] on numbers, where [n - 1] may be [-1]. *)
Lemma js_lt_pred (i n : nat) :
  (Z.of_nat i < Z.of_nat n - 1)%Z <-> S i < n.
Proof. lia. Qed.

(** A counter that is incremented on [true] and reset on [false]: the
    length of the trailing run of [true]s. *)
Definition run_step (acc : nat) (b : bool) : nat := if b then S acc else 0.

Definition trailing_run (bs : list bool) : nat := fold_left run_step bs 0.

Lemma trailing_run_snoc bs b :
  trailing_run (bs ++ [b]) = run_step (trailing_run bs) b.
Proof. unfold trailing_run. by rewrite fold_left_app. Qed.

Lemma trailing_run_le bs : trailing_run bs <= length bs.
Proof.
  induction bs as [|b bs IH] using rev_ind; [done|].
  rewrite trailing_run_snoc, length_app. destruct b; simpl; lia.
Qed.

#[export] Hint Rewrite trailing_run_snoc : yagna_rw.

(** ** Lists *)

Lemma zip_with_snoc {A B C} (f : A -> B -> C) (l : list A) (k : list B) y x :
  l !! length k = Some y ->
  zip_with f l (k ++ [x]) = zip_with f l k ++ [f y x].
Proof.
  revert l. induction k as [|b k IH]; intros [|a l] Hy; simpl in *; try done.
  - by destruct l; simplify_eq.
  - by rewrite IH.
Qed.

Lemma sum_list_app (l1 l2 : list nat) :
  sum_list (l1 ++ l2) = sum_list l1 + sum_list l2.
Proof. induction l1 as [|x l1 IH]; simpl; lia. Qed.

Lemma length_filter_snoc {A} (P : A -> bool) (l : list A) x :
  length (List.filter P (l ++ [x])) = length (List.filter P l) + (if P x then 1 else 0).
Proof.
  induction l as [|a l IH]; simpl; [by destruct (P x)|].
  destruct (P a); simpl; lia.
Qed.

#[export] Hint Rewrite sum_list_app @length_filter_snoc : yagna_rw.

(** When the filter of a zipped boolean list keeps as many elements as the
    right list has, every pair was [true]. *)
Lemma filter_zip_with_full {A B} (f : A -> B -> bool) (l : list A) (k : list B) :
  length (List.filter (fun b : bool => b) (zip_with f l k)) = length k ->
  forall i x y, l !! i = Some x -> k !! i = Some y -> f x y = true.
Proof.
  revert l. induction k as [|y0 k IH]; intros [|x0 l] Hlen i x y Hx Hy; try done.
  simpl in Hlen.
  assert (length (List.filter (fun b : bool => b) (zip_with f l k)) <= length k).
  { etrans; [apply List.filter_length_le|]. rewrite length_zip_with. lia. }
  destruct (f x0 y0) eqn:Hf; simpl in Hlen; [|lia].
  destruct i; simplify_eq/=; [done|]. eapply IH; eauto; lia.
Qed.

Lemma sum_zip_with_le {A B} (g : A -> B -> nat) (h : A -> nat) (l : list A) (k : list B) :
  (forall x y, g x y <= h x) -> sum_list (zip_with g l k) <= sum_list (map h l).
Proof.
  intros Hg. revert k. induction l as [|x l IH]; intros [|y k]; simpl; try lia.
  specialize (IH k). specialize (Hg x y). lia.
Qed.

(** ** JavaScript strings *)

(** [s.split(sep)] for a one-character separator: the fields between the
    separators, an empty field where two separators meet. *)
Fixpoint js_split (sep : Ascii.ascii) (s : string) : list string :=
  match s with
  | EmptyString => [EmptyString]
  | String c s' =>
      let rest := js_split sep s' in
      if bool_decide (c = sep) then EmptyString :: rest
      else match rest with
           | [] => [String c EmptyString]
           | w :: ws => String c w :: ws
           end
  end.

(** [ws.join(sep)]. *)
Fixpoint js_join (sep : Ascii.ascii) (ws : list string) : string :=
  match ws with
  | [] => EmptyString
  | [w] => w
  | w :: ws' => w +:+ String sep (js_join sep ws')
  end.

(** [a[i]] on an array of strings: [undefined] out of range. *)
Definition js_index {A} (l : list A) (i : nat) : option A := l !! i.

Definition no_char (c : Ascii.ascii) (s : string) : Prop :=
  forall i, String.get i s <> Some c.

Lemma js_split_nonempty sep s : js_split sep s <> [].
Proof.
  destruct s as [|c s]; simpl; [done|]. case_bool_decide; [done|].
  by destruct (js_split sep s).
Qed.

Lemma js_join_split sep s : js_join sep (js_split sep s) = s.
Proof.
  induction s as [|c s IH]; [done|]. simpl.
  pose proof (js_split_nonempty sep s) as Hne.
  case_bool_decide as Hc.
  - subst. destruct (js_split sep s) as [|w ws] eqn:E; [done|]. simpl in *. by rewrite IH.
  - destruct (js_split sep s) as [|w [|w' ws]] eqn:E; [done| |];
      simpl in IH; rewrite <- IH; reflexivity.
Qed.

Lemma js_split_no_sep sep w : no_char sep w -> js_split sep w = [w].
Proof.
  induction w as [|c w IH]; intros Hw; [done|]. simpl.
  rewrite bool_decide_eq_false_2 by (intros ->; apply (Hw 0); done).
  rewrite IH; [done|]. intros i. apply (Hw (S i)).
Qed.

Lemma js_split_app sep w t :
  no_char sep w -> js_split sep (w +:+ String sep t) = w :: js_split sep t.
Proof.
  induction w as [|c w IH]; intros Hw; simpl.
  - by rewrite bool_decide_eq_true_2.
  - rewrite bool_decide_eq_false_2 by (intros ->; apply (Hw 0); done).
    rewrite IH; [done|]. intros i. apply (Hw (S i)).
Qed.

Lemma js_split_join sep ws :
  ws <> [] -> Forall (no_char sep) ws -> js_split sep (js_join sep ws) = ws.
Proof.
  induction ws as [|w ws IH]; intros Hne Hall; [done|].
  apply Forall_cons in Hall as [Hw Hall].
  destruct ws as [|w' ws]; simpl.
  - by apply js_split_no_sep.
  - rewrite js_split_app by done. f_equal. by apply IH.
Qed.

Lemma prefix_app_r (a b : string) : String.prefix a (a +:+ b) = true.
Proof.
  induction a as [|c a IH]; simpl; [by destruct b|].
  rewrite IH. by destruct (Ascii.ascii_dec c c).
Qed.

Lemma prefix_app_l (a b c : string) :
  String.prefix (a +:+ b) (a +:+ c) = String.prefix b c.
Proof.
  induction a as [|x a IH]; simpl; [done|]. by destruct (Ascii.ascii_dec x x).
Qed.

Lemma no_char_cons c x s : no_char c (String x s) -> x <> c /\ no_char c s.
Proof. intros H. split; [intros ->; by apply (H 0)|]. intros i. apply (H (S i)). Qed.

(** Two separator-free names followed by the separator: one is a prefix
    of the other only when they are equal. *)
Lemma prefix_sep_inj c (u u' r : string) :
  no_char c u -> no_char c u' ->
  String.prefix (u +:+ String c EmptyString) (u' +:+ String c r) = true -> u = u'.
Proof.
  revert u'. induction u as [|x u IH]; intros [|x' u'] Hu Hu' Hp; simpl in Hp.
  - done.
  - apply no_char_cons in Hu' as [Hx' _].
    destruct (Ascii.ascii_dec c x'); [congruence|done].
  - apply no_char_cons in Hu as [Hx _].
    destruct (Ascii.ascii_dec x c); [congruence|done].
  - apply no_char_cons in Hu as [_ Hu]. apply no_char_cons in Hu' as [_ Hu'].
    destruct (Ascii.ascii_dec x x') as [<-|]; [|done]. f_equal. by apply IH.
Qed.

Lemma prefix_app_r2 (a b c : string) : String.prefix a ((a +:+ b) +:+ c) = true.
Proof.
  induction a as [|x a IH]; simpl; [destruct b; [destruct c|]; reflexivity|].
  rewrite IH. by destruct (Ascii.ascii_dec x x).
Qed.

Lemma string_app_nil_r (s : string) : s +:+ "" = s.
Proof. induction s as [|c s IH]; [done|]. exact (f_equal (String c) IH). Qed.

Lemma string_length_app (a b : string) :
  String.length (a +:+ b) = (String.length a + String.length b)%nat.
Proof. induction a as [|c a IH]; [done|]. exact (f_equal S IH). Qed.

Lemma string_app_assoc (a b c : string) : (a +:+ b) +:+ c = a +:+ (b +:+ c).
Proof. induction a as [|x a IH]; [done|]. exact (f_equal (String x) IH). Qed.

Lemma prefix_app_inv (a b k : string) :
  String.prefix (a +:+ b) k = true -> String.prefix a k = true.
Proof.
  revert k. induction a as [|x a IH]; intros k Hk; simpl in *.
  - by destruct k.
  - change (String x a +:+ b) with (String x (a +:+ b)) in Hk.
    destruct k as [|y k]; simpl in *; [done|].
    destruct (Ascii.ascii_dec x y); [by apply IH|done].
Qed.

(** [no_char] is decidable: [!s.includes(c)]. *)
Fixpoint char_free (c : Ascii.ascii) (s : string) : bool :=
  match s with
  | EmptyString => true
  | String x s' => bool_decide (x <> c) && char_free c s'
  end.

Lemma char_free_spec c s : char_free c s = true <-> no_char c s.
Proof.
  induction s as [|x s IH]; simpl.
  - split; [intros _ [|i]; discriminate|done].
  - rewrite andb_true_iff, bool_decide_eq_true, IH. split.
    + intros [Hx Hs] [|i]; simpl; [congruence|apply Hs].
    + intros Hs. split; [intros ->; by apply (Hs 0)|intros i; apply (Hs (S i))].
Qed.

#[export] Instance no_char_dec c s : Decision (no_char c s).
Proof. destruct (char_free c s) eqn:E; [left|right]; rewrite <- char_free_spec; congruence. Defined.

(** ** The first [n] of a sorted copy: [.sort(cmp).slice(0, n)] *)

Section TopN.
Context {A : Type} (R : relation A) `{!RelDecision R, !Transitive R, !Total R}.

(** The [n] kept and the rest dropped make up the input; the kept ones
    are in order, each of them before every dropped one. *)
Lemma take_merge_sort_spec n (l : list A) :
  let s := merge_sort R l in
  take n s ++ drop n s ≡ₚ l /\ StronglySorted R (take n s) /\
  length (take n s) = Nat.min n (length l) /\
  (forall x y, x ∈ drop n s -> y ∈ take n s -> R y x).
Proof.
  simpl. pose proof (StronglySorted_merge_sort R l) as Hs.
  pose proof (merge_sort_Permutation R l) as Hp.
  rewrite <- (take_drop n (merge_sort R l)) in Hs.
  split_and!.
  - by rewrite take_drop.
  - by eapply StronglySorted_app_1_l.
  - by rewrite length_take, Hp.
  - intros x y Hx Hy. exact (StronglySorted_app_1_elem_of _ _ _ y x Hs Hy Hx).
Qed.

End TopN.

Lemma filter_all {A} (P : A -> Prop) `{!forall x, Decision (P x)} (l : list A) :
  (forall x, P x) -> filter P l = l.
Proof. intros HP. induction l as [|x l IH]; [done|]. by rewrite filter_cons_True, IH. Qed.

(** ** [toLowerCase] and [includes] on ASCII strings *)

Definition ascii_lower (c : Ascii.ascii) : Ascii.ascii :=
  let n := Ascii.nat_of_ascii c in
  if (65 <=? n) && (n <=? 90) then Ascii.ascii_of_nat (n + 32) else c.

Fixpoint js_toLowerCase (s : string) : string :=
  match s with
  | EmptyString => EmptyString
  | String c s' => String (ascii_lower c) (js_toLowerCase s')
  end.

(** [s.includes(sub)]: [sub] starts at some position of [s]. *)
Fixpoint js_includes (s sub : string) : bool :=
  String.prefix sub s || match s with EmptyString => false | String _ s' => js_includes s' sub end.

Lemma ascii_lower_idem c : ascii_lower (ascii_lower c) = ascii_lower c.
Proof. destruct c as [[] [] [] [] [] [] [] []]; reflexivity. Qed.

Lemma js_toLowerCase_idem s : js_toLowerCase (js_toLowerCase s) = js_toLowerCase s.
Proof. induction s as [|c s IH]; simpl; [done|]. by rewrite ascii_lower_idem, IH. Qed.

Lemma js_includes_empty s : js_includes s "" = true.
Proof. destruct s; reflexivity. Qed.

(** [String.prefix p s] holds exactly when [s] starts with [p]. *)
Lemma prefix_spec (p s : string) : String.prefix p s = true <-> exists b, s = p +:+ b.
Proof.
  revert s. induction p as [|c p IH]; intros [|c' s]; simpl.
  - split; [intros _; by exists ""|auto].
  - split; [intros _; by exists (String c' s)|auto].
  - split; [discriminate|intros [b Hb]; discriminate Hb].
  - destruct (Ascii.ascii_dec c c') as [<-|Hc].
    + rewrite IH. split; intros [b Hb]; exists b; [by rewrite Hb|by injection Hb].
    + split; [discriminate|intros [b Hb]; injection Hb as -> _; by destruct Hc].
Qed.

Lemma js_includes_eq s sub :
  js_includes s sub = String.prefix sub s ||
                      match s with EmptyString => false | String _ s' => js_includes s' sub end.
Proof. by destruct s. Qed.

(** [s.includes(sub)] holds exactly when [sub] occurs in [s]. *)
Lemma js_includes_spec (s sub : string) :
  js_includes s sub = true <-> exists a b, s = a +:+ sub +:+ b.
Proof.
  induction s as [|c s IH]; rewrite js_includes_eq.
  - rewrite orb_false_r, prefix_spec. split.
    + intros [b Hb]. by exists "", b.
    + intros ([|??] & b & Hb); [by exists b|discriminate Hb].
  - rewrite orb_true_iff, prefix_spec, IH. split.
    + intros [[b Hb]|(a & b & Hb)]; [by exists "", b|exists (String c a), b; by rewrite Hb].
    + intros ([|c' a] & b & Hb); [left; by exists b|right].
      injection Hb as -> ->. by exists a, b.
Qed.

(** ** Decimal text

    [String.prototype.padStart] with a one-character pad, a reader of
    decimal digits, and the fact that it reads back what stdpp's [pretty]
    prints.  The quiz timer and the dates of expenses use them. *)

(** [padStart(targetLength, c)] with a one-character pad: as many [c] in
    front as the string is shorter than [targetLength], none when it is
    not shorter. *)
Fixpoint pad_chars (k : nat) (c : ascii) : string :=
  match k with O => EmptyString | S k => String c (pad_chars k c) end.

Definition padStart (targetLength : nat) (c : ascii) (s : string) : string :=
  pad_chars (targetLength - String.length s) c +:+ s.

Definition digit_val (c : ascii) : option N :=
  let n := nat_of_ascii c in
  if bool_decide (48 <= n <= 57)%nat then Some (N.of_nat n - 48)%N else None.

Fixpoint digits_go (acc : N) (s : string) : option N :=
  match s with
  | EmptyString => Some acc
  | String c s' => d ← digit_val c; digits_go (acc * 10 + d)%N s'
  end.

Lemma pad_chars_length k c : String.length (pad_chars k c) = k.
Proof. induction k as [|k IH]; [done|]. exact (f_equal S IH). Qed.

Lemma digit_val_char d :
  (d < 10)%N -> digit_val (pretty_N_char d) = Some d /\ pretty_N_char d <> ":"%char.
Proof.
  intros Hd.
  assert (d = 0 \/ d = 1 \/ d = 2 \/ d = 3 \/ d = 4 \/ d = 5 \/ d = 6 \/ d = 7 \/ d = 8 \/ d = 9)%N
    as Hc by lia.
  by repeat destruct Hc as [->|Hc]; [..|subst].
Qed.

Lemma pretty_Z_nonneg (z : Z) : (0 <= z)%Z -> pretty z = pretty (Z.to_N z).
Proof. destruct z; [done|done|lia]. Qed.

(** A reader that takes one decimal digit at a time reads the digits of
    [pretty] as the number they print. *)
Section Reader.
Context {R : Type} (F : N -> string -> R).
Hypothesis F_digit : forall acc d s, (d < 10)%N ->
  F acc (String (pretty_N_char d) s) = F (acc * 10 + d)%N s.

Lemma pretty_N_go_read x :
  exists k, forall acc s r, F acc (pretty_N_go x s +:+ r) = F (acc * k + x)%N (s +:+ r).
Proof.
  induction (N.lt_wf_0 x) as [x _ IH].
  destruct (decide (x = 0)%N) as [->|Hx].
  - exists 1%N. intros acc s r. rewrite pretty_N_go_0. f_equal. lia.
  - destruct (IH (x `div` 10)%N) as [k Hk]; [apply N.div_lt; lia|].
    exists (k * 10)%N. intros acc s r. rewrite pretty_N_go_step by lia.
    rewrite Hk. change (String (pretty_N_char (x `mod` 10)) s +:+ r)
      with (String (pretty_N_char (x `mod` 10)) (s +:+ r)).
    rewrite F_digit by (apply N.mod_lt; lia). f_equal.
    pose proof (N.div_mod x 10 ltac:(lia)). nia.
Qed.

Lemma pretty_N_read (x : N) :
  exists k, forall acc r, F acc (pretty x +:+ r) = F (acc * k + x)%N r.
Proof.
  unfold pretty, pretty_N. case_decide as Hx.
  - subst. exists 10%N. intros acc r. exact (F_digit acc 0 r eq_refl).
  - destruct (pretty_N_go_read x) as [k Hk]. exists k. intros acc r. exact (Hk acc "" r).
Qed.

Lemma pad_zeros_read k s : F 0%N (pad_chars k "0" +:+ s) = F 0%N s.
Proof.
  induction k as [|k IH]; [done|].
  change (pad_chars (S k) "0" +:+ s) with (String (pretty_N_char 0) (pad_chars k "0" +:+ s)).
  by rewrite F_digit.
Qed.

End Reader.

Lemma digits_go_digit acc d s :
  (d < 10)%N -> digits_go acc (String (pretty_N_char d) s) = digits_go (acc * 10 + d)%N s.
Proof. intros Hd. simpl. by rewrite (proj1 (digit_val_char d Hd)). Qed.

(** The seconds of a minute print in one or two characters. *)
Lemma pretty_secs_short (n : N) : (n < 60)%N -> (String.length (pretty n) <= 2)%nat.
Proof.
  intros Hn. rewrite <- (N2Nat.id n).
  assert (N.to_nat n < 60)%nat as Hn' by lia. revert Hn'. generalize (N.to_nat n) as m.
  assert (Hall : forallb (fun m => bool_decide (String.length (pretty (N.of_nat m)) <= 2)%nat)
                   (seq 0 60) = true) by reflexivity.
  intros m Hm. rewrite forallb_forall in Hall.
  apply (bool_decide_eq_true_1 _), Hall, in_seq. lia.
Qed.

(** [pretty] prints a number below [10^k] in at most [k] characters. *)
Lemma pretty_N_go_length x k s :
  (x < 10 ^ N.of_nat k)%N -> (String.length (pretty_N_go x s) <= String.length s + k)%nat.
Proof.
  revert x s. induction k as [|k IH]; intros x s Hx.
  - assert (x = 0)%N as -> by (simpl in Hx; lia). rewrite pretty_N_go_0. lia.
  - destruct (decide (x = 0)%N) as [->|Hx0]; [rewrite pretty_N_go_0; lia|].
    rewrite pretty_N_go_step by lia.
    assert (x `div` 10 < 10 ^ N.of_nat k)%N.
    { apply N.Div0.div_lt_upper_bound. rewrite Nat2N.inj_succ, N.pow_succ_r' in Hx. lia. }
    specialize (IH _ (String (pretty_N_char (x `mod` 10)) s) H). simpl in IH. lia.
Qed.

Lemma pretty_N_length x k :
  (x < 10 ^ N.of_nat k)%N -> (1 <= k)%nat -> (String.length (pretty x) <= k)%nat.
Proof.
  intros Hx Hk. unfold pretty, pretty_N. case_decide; [simpl; lia|].
  pose proof (pretty_N_go_length x k "" Hx). simpl in *. lia.
Qed.

Lemma string_cons_app (c : Ascii.ascii) (r : string) : String c "" +:+ r = String c r.
Proof. reflexivity. Qed.

(** ** [Number.prototype.toFixed(0)] *)

From Stdlib Require Import QArith Qround.

(** [x.toFixed(0)]: the nearest integer, the larger one on a tie, after
    the sign of [x]. *)
Definition toFixed0 (x : Q) : string :=
  if Qlt_le_dec x 0 then "-" +:+ pretty (Qfloor (- x + (1 # 2))%Q)
  else pretty (Qfloor (x + (1 # 2))%Q).

(** On a non-negative integer [toFixed(0)] prints the integer. *)
Lemma toFixed0_Z (n : Z) : (0 <= n)%Z -> toFixed0 (inject_Z n) = pretty n.
Proof.
  intros Hn. unfold toFixed0. destruct (Qlt_le_dec _ _) as [Hlt|_].
  - exfalso. unfold Qlt in Hlt. simpl in Hlt. lia.
  - f_equal. unfold Qfloor, Qplus. cbn -[Z.div].
    rewrite Z.mul_1_r, Z.div_add_l by lia. change (1 / Z.pos (1 * 2))%Z with 0%Z. lia.
Qed.
