(* ===== verification/KvStore.v ===== *)
(** * KvStore: the key-value store the server persists into

    [kv_store.tsx] is imported by the server (src/index.tsx, line 5) but is
    not part of src/: it is modelled from the spec, which describes it as
    a store with atomic [get], [set] and prefix scan [getByPrefix].  The
    class [KvStore] is the interface the server is written against;
    [KvStoreLaws] states what the store promises (a read after a write, and
    a prefix scan that returns exactly the values of the keys with that
    prefix, in some order).  [gmap_kv] implements it with stdpp's [gmap]
    and discharges the laws. *)

From stdpp Require Import base list gmap strings.
From S2P Require Import Prelude.

Class KvStore (V S : Type) := {
  kv_get : string -> S -> option V;
  kv_set : string -> V -> S -> S;
  kv_getByPrefix : string -> S -> list V;
  kv_entries : S -> list (string * V)
}.

Class KvStoreLaws (V S : Type) `{KvStore V S} := {
  kv_get_set_eq k v s : kv_get k (kv_set k v s) = Some v;
  kv_get_set_ne k k' v s : k <> k' -> kv_get k' (kv_set k v s) = kv_get k' s;
  kv_entries_NoDup s : NoDup (kv_entries s).*1;
  kv_entries_spec s k v : (k, v) ∈ kv_entries s <-> kv_get k s = Some v;
  kv_getByPrefix_spec p s :
    kv_getByPrefix p s ≡ₚ (filter (fun kv => String.prefix p kv.1 = true) (kv_entries s)).*2
}.

(** The values stored under keys that start with [p]: what [getByPrefix]
    returns, up to order. *)
Lemma kv_getByPrefix_elem {V St : Type} `{KvStoreLaws V St} p (s : St) v :
  v ∈ kv_getByPrefix p s <-> exists k, String.prefix p k = true /\ kv_get k s = Some v.
Proof.
  rewrite kv_getByPrefix_spec, list_elem_of_fmap. split.
  - intros ([k v'] & -> & Hin). apply list_elem_of_filter in Hin as [Hp Hin].
    exists k. split; [done|]. by apply kv_entries_spec.
  - intros (k & Hp & Hk). exists (k, v). split; [done|].
    apply list_elem_of_filter. split; [done|]. by apply kv_entries_spec.
Qed.

(** ** The implementation on a finite map *)

#[export] Instance gmap_kv {V} : KvStore V (gmap string V) := {
  kv_get k m := m !! k;
  kv_set k v m := <[k:=v]> m;
  kv_getByPrefix p m :=
    (filter (fun kv => String.prefix p kv.1 = true) (map_to_list m)).*2;
  kv_entries m := map_to_list m
}.

#[export] Instance gmap_kv_laws {V} : KvStoreLaws V (gmap string V).
Proof.
  split; simpl.
  - intros. apply lookup_insert_eq.
  - intros. by apply lookup_insert_ne.
  - intros. apply NoDup_fst_map_to_list.
  - intros. apply elem_of_map_to_list.
  - done.
Qed.

(** ** Invariants of the stored entries *)

(** Every stored entry satisfies [P key value]. *)
Definition entries_ok {V St : Type} `{KvStore V St} (P : string -> V -> Prop) (s : St) : Prop :=
  forall k v, kv_get k s = Some v -> P k v.

Lemma entries_ok_set {V St : Type} `{KvStoreLaws V St} (P : string -> V -> Prop) s k v :
  entries_ok P s -> P k v -> entries_ok P (kv_set k v s).
Proof.
  intros Hok Hkv k' v'. destruct (decide (k = k')) as [<-|E].
  - rewrite kv_get_set_eq. by intros [= <-].
  - rewrite kv_get_set_ne by done. apply Hok.
Qed.

Lemma gmap_kv_get {V} k (m : gmap string V) : kv_get k m = m !! k.
Proof. done. Qed.
