(* ===== verification/Quiz.v ===== *)
(** * Quiz: the [QuizModal] component (src/QuizModal.tsx)

    The React component is a state machine.  Its [useState] hooks are
    the fields of [QuizState].  Its event handlers ([handleAnswerSelect],
    [handleNextQuestion], [handleRestart] and the interval callback) and
    its two [useEffect] hooks are functions on that state.  The JSX decides
    which events a user can fire: an option button exists only for an
    option of the current question and is disabled once the explanation is
    shown, and the Next button exists only while the explanation is shown.
    That is the predicate [enabled].  [quiz_step] is the step relation of
    the mounted component: an enabled event, then its handler, then the
    timer effect.  The file proves the invariant of the reachable states,
    the scoring, streak and completion theorems, and that the quiz always
    ends. *)

From stdpp Require Import base list strings.
From Stdlib Require Import ZArith Lia.
From S2P Require Import Prelude.

Module Quiz.

Local Open Scope yagna_scope.

(** ** Data: [interface Question] (QuizModal.tsx, lines 20-28) *)

Inductive difficulty := Easy | Medium | Hard.

Record Question := mkQuestion {
  q_id : nat;
  question : string;
  options : list string;
  correctAnswer : nat;
  explanation : string;
  difficulty_of : difficulty;
  points : nat
}.

(** ** State: the [useState] hooks (lines 39-47)

    [completions] lists the calls [onComplete(score, totalXP)] that
    [completeQuiz] has scheduled with [setTimeout], oldest first. *)

Record QuizState := mkQuizState {
  currentQuestionIndex : nat;
  selectedAnswers : list (option nat);
  showExplanation : bool;
  quizCompleted : bool;
  timeLeft : nat;
  timerActive : bool;
  score : nat;
  streak : nat;
  perfectAnswers : nat;
  completions : list (nat * nat)
}.

(** The time budget [useState(300)] and the two thresholds of the code. *)
Definition time_budget : nat := 300.
Definition perfect_threshold : nat := 240.
Definition speed_threshold : nat := 150.

Definition initial_state : QuizState := {|
  currentQuestionIndex := 0; selectedAnswers := []; showExplanation := false;
  quizCompleted := false; timeLeft := time_budget; timerActive := false;
  score := 0; streak := 0; perfectAnswers := 0; completions := [] |}.

Section QuizModal.

(** The [questions] prop is fixed while the component is mounted. *)
Variable questions : list Question.

Definition currentQuestion (s : QuizState) : option Question :=
  questions !! currentQuestionIndex s.

(** The first effect (lines 54-58): on opening, start the timer. *)
Definition open_effect (isOpen : bool) (s : QuizState) : QuizState :=
  if isOpen && negb (timerActive s) then
    {| currentQuestionIndex := currentQuestionIndex s;
       selectedAnswers := selectedAnswers s; showExplanation := showExplanation s;
       quizCompleted := quizCompleted s; timeLeft := timeLeft s; timerActive := true;
       score := score s; streak := streak s; perfectAnswers := perfectAnswers s;
       completions := completions s |}
  else s.

(** [LearningModules] renders the modal only while [showQuiz] holds and
    passes [isOpen={showQuiz}]: the component mounts open. *)
Definition mounted : QuizState := open_effect true initial_state.

(** The bonus of [completeQuiz] (lines 114-118). *)
Definition bonusXP (s : QuizState) : nat :=
  (if bool_decide (perfectAnswers s = length questions) then 100 else 0)
  + (if bool_decide (speed_threshold < timeLeft s) then 50 else 0)
  + (if bool_decide (3 <= streak s) then 25 * streak s else 0).

Definition totalXP (s : QuizState) : nat := score s + bonusXP s.

(** [completeQuiz] (lines 110-126): stop, and schedule
    [onComplete(score, totalXP)] with the values of the current render. *)
Definition completeQuiz (s : QuizState) : QuizState :=
  {| currentQuestionIndex := currentQuestionIndex s;
     selectedAnswers := selectedAnswers s; showExplanation := showExplanation s;
     quizCompleted := true; timeLeft := timeLeft s; timerActive := false;
     score := score s; streak := streak s; perfectAnswers := perfectAnswers s;
     completions := completions s ++ [(score s, totalXP s)] |}.

(** [handleTimeUp] (lines 72-77). *)
Definition handleTimeUp (s : QuizState) : QuizState :=
  let s' := {| currentQuestionIndex := currentQuestionIndex s;
     selectedAnswers := selectedAnswers s; showExplanation := showExplanation s;
     quizCompleted := quizCompleted s; timeLeft := timeLeft s; timerActive := false;
     score := score s; streak := streak s; perfectAnswers := perfectAnswers s;
     completions := completions s |} in
  if quizCompleted s then s' else completeQuiz s'.

(** [handleAnswerSelect] (lines 79-99).  [None] is the [TypeError] that
    [currentQuestion.correctAnswer] throws when there is no current
    question; no option button exists then. *)
Definition handleAnswerSelect (answerIndex : nat) (s : QuizState)
  : option QuizState :=
  if showExplanation s then Some s else
  match currentQuestion s with
  | None => None
  | Some q =>
      let newAnswers := (selectedAnswers s).[currentQuestionIndex s := answerIndex] in
      if bool_decide (answerIndex = correctAnswer q) then
        Some {| currentQuestionIndex := currentQuestionIndex s;
          selectedAnswers := newAnswers; showExplanation := true;
          quizCompleted := quizCompleted s; timeLeft := timeLeft s;
          timerActive := timerActive s; score := score s + points q;
          streak := S (streak s);
          perfectAnswers := if bool_decide (perfect_threshold < timeLeft s)
                            then S (perfectAnswers s) else perfectAnswers s;
          completions := completions s |}
      else
        Some {| currentQuestionIndex := currentQuestionIndex s;
          selectedAnswers := newAnswers; showExplanation := true;
          quizCompleted := quizCompleted s; timeLeft := timeLeft s;
          timerActive := timerActive s; score := score s; streak := 0;
          perfectAnswers := perfectAnswers s; completions := completions s |}
  end.

(** [handleNextQuestion] (lines 101-108); the test is on JS numbers, where
    [questions.length - 1] is [-1] for an empty list. *)
Definition handleNextQuestion (s : QuizState) : QuizState :=
  if bool_decide (Z.of_nat (currentQuestionIndex s) < Z.of_nat (length questions) - 1)%Z
  then {| currentQuestionIndex := S (currentQuestionIndex s);
          selectedAnswers := selectedAnswers s; showExplanation := false;
          quizCompleted := quizCompleted s; timeLeft := timeLeft s;
          timerActive := timerActive s; score := score s; streak := streak s;
          perfectAnswers := perfectAnswers s; completions := completions s |}
  else completeQuiz s.

(** [handleRestart] (lines 128-138); the scheduled [onComplete] calls are
    not cancelled. *)
Definition handleRestart (s : QuizState) : QuizState :=
  {| currentQuestionIndex := 0; selectedAnswers := []; showExplanation := false;
     quizCompleted := false; timeLeft := time_budget; timerActive := true;
     score := 0; streak := 0; perfectAnswers := 0; completions := completions s |}.

(** The second effect (lines 60-70): the interval runs while the timer is
    active, time is left and the quiz is not completed; at zero it calls
    [handleTimeUp]. *)
Definition interval_running (s : QuizState) : bool :=
  timerActive s && bool_decide (0 < timeLeft s) && negb (quizCompleted s).

Definition timer_effect (s : QuizState) : QuizState :=
  if interval_running s then s
  else if bool_decide (timeLeft s = 0) then handleTimeUp s else s.

(** The interval callback [setTimeLeft(prev => prev - 1)] (line 64). *)
Definition tick (s : QuizState) : QuizState :=
  {| currentQuestionIndex := currentQuestionIndex s;
     selectedAnswers := selectedAnswers s; showExplanation := showExplanation s;
     quizCompleted := quizCompleted s; timeLeft := timeLeft s - 1;
     timerActive := timerActive s; score := score s; streak := streak s;
     perfectAnswers := perfectAnswers s; completions := completions s |}.


(** ** Events and the step relation *)

(** What the rendered JSX lets a user (or the interval) do. *)
Inductive UIEvent :=
| SelectOption (i : nat)   (** the option button [i] (lines 234-243) *)
| NextQuestion             (** the Next / Complete Quiz button (lines 301-317) *)
| IntervalTick             (** the [setInterval] callback (lines 63-65) *)
| RetakeQuiz.              (** the Retake Quiz button (lines 376-379) *)

(** Which events the rendered component offers.  The question card and
    its buttons are rendered only while [!quizCompleted] and
    [currentQuestion] is defined (lines 177, 212); an option button is
    [disabled={showExplanation}]; the results view with Retake exists only
    once the quiz is completed. *)
Definition enabled (s : QuizState) (e : UIEvent) : bool :=
  match e with
  | SelectOption i =>
      negb (quizCompleted s) && negb (showExplanation s) &&
      match currentQuestion s with
      | Some q => bool_decide (i < length (options q))
      | None => false
      end
  | NextQuestion =>
      negb (quizCompleted s) && showExplanation s &&
      bool_decide (is_Some (currentQuestion s))
  | IntervalTick => interval_running s
  | RetakeQuiz => quizCompleted s
  end.

Definition handler (e : UIEvent) (s : QuizState) : option QuizState :=
  match e with
  | SelectOption i => handleAnswerSelect i s
  | NextQuestion => Some (handleNextQuestion s)
  | IntervalTick => Some (tick s)
  | RetakeQuiz => Some (handleRestart s)
  end.

(** One event: the handler's state updates are rendered, then the timer
    effect runs on the new render. *)
Definition react (s : QuizState) (e : UIEvent) : option QuizState :=
  if enabled s e then timer_effect <$> handler e s else None.

Fixpoint run (s : QuizState) (es : list UIEvent) : option QuizState :=
  match es with
  | [] => Some s
  | e :: es' => s' ← react s e; run s' es'
  end.

Inductive quiz_step : QuizState -> UIEvent -> QuizState -> Prop :=
| step_select s q i s1 :
    quizCompleted s = false -> showExplanation s = false ->
    currentQuestion s = Some q -> i < length (options q) ->
    handleAnswerSelect i s = Some s1 ->
    quiz_step s (SelectOption i) (timer_effect s1)
| step_next s q :
    quizCompleted s = false -> showExplanation s = true ->
    currentQuestion s = Some q ->
    quiz_step s NextQuestion (timer_effect (handleNextQuestion s))
| step_tick s :
    interval_running s = true ->
    quiz_step s IntervalTick (timer_effect (tick s))
| step_retake s :
    quizCompleted s = true ->
    quiz_step s RetakeQuiz (timer_effect (handleRestart s)).

Inductive reachable : QuizState -> Prop :=
| reach_mounted : reachable mounted
| reach_step s e s' : reachable s -> quiz_step s e s' -> reachable s'.

(** ** What the invariant speaks about *)

(** Whether a recorded answer is the question's correct option. *)
Definition answer_correct (q : Question) (a : option nat) : bool :=
  match a with Some x => bool_decide (x = correctAnswer q) | None => false end.

Definition correctness (answers : list (option nat)) : list bool :=
  zip_with answer_correct questions answers.

(** The points of the correctly answered questions. *)
Definition answers_score (answers : list (option nat)) : nat :=
  sum_list (zip_with (fun q a => if answer_correct q a then points q else 0)
                     questions answers).

(** The number of correct answers. *)
Definition correct_count (answers : list (option nat)) : nat :=
  length (List.filter (fun b : bool => b) (correctness answers)).

Record quiz_inv (s : QuizState) : Prop := {
  inv_time : timeLeft s <= time_budget;
  inv_active : timerActive s = negb (quizCompleted s);
  inv_running : quizCompleted s = false -> 0 < timeLeft s;
  inv_index : currentQuestionIndex s < Nat.max 1 (length questions);
  inv_answers : length (selectedAnswers s) =
    currentQuestionIndex s + (if showExplanation s then 1 else 0);
  inv_answered : showExplanation s = true -> currentQuestionIndex s < length questions;
  inv_no_holes : Forall (fun a => is_Some a) (selectedAnswers s);
  inv_score : score s = answers_score (selectedAnswers s);
  inv_streak : streak s = trailing_run (correctness (selectedAnswers s));
  inv_perfect : perfectAnswers s <= correct_count (selectedAnswers s)
}.

(** ** Lemmas on the handlers *)

Lemma timer_effect_pos s : 0 < timeLeft s -> timer_effect s = s.
Proof.
  intros H. unfold timer_effect.
  destruct (interval_running s); [done|]. by rewrite bool_decide_eq_false_2 by lia.
Qed.

(** Answering the current question appends the answer to the array. *)
Lemma handleAnswerSelect_next s q i :
  showExplanation s = false -> currentQuestion s = Some q ->
  length (selectedAnswers s) = currentQuestionIndex s ->
  handleAnswerSelect i s = Some
    (let c := answer_correct q (Some i) in
     {| currentQuestionIndex := currentQuestionIndex s;
        selectedAnswers := selectedAnswers s ++ [Some i]; showExplanation := true;
        quizCompleted := quizCompleted s; timeLeft := timeLeft s;
        timerActive := timerActive s;
        score := score s + (if c then points q else 0);
        streak := run_step (streak s) c;
        perfectAnswers := if c && bool_decide (perfect_threshold < timeLeft s)
                          then S (perfectAnswers s) else perfectAnswers s;
        completions := completions s |}).
Proof.
  intros Hx Hq Hlen. unfold handleAnswerSelect. rewrite Hx, Hq.
  rewrite js_array_set_push by done. simpl.
  destruct (bool_decide (i = correctAnswer q)); simpl; by rewrite ?Nat.add_0_r.
Qed.

Lemma correctness_snoc answers q x :
  questions !! length answers = Some q ->
  correctness (answers ++ [x]) = correctness answers ++ [answer_correct q x].
Proof. apply zip_with_snoc. Qed.

Lemma answers_score_snoc answers q x :
  questions !! length answers = Some q ->
  answers_score (answers ++ [x]) =
    answers_score answers + (if answer_correct q x then points q else 0).
Proof.
  intros Hq. unfold answers_score. rewrite (zip_with_snoc _ _ _ q) by done.
  rewrite sum_list_app. simpl. lia.
Qed.

Lemma correct_count_snoc answers q x :
  questions !! length answers = Some q ->
  correct_count (answers ++ [x]) =
    correct_count answers + (if answer_correct q x then 1 else 0).
Proof.
  intros Hq. unfold correct_count. rewrite (correctness_snoc _ q) by done.
  by rewrite length_filter_snoc.
Qed.

Lemma correct_count_le answers : correct_count answers <= length answers.
Proof.
  unfold correct_count, correctness.
  etrans; [apply List.filter_length_le|]. rewrite length_zip_with. lia.
Qed.

#[local] Hint Resolve correct_count_le : yagna.

(** ** The invariant of the reachable states *)

Lemma quiz_inv_mounted : quiz_inv mounted.
Proof.
  constructor; simpl; unfold time_budget; try done; try lia.
  all: unfold answers_score, correct_count, correctness.
  all: by destruct questions.
Qed.

Lemma quiz_inv_select s q i s1 :
  quiz_inv s -> quizCompleted s = false -> showExplanation s = false ->
  currentQuestion s = Some q -> handleAnswerSelect i s = Some s1 ->
  quiz_inv (timer_effect s1).
Proof.
  intros [] Hc Hx Hq Hs. rewrite Hx in inv_answers0.
  rewrite (handleAnswerSelect_next s q) in Hs by (done || lia). simplify_eq/=.
  assert (questions !! length (selectedAnswers s) = Some q) as Hq'
    by (rewrite inv_answers0, Nat.add_0_r; exact Hq).
  rewrite timer_effect_pos by (simpl; auto). constructor; simpl; try done.
  - rewrite length_app. simpl. lia.
  - intros _. by apply lookup_lt_Some in Hq.
  - apply Forall_app_2; [done|]. constructor; [by eexists|constructor].
  - rewrite (answers_score_snoc _ q) by done. simpl. lia.
  - rewrite (correctness_snoc _ q), trailing_run_snoc by done. simpl. congruence.
  - rewrite (correct_count_snoc _ q) by done. simpl.
    destruct (bool_decide (i = _)), (bool_decide (_ < _)); simpl; lia.
Qed.

Lemma quiz_inv_complete s : quiz_inv s -> quiz_inv (completeQuiz s).
Proof. intros []; constructor; simpl; auto; discriminate. Qed.

Lemma handleTimeUp_running s :
  quizCompleted s = false -> handleTimeUp s = completeQuiz s.
Proof. intros H. unfold handleTimeUp. by rewrite H. Qed.

(** The last tick completes the quiz, with the values of that render. *)
Lemma tick_expire s :
  timeLeft s = 1 -> quizCompleted s = false ->
  timer_effect (tick s) = completeQuiz (tick s).
Proof.
  intros Ht Hc. unfold timer_effect, interval_running. simpl.
  replace (timeLeft s - 1) with 0 by lia.
  rewrite (bool_decide_eq_false_2 (0 < 0)), andb_false_r by lia. simpl.
  by apply handleTimeUp_running.
Qed.

Lemma quiz_inv_next s q :
  quiz_inv s -> quizCompleted s = false -> showExplanation s = true ->
  currentQuestion s = Some q -> quiz_inv (timer_effect (handleNextQuestion s)).
Proof.
  intros Hinv Hc Hx Hq. pose proof (inv_running _ Hinv Hc).
  unfold handleNextQuestion. case_bool_decide as Hlt; rewrite js_lt_pred in Hlt.
  - rewrite timer_effect_pos by done. destruct Hinv as [].
    rewrite Hx in inv_answers0. constructor; simpl; try done; lia.
  - rewrite timer_effect_pos by done. by apply quiz_inv_complete.
Qed.

Lemma interval_running_spec s :
  interval_running s = true <->
  timerActive s = true /\ 0 < timeLeft s /\ quizCompleted s = false.
Proof.
  unfold interval_running. rewrite !andb_true_iff, negb_true_iff, bool_decide_eq_true.
  tauto.
Qed.

Lemma quiz_inv_tick s :
  quiz_inv s -> interval_running s = true -> quiz_inv (timer_effect (tick s)).
Proof.
  intros Hinv (Ha & Ht & Hc)%interval_running_spec.
  destruct (decide (timeLeft s = 1)) as [E|E].
  - rewrite tick_expire by done. destruct Hinv as [].
    constructor; simpl; auto; try lia; discriminate.
  - rewrite timer_effect_pos by (simpl; lia). destruct Hinv as [].
    constructor; simpl; auto; lia.
Qed.

Lemma quiz_inv_retake s : quiz_inv s -> quiz_inv (timer_effect (handleRestart s)).
Proof.
  intros _. rewrite timer_effect_pos by (simpl; unfold time_budget; lia).
  constructor; simpl; unfold time_budget; try done; try lia.
  all: unfold answers_score, correct_count, correctness.
  all: by destruct questions.
Qed.

Lemma quiz_inv_step s e s' : quiz_inv s -> quiz_step s e s' -> quiz_inv s'.
Proof.
  intros Hinv Hstep. revert Hinv.
  destruct Hstep; intros;
    [eapply quiz_inv_select|eapply quiz_inv_next|apply quiz_inv_tick|apply quiz_inv_retake];
    eauto.
Qed.

Lemma quiz_inv_reachable s : reachable s -> quiz_inv s.
Proof.
  induction 1; eauto using quiz_inv_mounted, quiz_inv_step.
Qed.

(** ** The executable semantics is the step relation *)

Lemma react_step s e s' : react s e = Some s' <-> quiz_step s e s'.
Proof.
  split.
  - unfold react. destruct (enabled s e) eqn:He; [|done].
    destruct e as [i| | |]; simpl in *.
    + destruct (quizCompleted s) eqn:Hc, (showExplanation s) eqn:Hx,
        (currentQuestion s) as [q|] eqn:Hq; try done.
      case_bool_decide; [|done].
      destruct (handleAnswerSelect i s) eqn:Hs; intros Hr; simplify_eq/=.
      by econstructor.
    + destruct (quizCompleted s) eqn:Hc, (showExplanation s) eqn:Hx,
        (currentQuestion s) as [q|] eqn:Hq; try done.
      intros [= <-]. by econstructor.
    + intros [= <-]. by constructor.
    + intros [= <-]. by constructor.
  - intros []; unfold react; simpl.
    + repeat match goal with H : _ = _ |- _ => rewrite H end.
      rewrite bool_decide_eq_true_2 by done. simpl. by rewrite ?H3.
    + repeat match goal with H : _ = _ |- _ => rewrite H end. done.
    + by rewrite H.
    + by rewrite H.
Qed.

Lemma run_app s es1 es2 :
  run s (es1 ++ es2) = s' ← run s es1; run s' es2.
Proof.
  revert s. induction es1 as [|e es1 IH]; intros s; simpl; [done|].
  destruct (react s e); simpl; [apply IH|done].
Qed.

Lemma run_reachable s es s' : reachable s -> run s es = Some s' -> reachable s'.
Proof.
  revert s. induction es as [|e es IH]; intros s Hs; simpl; [congruence|].
  destruct (react s e) as [s1|] eqn:He; [|done].
  apply react_step in He. eauto using reach_step.
Qed.

(** ** Completion *)

(** [s'] has scheduled exactly the notifications of a completion that
    happened between [s] and [s']. *)
Definition emits (s s' : QuizState) : Prop :=
  completions s' = completions s ++
    (if negb (quizCompleted s) && quizCompleted s'
     then [(score s', totalXP s')] else []).

Lemma emits_refl s : emits s s.
Proof. unfold emits. destruct (quizCompleted s); simpl; by rewrite ?app_nil_r. Qed.

Lemma emits_same s s1 s2 :
  completions s1 = completions s -> quizCompleted s1 = quizCompleted s ->
  emits s1 s2 -> emits s s2.
Proof. intros Hc Hq He. unfold emits in *. by rewrite He, Hc, Hq. Qed.

Lemma emits_complete s : quizCompleted s = false -> emits s (completeQuiz s).
Proof. intros H. unfold emits. by rewrite H. Qed.

Lemma timer_effect_emits s : emits s (timer_effect s).
Proof.
  unfold timer_effect. destruct (interval_running s); [apply emits_refl|].
  case_bool_decide; [|apply emits_refl]. unfold handleTimeUp.
  destruct (quizCompleted s) eqn:Hc.
  - unfold emits. simpl. by rewrite Hc, app_nil_r.
  - unfold emits. simpl. by rewrite Hc.
Qed.

Lemma timer_effect_completeQuiz s : timer_effect (completeQuiz s) = completeQuiz s.
Proof.
  unfold timer_effect, interval_running. simpl. by case_bool_decide.
Qed.

(** The timer effect is idempotent: its second run (React re-runs it
    because [handleTimeUp] changed its dependencies) changes nothing, so
    one run per event is the fixpoint React reaches. *)
Lemma timer_effect_idem s : timer_effect (timer_effect s) = timer_effect s.
Proof.
  destruct (interval_running s) eqn:Hr; [unfold timer_effect; by rewrite !Hr|].
  destruct (decide (timeLeft s = 0)) as [Ht|Ht].
  - assert (timer_effect s = handleTimeUp s) as ->
      by (unfold timer_effect; rewrite Hr; by rewrite bool_decide_eq_true_2).
    unfold handleTimeUp. destruct (quizCompleted s) eqn:Hc.
    + unfold timer_effect, interval_running, handleTimeUp. simpl.
      by case_bool_decide.
    + apply timer_effect_completeQuiz.
  - assert (timer_effect s = s) as ->
      by (unfold timer_effect; rewrite Hr; by rewrite bool_decide_eq_false_2).
    unfold timer_effect. rewrite Hr. by rewrite bool_decide_eq_false_2.
Qed.

Lemma handleAnswerSelect_same s i s1 :
  handleAnswerSelect i s = Some s1 ->
  completions s1 = completions s /\ quizCompleted s1 = quizCompleted s.
Proof.
  unfold handleAnswerSelect. destruct (showExplanation s); [by intros [= <-]|].
  destruct (currentQuestion s); [|done]. by case_bool_decide; intros [= <-].
Qed.

Lemma timer_effect_fields s :
  selectedAnswers (timer_effect s) = selectedAnswers s /\
  timeLeft (timer_effect s) = timeLeft s /\ score (timer_effect s) = score s /\
  streak (timer_effect s) = streak s /\
  perfectAnswers (timer_effect s) = perfectAnswers s.
Proof.
  unfold timer_effect, handleTimeUp.
  destruct (interval_running s), (bool_decide (timeLeft s = 0)), (quizCompleted s); done.
Qed.

Lemma totalXP_completeQuiz s : totalXP (completeQuiz s) = totalXP s.
Proof. done. Qed.

(** [n + 1] ticks from a running state with [n + 1] seconds left end the
    quiz through [handleTimeUp]. *)
Lemma ticks_complete n s :
  quiz_inv s -> quizCompleted s = false -> timeLeft s = S n ->
  exists s', run s (replicate (S n) IntervalTick) = Some s' /\
    quizCompleted s' = true /\ timeLeft s' = 0 /\ score s' = score s /\
    streak s' = streak s /\ perfectAnswers s' = perfectAnswers s /\
    completions s' = completions s ++ [(score s', totalXP s')].
Proof.
  revert s. induction n as [|n IH]; intros s Hinv Hc Ht.
  all: assert (interval_running s = true) as Hr
    by (apply interval_running_spec; rewrite (inv_active _ Hinv), Hc; auto with lia).
  all: simpl; unfold react; simpl; rewrite Hr; simpl.
  - rewrite tick_expire by done. eexists; split; [done|].
    simpl. rewrite Ht. repeat split; auto.
  - pose proof (quiz_inv_tick _ Hinv Hr) as Hinv'.
    rewrite timer_effect_pos in * by (simpl; lia).
    destruct (IH (tick s)) as (s' & Hrun & H'); simpl; auto with lia.
    exists s'. split; [exact Hrun|]. simpl in H'. exact H'.
Qed.

Lemma reachable_length_answers s :
  reachable s -> length (selectedAnswers s) <= length questions.
Proof.
  intros [_ _ _ Hidx Hlen Hans _ _ _ _]%quiz_inv_reachable.
  destruct (showExplanation s); [specialize (Hans eq_refl)|]; lia.
Qed.

(** ** Properties of the component *)

(** C1: In every reachable state, [score] is the sum of the point values
    of the questions whose recorded answer is the correct option
    (spec 8.2). *)
Theorem score_is_points_of_correct_answers s :
  reachable s -> score s = answers_score (selectedAnswers s).
Proof. intros H. apply (inv_score _ (quiz_inv_reachable s H)). Qed.

(** C2: In every reachable state, [streak] is the number of consecutive
    correct answers at the end of the recorded answers: a wrong answer
    resets it to 0 and a correct one increments it (spec 8.3). *)
Theorem streak_is_trailing_correct_run s :
  reachable s -> streak s = trailing_run (correctness (selectedAnswers s)).
Proof. intros H. apply (inv_streak _ (quiz_inv_reachable s H)). Qed.

(** C3: Every step schedules exactly one [onComplete(score, totalXP)]
    notification when it takes the quiz from in progress to completed,
    with the score and XP of the completed state, and none otherwise. *)
Theorem completion_notified_once s e s' :
  quiz_step s e s' ->
  completions s' = completions s ++
    (if negb (quizCompleted s) && quizCompleted s'
     then [(score s', totalXP s')] else []).
Proof.
  intros Hstep. change (emits s s'). destruct Hstep as [s q i s1 Hc Hx Hq Hi Hs| | |].
  - apply handleAnswerSelect_same in Hs as [Hc1 Hq1].
    eapply emits_same; [exact Hc1|exact Hq1|apply timer_effect_emits].
  - unfold handleNextQuestion. case_bool_decide.
    + eapply emits_same; [| |apply timer_effect_emits]; done.
    + rewrite timer_effect_completeQuiz. by apply emits_complete.
  - eapply emits_same; [| |apply timer_effect_emits]; done.
  - rewrite timer_effect_pos by (simpl; unfold time_budget; lia).
    unfold emits. simpl. by rewrite H, app_nil_r.
Qed.

(** C4: The quiz always ends: from every reachable state in progress, the
    interval's ticks complete it in [timeLeft] steps, keeping the score,
    streak and perfect count, and notify the caller once. *)
Theorem quiz_completes_by_timer s :
  reachable s -> quizCompleted s = false ->
  exists s', run s (replicate (timeLeft s) IntervalTick) = Some s' /\
    quizCompleted s' = true /\ score s' = score s /\ streak s' = streak s /\
    perfectAnswers s' = perfectAnswers s /\
    completions s' = completions s ++ [(score s', totalXP s')].
Proof.
  intros Hr Hc. pose proof (quiz_inv_reachable s Hr) as Hinv.
  destruct (timeLeft s) as [|n] eqn:Ht; [pose proof (inv_running _ Hinv Hc); lia|].
  destruct (ticks_complete n s) as (s' & ? & ? & _ & ?); eauto.
Qed.

(** C5: Without an answer, 300 ticks complete the quiz with score 0 and
    total XP 0 when there is at least one question (spec 8.5). *)
Theorem timeout_without_answers s' :
  questions <> [] -> run mounted (replicate time_budget IntervalTick) = Some s' ->
  quizCompleted s' = true /\ score s' = 0 /\ completions s' = [(0, 0)].
Proof.
  intros Hne Hrun.
  destruct (ticks_complete 299 mounted quiz_inv_mounted eq_refl eq_refl)
    as (s1 & Hrun1 & Hc & Ht & Hs & Hk & Hp & Hl).
  change (replicate time_budget IntervalTick) with (replicate 300 IntervalTick) in Hrun.
  rewrite Hrun1 in Hrun. injection Hrun as <-.
  split; [done|]. split; [exact Hs|]. rewrite Hl. unfold totalXP, bonusXP.
  rewrite Hs, Hk, Hp, Ht. clear Hrun1.
  destruct questions as [|q qs]; [by destruct Hne|reflexivity].
Qed.

(** C6: Answers are only ever appended: except Retake, a step keeps the
    recorded answers as a prefix, never raises [timeLeft] and never
    lowers [score] (no re-answering, spec 3). *)
Theorem answers_append_only s e s' :
  reachable s -> quiz_step s e s' -> e <> RetakeQuiz ->
  selectedAnswers s `prefix_of` selectedAnswers s' /\
  timeLeft s' <= timeLeft s /\ score s <= score s'.
Proof.
  intros Hr Hstep He. pose proof (quiz_inv_reachable s Hr) as Hinv.
  destruct Hstep as [s q i s1 Hc Hx Hq Hi Hs|s q Hc Hx Hq|s|]; [| | |done];
    match goal with |- context [timer_effect ?x] =>
      destruct (timer_effect_fields x) as (-> & -> & -> & _) end.
  - rewrite (handleAnswerSelect_next s q) in Hs
      by (rewrite ?(inv_answers _ Hinv), ?Hx; (done || lia)).
    simplify_eq/=. split; [by eexists|lia].
  - unfold handleNextQuestion. case_bool_decide; simpl; split; [reflexivity|lia| |lia].
    reflexivity.
  - simpl. split; [reflexivity|lia].
Qed.

(** The perfect-quiz bonus is granted only when every question has a
    recorded correct answer: if [perfectAnswers] equals the number of
    questions, the answer to each question is its correct option
    (spec 8.4, the direction that holds without timing data). *)
Theorem perfect_bonus_needs_all_correct s :
  reachable s -> perfectAnswers s = length questions ->
  forall i q, questions !! i = Some q ->
  selectedAnswers s !! i = Some (Some (correctAnswer q)).
Proof.
  intros Hr Hp i q Hq. pose proof (reachable_length_answers s Hr) as Hle.
  pose proof (inv_perfect _ (quiz_inv_reachable s Hr)) as Hpc.
  pose proof (correct_count_le (selectedAnswers s)).
  assert (i < length (selectedAnswers s)) as Hi by (apply lookup_lt_Some in Hq; lia).
  apply lookup_lt_is_Some in Hi as [y Hy]. rewrite Hy.
  assert (answer_correct q y = true) as Hc.
  { eapply (filter_zip_with_full answer_correct); [|exact Hq|exact Hy].
    unfold correct_count in *. fold (correctness (selectedAnswers s)). lia. }
  destruct y as [y|]; simpl in Hc; [|done]. by case_bool_decide; subst.
Qed.

(** C8: The XP reported on completion is bounded: at most the sum of all
    question points, plus the perfect (100) and speed (50) bonuses, plus
    25 XP per question for the streak. *)
Theorem totalXP_bounded s :
  reachable s ->
  totalXP s <= sum_list (map points questions) + 150 + 25 * length questions.
Proof.
  intros Hr. pose proof (reachable_length_answers s Hr).
  pose proof (inv_streak _ (quiz_inv_reachable s Hr)) as Hk.
  pose proof (trailing_run_le (correctness (selectedAnswers s))) as Ht.
  unfold correctness in Ht, Hk. rewrite length_zip_with in Ht.
  assert (score s <= sum_list (map points questions)).
  { rewrite (inv_score _ (quiz_inv_reachable s Hr)). apply sum_zip_with_le.
    intros q a. destruct (answer_correct q a); lia. }
  unfold totalXP, bonusXP. decide_all.
Qed.

(** A user answering [a] and pressing Next, for each [a] in turn. *)
Definition answer_rounds (answers : list nat) : list UIEvent :=
  flat_map (fun a => [SelectOption a; NextQuestion]) answers.

Lemma react_select s q i s1 :
  quizCompleted s = false -> showExplanation s = false ->
  currentQuestion s = Some q -> i < length (options q) ->
  handleAnswerSelect i s = Some s1 -> react s (SelectOption i) = Some (timer_effect s1).
Proof. intros. apply react_step. by econstructor. Qed.

Lemma react_next s q :
  quizCompleted s = false -> showExplanation s = true -> currentQuestion s = Some q ->
  react s NextQuestion = Some (timer_effect (handleNextQuestion s)).
Proof. intros. apply react_step. by econstructor. Qed.

Lemma answer_rounds_complete answers s :
  quiz_inv s -> quizCompleted s = false -> showExplanation s = false ->
  currentQuestionIndex s + length answers = length questions -> answers <> [] ->
  (forall j a q, answers !! j = Some a ->
     questions !! (currentQuestionIndex s + j) = Some q -> a < length (options q)) ->
  exists s', run s (answer_rounds answers) = Some s' /\ quizCompleted s' = true /\
    selectedAnswers s' = selectedAnswers s ++ map Some answers /\
    timeLeft s' = timeLeft s /\ completions s' = completions s ++ [(score s', totalXP s')].
Proof.
  revert s. induction answers as [|a rest IH]; intros s Hinv Hc Hx Hlen Hne Hv; [done|].
  simpl in Hlen.
  destruct (lookup_lt_is_Some_2 questions (currentQuestionIndex s)) as [q Hq]; [lia|].
  pose proof (Hv 0 a q eq_refl) as Ha. rewrite Nat.add_0_r in Ha. specialize (Ha Hq).
  pose proof (inv_running _ Hinv Hc).
  assert (length (selectedAnswers s) = currentQuestionIndex s)
    by (rewrite (inv_answers _ Hinv), Hx; lia).
  pose proof (handleAnswerSelect_next s q a Hx Hq ltac:(done)) as Hs.
  pose proof (quiz_inv_select s q a _ Hinv Hc Hx Hq Hs) as Hinv1.
  simpl. rewrite (react_select s q a _ Hc Hx Hq Ha Hs). simpl.
  rewrite timer_effect_pos in * by (simpl; lia).
  rewrite (react_next _ q) by done. simpl.
  pose proof (quiz_inv_next _ q Hinv1 Hc eq_refl Hq) as Hinv2.
  unfold handleNextQuestion in *. simpl in *. case_bool_decide as Hlt.
  - rewrite js_lt_pred in Hlt. rewrite timer_effect_pos in * by (simpl; lia).
    destruct (IH (mkQuizState (S (currentQuestionIndex s)) (selectedAnswers s ++ [Some a])
      false (quizCompleted s) (timeLeft s) (timerActive s)
      (score s + (if answer_correct q (Some a) then points q else 0))
      (run_step (streak s) (answer_correct q (Some a)))
      (if answer_correct q (Some a) && bool_decide (perfect_threshold < timeLeft s)
       then S (perfectAnswers s) else perfectAnswers s) (completions s)))
      as (s' & Hrun & Hc' & Ha' & Ht' & Hl'); simpl; try done; try lia.
    + by destruct rest; simpl in *; [lia|].
    + intros j a' q' Hj Hq'. apply (Hv (S j)); [done|]. by rewrite <- Nat.add_succ_comm.
    + exists s'. simpl in Ha', Ht', Hl'. rewrite Ha', <- app_assoc. auto.
  - rewrite js_lt_pred in Hlt. rewrite timer_effect_completeQuiz.
    destruct rest; [|simpl in *; lia].
    eexists. split; [done|]. simpl. auto.
Qed.

(** C9: Answering every question in turn, each with one of its options,
    and pressing Next after each, completes the quiz with those answers and
    one notification, whatever the answers are (spec 8.1). *)
Theorem answering_all_questions_completes answers :
  length answers = length questions -> answers <> [] ->
  (forall j a q, answers !! j = Some a -> questions !! j = Some q ->
     a < length (options q)) ->
  exists s', run mounted (answer_rounds answers) = Some s' /\
    quizCompleted s' = true /\ selectedAnswers s' = map Some answers /\
    completions s' = [(score s', totalXP s')].
Proof.
  intros Hlen Hne Hv.
  destruct (answer_rounds_complete answers mounted) as (s' & ? & ? & ? & _ & ?);
    eauto using quiz_inv_mounted.
Qed.

End QuizModal.

(** ** The quiz data of [LearningModules] (LearningModules.tsx, lines 141-211)

    [quizQuestions[id] || []] (line 547): a module without an entry gets
    an empty list. *)

Definition financial_basics_quiz : list Question := [
  mkQuestion 1 "What is the recommended percentage of income to save each month?"
    ["5-10%"; "10-20%"; "20-30%"; "30-40%"] 1
    "Financial experts generally recommend saving 10-20% of your income each month. This creates a good balance between current needs and future security."
    Easy 25;
  mkQuestion 2 "What is compound interest?"
    ["Interest only on the principal amount";
     "Interest on both principal and previously earned interest";
     "A type of loan interest"; "Interest that decreases over time"] 1
    "Compound interest is interest calculated on both the initial principal and the accumulated interest from previous periods. This creates exponential growth over time."
    Medium 35;
  mkQuestion 3 "Which of these is NOT a good budgeting strategy?"
    ["The 50/30/20 rule"; "Zero-based budgeting";
     "Spending first, saving what's left"; "Envelope method"] 2
    "Spending first and saving what's left is not a good strategy. You should prioritize saving by paying yourself first, then spending what remains."
    Easy 20].

Definition smart_spending_quiz : list Question := [
  mkQuestion 1 "What's the best way to avoid impulse purchases?"
    ["Shop when you're hungry"; "Use the 24-hour rule"; "Shop without a list";
     "Buy everything you want immediately"] 1
    "The 24-hour rule involves waiting a day before making non-essential purchases. This helps you distinguish between wants and needs."
    Easy 25;
  mkQuestion 2 "When comparing prices, what should you consider besides the initial cost?"
    ["Only the brand name"; "Total cost of ownership including maintenance";
     "The most expensive option is always best"; "Only the cheapest option matters"] 1
    "Total cost of ownership includes purchase price, maintenance, operating costs, and disposal costs. This gives you the true cost comparison."
    Medium 35].

Definition quizQuestions (moduleId : nat) : list Question :=
  match moduleId with
  | 1 => financial_basics_quiz
  | 2 => smart_spending_quiz
  | _ => []
  end.

(** A run of the Financial Basics quiz: five seconds, a correct answer,
    Next, a wrong answer, Next. *)
Definition demo_events : list UIEvent :=
  replicate 5 IntervalTick ++ [SelectOption 1; NextQuestion; SelectOption 0; NextQuestion].

Definition demo_state : QuizState :=
  default (mounted) (run financial_basics_quiz mounted demo_events).

Lemma demo_reachable : reachable financial_basics_quiz demo_state.
Proof. apply (run_reachable _ mounted demo_events); [constructor|vm_compute; reflexivity]. Qed.

Lemma score_is_points_of_correct_answers_witness :
  reachable financial_basics_quiz demo_state /\ score demo_state = 25 /\
  score demo_state = answers_score financial_basics_quiz (selectedAnswers demo_state).
Proof.
  split; [exact demo_reachable|split; [vm_compute; reflexivity|]].
  apply (score_is_points_of_correct_answers financial_basics_quiz demo_state demo_reachable).
Defined.

Lemma streak_is_trailing_correct_run_witness :
  reachable financial_basics_quiz demo_state /\ streak demo_state = 0 /\
  streak demo_state =
    trailing_run (correctness financial_basics_quiz (selectedAnswers demo_state)).
Proof.
  split; [exact demo_reachable|split; [vm_compute; reflexivity|]].
  apply (streak_is_trailing_correct_run financial_basics_quiz demo_state demo_reachable).
Defined.

(** The same run, then the correct answer to the last question, then Next. *)
Definition demo_answered : QuizState :=
  default mounted (run financial_basics_quiz mounted (demo_events ++ [SelectOption 2])).

Definition demo_done : QuizState :=
  default mounted (run financial_basics_quiz demo_answered [NextQuestion]).

Lemma demo_answered_reachable : reachable financial_basics_quiz demo_answered.
Proof.
  apply (run_reachable _ mounted (demo_events ++ [SelectOption 2]));
    [constructor|vm_compute; reflexivity].
Qed.

Lemma demo_done_reachable : reachable financial_basics_quiz demo_done.
Proof.
  apply (run_reachable _ demo_answered [NextQuestion]);
    [exact demo_answered_reachable|vm_compute; reflexivity].
Qed.

Lemma completion_notified_once_witness :
  quiz_step financial_basics_quiz demo_answered NextQuestion demo_done /\
  completions demo_done = [(45, 95)].
Proof.
  assert (Hs : quiz_step financial_basics_quiz demo_answered NextQuestion demo_done)
    by (apply react_step; vm_compute; reflexivity).
  split; [exact Hs|].
  rewrite (completion_notified_once financial_basics_quiz _ _ _ Hs).
  vm_compute. reflexivity.
Defined.

Lemma quiz_completes_by_timer_witness :
  reachable financial_basics_quiz demo_answered /\
  quizCompleted demo_answered = false /\
  exists s', run financial_basics_quiz demo_answered
               (replicate (timeLeft demo_answered) IntervalTick) = Some s' /\
    quizCompleted s' = true /\ score s' = score demo_answered /\
    streak s' = streak demo_answered /\
    perfectAnswers s' = perfectAnswers demo_answered /\
    completions s' = completions demo_answered ++
                     [(score s', totalXP financial_basics_quiz s')].
Proof.
  assert (Hc : quizCompleted demo_answered = false) by (vm_compute; reflexivity).
  split; [exact demo_answered_reachable|split; [exact Hc|]].
  exact (quiz_completes_by_timer financial_basics_quiz demo_answered
           demo_answered_reachable Hc).
Defined.

Definition demo_timeout : QuizState :=
  default mounted (run financial_basics_quiz mounted (replicate time_budget IntervalTick)).

Lemma timeout_without_answers_witness :
  financial_basics_quiz <> [] /\
  run financial_basics_quiz mounted (replicate time_budget IntervalTick) = Some demo_timeout /\
  quizCompleted demo_timeout = true /\ score demo_timeout = 0 /\
  completions demo_timeout = [(0, 0)].
Proof.
  assert (Hne : financial_basics_quiz <> []) by discriminate.
  assert (Hr : run financial_basics_quiz mounted (replicate time_budget IntervalTick)
               = Some demo_timeout) by (vm_compute; reflexivity).
  split; [exact Hne|split; [exact Hr|]].
  exact (timeout_without_answers financial_basics_quiz demo_timeout Hne Hr).
Defined.

Lemma answers_append_only_witness :
  reachable financial_basics_quiz demo_state /\
  quiz_step financial_basics_quiz demo_state (SelectOption 2) demo_answered /\
  selectedAnswers demo_state `prefix_of` selectedAnswers demo_answered /\
  timeLeft demo_answered <= timeLeft demo_state /\
  score demo_state <= score demo_answered.
Proof.
  assert (Hs : quiz_step financial_basics_quiz demo_state (SelectOption 2) demo_answered)
    by (apply react_step; vm_compute; reflexivity).
  split; [exact demo_reachable|split; [exact Hs|]].
  apply (answers_append_only financial_basics_quiz demo_state (SelectOption 2) demo_answered
           demo_reachable Hs); discriminate.
Defined.

(** All three questions answered correctly at once. *)
Definition demo_perfect : QuizState :=
  default mounted (run financial_basics_quiz mounted (answer_rounds [1; 1; 2])).

Lemma demo_perfect_reachable : reachable financial_basics_quiz demo_perfect.
Proof.
  apply (run_reachable _ mounted (answer_rounds [1; 1; 2]));
    [constructor|vm_compute; reflexivity].
Qed.

Lemma perfect_bonus_needs_all_correct_witness :
  reachable financial_basics_quiz demo_perfect /\
  perfectAnswers demo_perfect = length financial_basics_quiz /\
  selectedAnswers demo_perfect !! 2 = Some (Some 2).
Proof.
  assert (Hp : perfectAnswers demo_perfect = length financial_basics_quiz)
    by (vm_compute; reflexivity).
  split; [exact demo_perfect_reachable|split; [exact Hp|]].
  exact (perfect_bonus_needs_all_correct financial_basics_quiz demo_perfect
           demo_perfect_reachable Hp 2 _ eq_refl).
Defined.

Lemma totalXP_bounded_witness :
  reachable financial_basics_quiz demo_perfect /\
  totalXP financial_basics_quiz demo_perfect = 305 /\
  totalXP financial_basics_quiz demo_perfect <=
    sum_list (map points financial_basics_quiz) + 150 + 25 * length financial_basics_quiz.
Proof.
  split; [exact demo_perfect_reachable|split; [vm_compute; reflexivity|]].
  exact (totalXP_bounded financial_basics_quiz demo_perfect demo_perfect_reachable).
Defined.

Lemma answering_all_questions_completes_witness :
  length [1; 1; 2] = length financial_basics_quiz /\ [1; 1; 2] <> [] /\
  exists s', run financial_basics_quiz mounted (answer_rounds [1; 1; 2]) = Some s' /\
    quizCompleted s' = true /\ selectedAnswers s' = map Some [1; 1; 2] /\
    completions s' = [(score s', totalXP financial_basics_quiz s')].
Proof.
  assert (Hl : length [1; 1; 2] = length financial_basics_quiz) by reflexivity.
  assert (Hne : [1; 1; 2] <> []) by discriminate.
  split; [exact Hl|split; [exact Hne|]].
  apply (answering_all_questions_completes financial_basics_quiz [1; 1; 2] Hl Hne).
  intros j a q Hj Hq. destruct j as [|[|[|j]]]; simplify_eq/=; lia.
Defined.

(** A module whose quiz has no questions (modules 3 and 4 show a quiz
    button, but [quizQuestions] has no entry for them) still completes when
    the timer runs out, and [perfectAnswers === questions.length] holds as
    [0 === 0]: the caller is notified of 100 XP for a quiz with no
    question answered. *)
Example empty_quiz_timeout_awards_perfect_bonus :
  completions <$> run (quizQuestions 3) mounted (replicate time_budget IntervalTick)
  = Some [(0, 100)].
Proof. vm_compute. reflexivity. Qed.

(** The three questions of the spec's scenario (spec 8.7), worth 20, 30
    and 50 points. *)
Definition scenario_quiz : list Question := [
  mkQuestion 1 "Q1" ["a"; "b"] 0 "" Easy 20;
  mkQuestion 2 "Q2" ["a"; "b"] 1 "" Medium 30;
  mkQuestion 3 "Q3" ["a"; "b"] 0 "" Hard 50].

(** The spec's scenario: the three questions answered correctly at
    290, 280 and 270 seconds left, then completed at 270 seconds, give
    score 100 and total XP 100 + 100 (perfect) + 50 (speed) + 75 (streak
    of 3) = 325 (spec 8.7). *)
Example scenario_total_xp_325 :
  completions <$> run scenario_quiz mounted
    (replicate 10 IntervalTick ++ [SelectOption 0; NextQuestion] ++
     replicate 10 IntervalTick ++ [SelectOption 1; NextQuestion] ++
     replicate 10 IntervalTick ++ [SelectOption 0; NextQuestion])
  = Some [(100, 325)].
Proof. vm_compute. reflexivity. Qed.

End Quiz.
