(* ===== verification/QuizView.v ===== *)
(** * QuizView: what the quiz dialog prints (src/QuizModal.tsx)

    Three helpers of [QuizModal] turn the state into text.  [formatTime]
    prints the timer ([timeLeft], and [300 - timeLeft] on the results
    screen) as [m:ss].  [getScoreColor] and [getPerformanceMessage] grade
    the final score as a percentage of [questions.length * 50]: the code
    assumes at most 50 points per question.  The file proves that the
    timer text reads back to the number of seconds.  It also proves that,
    with the questions of src/LearningModules.tsx, the two top grades can
    never be shown.  (Strings are kept in ASCII: the emoji of the messages
    are left out.) *)

From stdpp Require Import base list strings pretty.
From Stdlib Require Import Ascii ZArith NArith QArith Lia.
From S2P Require Import Prelude Quiz.

Module QuizView.

(** ** The timer text (lines 140-144) *)

(** [Math.floor(seconds / 60)] is [Z.div]; [seconds % 60] keeps the sign
    of [seconds], which is [Z.rem]. *)
Definition formatTime (seconds : Z) : string :=
  let mins := Z.div seconds 60 in
  let secs := Z.rem seconds 60 in
  pretty mins +:+ ":" +:+ padStart 2 "0" (pretty secs).

(** ** Grading the score (lines 146-160) *)

Definition percentage (questions : list Quiz.Question) (score : nat) : Q :=
  inject_Z (Z.of_nat score) / inject_Z (Z.of_nat (length questions * 50)) * 100.

(** [getScoreColor].  With no question JS divides [0 / 0] into [NaN],
    every comparison fails and the colour is red; [Q] divides by zero
    into [0], which is red too. *)
Definition getScoreColor (questions : list Quiz.Question) (score : nat) : string :=
  let p := percentage questions score in
  if Qle_bool 90 p then "text-green-600"
  else if Qle_bool 70 p then "text-blue-600"
  else if Qle_bool 50 p then "text-yellow-600"
  else "text-red-600".

Record PerformanceMessage := mkPerformanceMessage { pm_message : string; pm_color : string }.

(** [getPerformanceMessage]. *)
Definition getPerformanceMessage (questions : list Quiz.Question) (score : nat)
  : PerformanceMessage :=
  let p := percentage questions score in
  if Qle_bool 90 p then mkPerformanceMessage "Outstanding!" "text-green-600"
  else if Qle_bool 70 p then mkPerformanceMessage "Great job!" "text-blue-600"
  else if Qle_bool 50 p then mkPerformanceMessage "Good effort!" "text-yellow-600"
  else mkPerformanceMessage "Keep practicing!" "text-red-600".

(** ** Reading the timer text back

    A reader of [m:ss]: decimal digits up to the colon, then decimal
    digits to the end. *)

Fixpoint scan_time (acc : N) (s : string) : option Z :=
  match s with
  | EmptyString => None
  | String c s' =>
      if bool_decide (c = ":"%char) then sv ← digits_go 0 s'; Some (Z.of_N acc * 60 + Z.of_N sv)%Z
      else d ← digit_val c; scan_time (acc * 10 + d)%N s'
  end.

Definition parse_time (s : string) : option Z := scan_time 0 s.

Lemma scan_time_digit acc d s :
  (d < 10)%N -> scan_time acc (String (pretty_N_char d) s) = scan_time (acc * 10 + d)%N s.
Proof.
  intros Hd. destruct (digit_val_char d Hd) as [Hv Hc]. simpl.
  by rewrite bool_decide_eq_false_2, Hv.
Qed.

(** ** The grade of a reachable score *)

Lemma score_le_points qs s :
  Quiz.reachable qs s -> (Quiz.score s <= sum_list (map Quiz.points qs))%nat.
Proof.
  intros Hr. rewrite (Quiz.inv_score qs _ (Quiz.quiz_inv_reachable qs s Hr)).
  apply sum_zip_with_le. intros q a. destruct (Quiz.answer_correct q a); lia.
Qed.

Lemma percentage_mono qs a b : (a <= b)%nat -> percentage qs a <= percentage qs b.
Proof.
  intros Hab. unfold percentage, Qdiv.
  apply Qmult_le_compat_r; [|discriminate]. apply Qmult_le_compat_r.
  - rewrite <- Zle_Qle. lia.
  - apply Qinv_le_0_compat. change 0 with (inject_Z 0). rewrite <- Zle_Qle. lia.
Qed.

(** Below 70%, neither the green nor the blue grade is shown. *)
Lemma grade_below_70 qs sc :
  percentage qs sc < 70 ->
  pm_message (getPerformanceMessage qs sc) <> "Outstanding!" /\
  pm_message (getPerformanceMessage qs sc) <> "Great job!" /\
  getScoreColor qs sc <> "text-green-600" /\ getScoreColor qs sc <> "text-blue-600".
Proof.
  intros Hp. unfold getPerformanceMessage, getScoreColor.
  assert (Qle_bool 90 (percentage qs sc) = false) as ->.
  { apply not_true_iff_false. rewrite Qle_bool_iff. intros H.
    apply (Qlt_not_le _ _ Hp). eapply Qle_trans; [|exact H]. discriminate. }
  assert (Qle_bool 70 (percentage qs sc) = false) as ->.
  { apply not_true_iff_false. rewrite Qle_bool_iff. by apply Qlt_not_le. }
  by destruct (Qle_bool 50 _).
Qed.

(** ** What the dialog prints *)

(** C39: For every non-negative number of seconds, the timer text
    [formatTime] is the minutes, a colon and a seconds part of exactly two
    digits that reads as [seconds % 60].  The whole text reads back to
    the number of seconds. *)
Theorem formatTime_roundtrip (t : Z) :
  (0 <= t)%Z ->
  parse_time (formatTime t) = Some t /\
  exists ss, formatTime t = pretty (t / 60)%Z +:+ ":" +:+ ss /\ String.length ss = 2%nat /\
             digits_go 0 ss = Some (Z.to_N (t mod 60)).
Proof.
  intros Ht.
  assert (0 <= t / 60)%Z by (apply Z.div_pos; lia).
  assert (0 <= Z.rem t 60 < 60)%Z by (split; [apply Z.rem_nonneg|apply Z.rem_bound_pos]; lia).
  assert (Hsecs : digits_go 0 (padStart 2 "0" (pretty (Z.rem t 60))) = Some (Z.to_N (t mod 60))).
  { unfold padStart. rewrite (pretty_Z_nonneg (Z.rem t 60)) by lia.
    rewrite (pad_zeros_read digits_go digits_go_digit).
    destruct (pretty_N_read digits_go digits_go_digit (Z.to_N (Z.rem t 60))) as [k' Hk'].
    rewrite <- (string_app_nil_r (pretty _)), Hk', N.mul_0_l, N.add_0_l.
    by rewrite Z.rem_mod_nonneg by lia. }
  split.
  - unfold formatTime. rewrite (pretty_Z_nonneg (t / 60)) by lia.
    destruct (pretty_N_read scan_time scan_time_digit (Z.to_N (t / 60))) as [k Hk].
    unfold parse_time. rewrite Hk.
    change (":" +:+ ?r) with (String ":" r). simpl. rewrite Hsecs. cbn. f_equal.
    rewrite !Z2N.id by (try apply Z.mod_pos_bound; lia). pose proof (Z.div_mod t 60). lia.
  - exists (padStart 2 "0" (pretty (Z.rem t 60))). split_and!; [reflexivity| |exact Hsecs].
    unfold padStart. rewrite (pretty_Z_nonneg (Z.rem t 60)) by lia.
    pose proof (pretty_secs_short (Z.to_N (Z.rem t 60)) ltac:(lia)) as Hlen.
    rewrite string_length_app, pad_chars_length. lia.
Qed.

(** C40: The grades divide the score by 50 points per question, but the
    questions of modules 1 and 2 are worth 80 of 150 and 60 of 100
    points: every score the quiz can reach is below 70%, so "Outstanding!"
    and "Great job!" (green and blue) are never shown, and a perfect score
    shows "Good effort!". *)
Theorem top_grades_unreachable (m : nat) s :
  (m = 1 \/ m = 2)%nat -> Quiz.reachable (Quiz.quizQuestions m) s ->
  pm_message (getPerformanceMessage (Quiz.quizQuestions m) (Quiz.score s)) <> "Outstanding!" /\
  pm_message (getPerformanceMessage (Quiz.quizQuestions m) (Quiz.score s)) <> "Great job!" /\
  getScoreColor (Quiz.quizQuestions m) (Quiz.score s) <> "text-green-600" /\
  getScoreColor (Quiz.quizQuestions m) (Quiz.score s) <> "text-blue-600" /\
  getPerformanceMessage (Quiz.quizQuestions m) (sum_list (map Quiz.points (Quiz.quizQuestions m)))
    = mkPerformanceMessage "Good effort!" "text-yellow-600".
Proof.
  intros Hm Hr. pose proof (percentage_mono (Quiz.quizQuestions m) _ _ (score_le_points _ _ Hr)) as Hle.
  assert (percentage (Quiz.quizQuestions m) (sum_list (map Quiz.points (Quiz.quizQuestions m))) < 70
          /\ getPerformanceMessage (Quiz.quizQuestions m)
               (sum_list (map Quiz.points (Quiz.quizQuestions m)))
             = mkPerformanceMessage "Good effort!" "text-yellow-600") as [Hmax Hgood]
    by (destruct Hm as [->| ->]; split; reflexivity).
  destruct (grade_below_70 (Quiz.quizQuestions m) (Quiz.score s)) as (H1 & H2 & H3 & H4);
    [eapply Qle_lt_trans; eauto|].
  split_and!; assumption.
Qed.

(** Witness of C39: 125 seconds print as 2:05. *)
Lemma formatTime_roundtrip_witness :
  formatTime 125 = "2:05" /\ parse_time (formatTime 125) = Some 125%Z /\
  exists ss, formatTime 125 = "2" +:+ ":" +:+ ss /\ String.length ss = 2%nat /\
             digits_go 0 ss = Some 5%N.
Proof. split; [reflexivity|]. exact (formatTime_roundtrip 125 ltac:(lia)). Defined.

(** Witness of C40: the demo run of module 1. *)
Lemma top_grades_unreachable_witness :
  Quiz.reachable (Quiz.quizQuestions 1) Quiz.demo_state /\
  getScoreColor (Quiz.quizQuestions 1) (Quiz.score Quiz.demo_state) <> "text-green-600".
Proof.
  split; [exact Quiz.demo_reachable|].
  exact (proj1 (proj2 (proj2 (top_grades_unreachable 1 Quiz.demo_state (or_introl eq_refl)
                                  Quiz.demo_reachable)))).
Defined.

End QuizView.
