(* ===== verification/QuizSpec.v ===== *)
(** * QuizSpec: the QuizSession contract of the spec, and the quiz refines it

    The spec (sections 3 and 4.1) describes a [QuizSession] with the
    operations [submitAnswer], [advance], [tick] and [restart], which
    reject misuse with [InvalidInput] or [InvalidState] and compute the
    bonuses once, at completion.  [Session] and its operations below are
    that contract, written from the spec; [abs] reads a session off a
    state of the component of src/QuizModal.tsx.  The refinement theorem
    says that every run of the component, event by event, is a run of the
    contract in which no operation is rejected: the component's guards
    (disabled buttons, the rendered views, the interval's condition) keep
    it inside the contract.  The spec's [completed] status is the code's
    [quizCompleted]; the notifications of the caller are kept in
    [sp_reported], as [completions] keeps them in the component.  The
    last theorem bounds the number of events of an attempt. *)

From stdpp Require Import base list strings.
From Stdlib Require Import ZArith Lia.
From S2P Require Import Prelude Quiz.

Module QuizSpec.
Import Quiz.

Inductive Status := InProgress | Completed.

Inductive QuizError := InvalidInput | InvalidState.

Record Session := mkSession {
  sp_index : nat;            (** [currentIndex] *)
  sp_answers : list nat;     (** the answers of questions [0 .. ], in order *)
  sp_explained : bool;       (** the current question's answer is shown *)
  sp_score : nat;
  sp_streak : nat;
  sp_perfect : nat;          (** [perfectCount] *)
  sp_remaining : nat;        (** [remainingSeconds] *)
  sp_status : Status;
  sp_reported : list (nat * nat)   (** the [(score, totalXP)] notifications so far *)
}.

Section Contract.
Variable questions : list Question.

(** The initial state of section 4.1, with the notifications made so far. *)
Definition fresh (reported : list (nat * nat)) : Session :=
  mkSession 0 [] false 0 0 0 300 InProgress reported.

(** The bonuses of "Completion / bonus computation". *)
Definition spec_totalXP (s : Session) : nat :=
  sp_score s
  + (if bool_decide (sp_perfect s = length questions) then 100 else 0)
  + (if bool_decide (150 < sp_remaining s) then 50 else 0)
  + (if bool_decide (3 <= sp_streak s) then 25 * sp_streak s else 0).

Definition complete (s : Session) : Session :=
  mkSession (sp_index s) (sp_answers s) (sp_explained s) (sp_score s) (sp_streak s)
    (sp_perfect s) (sp_remaining s) Completed (sp_reported s ++ [(sp_score s, spec_totalXP s)]).

(** [submitAnswer(optionIndex)]: the answer's correctness and
    explanation, or the error. *)
Definition submitAnswer (i : nat) (s : Session) : QuizError + (Session * (bool * string)) :=
  match sp_status s, questions !! sp_index s with
  | Completed, _ | _, None => inl InvalidState
  | InProgress, Some q =>
      if sp_explained s then inl InvalidState
      else if bool_decide (i < length (options q)) then
        let correct := bool_decide (i = correctAnswer q) in
        inr (mkSession (sp_index s) (sp_answers s ++ [i]) true
               (if correct then sp_score s + points q else sp_score s)
               (if correct then S (sp_streak s) else 0)
               (if correct && bool_decide (240 < sp_remaining s) then S (sp_perfect s)
                else sp_perfect s)
               (sp_remaining s) InProgress (sp_reported s),
             (correct, explanation q))
      else inl InvalidInput
  end.

(** [advance()]. *)
Definition advance (s : Session) : QuizError + Session :=
  match sp_status s with
  | Completed => inl InvalidState
  | InProgress =>
      if negb (sp_explained s) then inl InvalidState
      else if bool_decide (S (sp_index s) < length questions) then
        inr (mkSession (S (sp_index s)) (sp_answers s) false (sp_score s) (sp_streak s)
               (sp_perfect s) (sp_remaining s) InProgress (sp_reported s))
      else inr (complete s)
  end.

(** [tick()]: one second less; reaching 0 completes the session. *)
Definition tick_op (s : Session) : QuizError + Session :=
  match sp_status s with
  | Completed => inl InvalidState
  | InProgress =>
      let s' := mkSession (sp_index s) (sp_answers s) (sp_explained s) (sp_score s)
                  (sp_streak s) (sp_perfect s) (sp_remaining s - 1) InProgress (sp_reported s) in
      if bool_decide (sp_remaining s - 1 = 0) then inr (complete s') else inr s'
  end.

(** [restart()]: permitted in both states. *)
Definition restart (s : Session) : QuizError + Session := inr (fresh (sp_reported s)).

(** The operation each event of the component stands for. *)
Definition spec_op (e : UIEvent) (s : Session) : QuizError + Session :=
  match e with
  | SelectOption i => match submitAnswer i s with inl err => inl err | inr (s', _) => inr s' end
  | NextQuestion => advance s
  | IntervalTick => tick_op s
  | RetakeQuiz => restart s
  end.

Fixpoint spec_run (s : Session) (es : list UIEvent) : QuizError + Session :=
  match es with
  | [] => inr s
  | e :: es' => match spec_op e s with inl err => inl err | inr s' => spec_run s' es' end
  end.

(** The session a state of the component shows. *)
Definition abs (c : QuizState) : Session :=
  mkSession (currentQuestionIndex c) (default 0 <$> selectedAnswers c) (showExplanation c)
    (score c) (streak c) (perfectAnswers c) (timeLeft c)
    (if quizCompleted c then Completed else InProgress) (completions c).

(** ** The component's steps are operations of the contract *)

Lemma spec_totalXP_abs c : spec_totalXP (abs c) = totalXP questions c.
Proof. unfold spec_totalXP, totalXP, bonusXP, speed_threshold. simpl. lia. Qed.

Lemma abs_complete c : abs (completeQuiz questions c) = complete (abs c).
Proof. unfold complete. rewrite spec_totalXP_abs. reflexivity. Qed.

Lemma abs_select c q i c1 :
  quiz_inv questions c -> quizCompleted c = false -> showExplanation c = false ->
  currentQuestion questions c = Some q -> i < length (options q) ->
  handleAnswerSelect questions i c = Some c1 ->
  submitAnswer i (abs c) = inr (abs (timer_effect questions c1),
                                (bool_decide (i = correctAnswer q), explanation q)).
Proof.
  intros Hinv Hc Hx Hq Hi Hsel.
  pose proof (inv_answers _ _ Hinv) as Hlen. rewrite Hx, Nat.add_0_r in Hlen.
  pose proof (inv_running _ _ Hinv Hc) as Ht.
  unfold handleAnswerSelect in Hsel. rewrite Hx, Hq, js_array_set_push in Hsel by done.
  unfold submitAnswer, abs. unfold currentQuestion in Hq. simpl. rewrite Hc, Hq, Hx.
  rewrite bool_decide_eq_true_2 by done.
  case_bool_decide; simplify_eq/=; rewrite timer_effect_pos by done; simpl;
    rewrite Hc, fmap_app; [|reflexivity].
  by destruct (bool_decide (perfect_threshold < timeLeft c)) eqn:E;
    unfold perfect_threshold in E; rewrite E.
Qed.

Lemma abs_next c q :
  quiz_inv questions c -> quizCompleted c = false -> showExplanation c = true ->
  currentQuestion questions c = Some q ->
  advance (abs c) = inr (abs (timer_effect questions (handleNextQuestion questions c))).
Proof.
  intros Hinv Hc Hx Hq. pose proof (inv_running _ _ Hinv Hc) as Ht.
  apply lookup_lt_Some in Hq.
  assert (Hs : sp_status (abs c) = InProgress) by (unfold abs; simpl; by rewrite Hc).
  unfold advance. rewrite Hs. change (sp_explained (abs c)) with (showExplanation c).
  rewrite Hx. change (sp_index (abs c)) with (currentQuestionIndex c). cbn [negb].
  unfold handleNextQuestion. case_bool_decide as Hlt; case_bool_decide; try lia.
  - rewrite timer_effect_pos by (simpl; lia). unfold abs. simpl. by rewrite Hc.
  - rewrite timer_effect_completeQuiz. f_equal. symmetry. apply abs_complete.
Qed.

Lemma abs_tick c :
  interval_running c = true ->
  tick_op (abs c) = inr (abs (timer_effect questions (tick c))).
Proof.
  intros (Ha & Ht & Hc)%interval_running_spec.
  assert (Hs : sp_status (abs c) = InProgress) by (unfold abs; simpl; by rewrite Hc).
  unfold tick_op. rewrite Hs. change (sp_remaining (abs c)) with (timeLeft c).
  case_bool_decide.
  - rewrite tick_expire by (done || lia). rewrite abs_complete.
    unfold abs. simpl. by rewrite Hc.
  - rewrite timer_effect_pos by (simpl; lia). unfold abs. simpl. by rewrite Hc.
Qed.

Lemma abs_retake c : restart (abs c) = inr (abs (timer_effect questions (handleRestart c))).
Proof. reflexivity. Qed.

Lemma abs_step c e c' :
  quiz_inv questions c -> quiz_step questions c e c' -> spec_op e (abs c) = inr (abs c').
Proof.
  intros Hinv Hstep. revert Hinv. destruct Hstep; intros Hinv; simpl.
  - by erewrite abs_select.
  - by eapply abs_next.
  - by apply abs_tick.
  - apply abs_retake.
Qed.

(** C34: The quiz component refines the QuizSession contract: it mounts
    in the contract's initial state, and every run of its events is a
    run of the contract's operations, none of them rejected, ending in
    the session the component shows. *)
Theorem quiz_refines_session es c' :
  abs mounted = fresh [] /\
  (run questions mounted es = Some c' -> spec_run (abs mounted) es = inr (abs c')).
Proof.
  split; [reflexivity|]. intros Hrun.
  cut (forall c, reachable questions c -> run questions c es = Some c' ->
         spec_run (abs c) es = inr (abs c')); [intros Hgen; apply Hgen; [constructor|done]|].
  clear Hrun. induction es as [|e es IH]; intros c Hr Hrun; simpl in Hrun.
  - by simplify_eq.
  - destruct (react questions c e) as [c1|] eqn:He; [|done]. simpl in Hrun.
    apply react_step in He. simpl.
    rewrite (abs_step c e c1) by eauto using quiz_inv_reachable.
    apply IH; [econstructor; eauto|done].
Qed.

(** ** Every attempt ends *)

(** What is left of an attempt: the seconds, and two events (answer and
    Next) for each question from the current one on, less the answer
    already given. *)
Definition attempt_measure (c : QuizState) : nat :=
  if quizCompleted c then 0
  else S (timeLeft c + 2 * (length questions - currentQuestionIndex c))
       - (if showExplanation c then 1 else 0).

Lemma measure_step c e c' :
  quiz_inv questions c -> quiz_step questions c e c' -> e <> RetakeQuiz ->
  attempt_measure c' < attempt_measure c.
Proof.
  intros Hinv Hstep Hne. destruct Hstep as [c q i c1 Hc Hx Hq Hi Hsel|c q Hc Hx Hq|c Hrun|c Hc];
    [| | |done]; unfold attempt_measure.
  - pose proof (inv_running _ _ Hinv Hc) as Ht.
    unfold handleAnswerSelect in Hsel. rewrite Hx, Hq in Hsel.
    case_bool_decide; simplify_eq/=; rewrite timer_effect_pos by done; simpl; rewrite Hc, Hx;
      simpl; lia.
  - pose proof (inv_running _ _ Hinv Hc) as Ht. pose proof (inv_answered _ _ Hinv Hx) as Hlt.
    rewrite Hc, Hx. unfold handleNextQuestion. case_bool_decide.
    + rewrite timer_effect_pos by (simpl; lia). simpl. rewrite Hc. simpl. lia.
    + rewrite timer_effect_completeQuiz. simpl. lia.
  - apply interval_running_spec in Hrun as (Ha & Ht & Hc). rewrite Hc.
    destruct (decide (timeLeft c = 1)) as [E|E].
    + rewrite tick_expire by done. simpl. destruct (showExplanation c); lia.
    + rewrite timer_effect_pos by (simpl; lia). simpl. rewrite Hc. simpl.
      destruct (showExplanation c); lia.
Qed.

(** C35: An attempt without Retake is finite: from the mounted quiz, at
    most [301 + 2 n] events can happen for [n] questions (one tick per
    second of the 300, one answer and one Next per question), whatever
    their order. *)
Theorem quiz_attempt_bounded es c' :
  Forall (fun e => e <> RetakeQuiz) es -> run questions mounted es = Some c' ->
  length es <= 301 + 2 * length questions.
Proof.
  intros Hes Hrun.
  cut (forall c, reachable questions c -> run questions c es = Some c' ->
         length es <= attempt_measure c).
  { intros Hgen. specialize (Hgen mounted (reach_mounted _) Hrun). unfold attempt_measure in Hgen.
    simpl in Hgen. unfold time_budget in Hgen. lia. }
  clear Hrun. induction es as [|e es IH]; intros c Hr Hrun; simpl in *; [lia|].
  apply Forall_cons in Hes as [He Hes].
  destruct (react questions c e) as [c1|] eqn:Hre; [|done]. simpl in Hrun.
  apply react_step in Hre.
  pose proof (measure_step c e c1 (quiz_inv_reachable _ _ Hr) Hre He).
  specialize (IH Hes c1 (reach_step _ _ _ _ Hr Hre) Hrun). lia.
Qed.

End Contract.

Lemma demo_run : run financial_basics_quiz mounted demo_events = Some demo_state.
Proof. vm_compute. reflexivity. Qed.

(** Witness of C34: five ticks, then two questions answered, on the
    Financial Basics quiz. *)
Lemma quiz_refines_session_witness :
  run financial_basics_quiz mounted demo_events = Some demo_state /\
  abs mounted = fresh [] /\
  spec_run financial_basics_quiz (abs mounted) demo_events = inr (abs demo_state).
Proof.
  destruct (quiz_refines_session financial_basics_quiz demo_events demo_state) as [H1 H2].
  split_and!; [exact demo_run|exact H1|exact (H2 demo_run)].
Defined.

(** Witness of C35: the nine events of that run. *)
Lemma quiz_attempt_bounded_witness :
  Forall (fun e => e <> RetakeQuiz) demo_events /\
  run financial_basics_quiz mounted demo_events = Some demo_state /\
  length demo_events <= 301 + 2 * length financial_basics_quiz.
Proof.
  assert (Hes : Forall (fun e => e <> RetakeQuiz) demo_events) by (repeat constructor; discriminate).
  split_and!; [exact Hes|exact demo_run|].
  exact (quiz_attempt_bounded financial_basics_quiz demo_events demo_state Hes demo_run).
Defined.

End QuizSpec.
