(* ===== verification/Server.v ===== *)
(** * Server: the API routes of src/index.tsx

    The server is a Hono app.  Every route reads the request, checks the
    caller with [verifyUser], reads and writes the key-value store, and
    answers with a status and a JSON body.  A route is modelled as a
    function from the external answers of the request ([Env]: the clock,
    [crypto.randomUUID], the identity service), the request and the store
    to the new store and the response.  The store is any implementation of
    the [KvStore] interface with its laws (Section [Routes] below); the
    witnesses run on the [gmap] implementation.

    JS numbers are modelled exactly: [Z] for the integral fields (levels,
    XP, points, counters) and [Q] for the amounts parsed with
    [parseFloat] and the CO2 figure.  The [catch] branches of the routes
    are unreachable in the model, where the store never fails; the
    request body is [None] when [c.req.json()] throws. *)

From stdpp Require Import base list gmap strings pretty sorting.
From Stdlib Require Import Ascii ZArith QArith Qround Lia.
From S2P Require Import Prelude KvStore.

Module Server.

Local Open Scope Z_scope.

(** ** Stored records (the objects the routes build, typed as in src/client.ts) *)

(** [kv.set(`profile:${id}`, {...})] at signup (index.tsx, lines 63-73). *)
Record Profile := mkProfile {
  p_user_id : string; p_name : string; p_email : string; p_level : Z;
  p_total_xp : Z; p_streak_days : Z; p_total_points : Z;
  p_created_at : string; p_updated_at : string
}.

(** [progressData] (lines 141-149). *)
Record Progress := mkProgress {
  pr_user_id : string; pr_module_id : Z; pr_module_name : string;
  pr_progress_percentage : Z; pr_lessons_completed : Z; pr_total_lessons : Z;
  pr_last_accessed : string
}.

(** [ecoAction] (lines 193-202). *)
Record EcoAction := mkEcoAction {
  ea_id : string; ea_user_id : string; ea_item_name : string; ea_amount : Q;
  ea_category : string; ea_eco_points : Z; ea_co2_saved : Q; ea_created_at : string
}.

(** [expense] (lines 226-234). *)
Record Expense := mkExpense {
  ex_id : string; ex_user_id : string; ex_description : string; ex_amount : Q;
  ex_category : string; ex_date : string; ex_created_at : string
}.

(** [achievement] (lines 277-285). *)
Record Achievement := mkAchievement {
  ac_id : string; ac_user_id : string; ac_badge_name : string;
  ac_badge_description : string; ac_badge_icon : string; ac_points_earned : Z;
  ac_earned_at : string
}.

(** [ecoStats] (lines 358-362). *)
Record EcoStats := mkEcoStats {
  es_total_eco_points : Z; es_total_co2_saved : Q; es_sustainable_purchases : Z
}.

Inductive KvValue :=
| VProfile (p : Profile)
| VProgress (p : Progress)
| VEco (e : EcoAction)
| VExpense (e : Expense)
| VAchievement (a : Achievement)
| VEcoStats (e : EcoStats).

(** ** Keys (template strings of the routes) *)

Definition profile_key (uid : string) : string := "profile:" +:+ uid.
Definition progress_prefix (uid : string) : string := "progress:" +:+ uid +:+ ":".
Definition progress_key (uid : string) (module_id : Z) : string :=
  progress_prefix uid +:+ pretty module_id.
Definition eco_key (uid id : string) : string := "eco:" +:+ uid +:+ ":" +:+ id.
Definition expense_prefix (uid : string) : string := "expense:" +:+ uid +:+ ":".
Definition expense_key (uid id : string) : string := expense_prefix uid +:+ id.
Definition achievement_prefix (uid : string) : string := "achievement:" +:+ uid +:+ ":".
Definition achievement_key (uid id : string) : string := achievement_prefix uid +:+ id.
Definition eco_stats_key (uid : string) : string := "eco_stats:" +:+ uid.

(** ** What the request gets from outside *)

(** [supabase.auth.admin.createUser]: an error message, or a user that
    may be absent. *)
Inductive CreateResult :=
| CreateError (msg : string)
| CreateOk (user : option string).

Record Env := mkEnv {
  env_now : string;                              (** [new Date().toISOString()] *)
  env_uuid : string;                             (** [crypto.randomUUID()] *)
  env_get_user : string -> option string;        (** [supabase.auth.getUser(token)]: the user id, or [None] on error or without id *)
  env_create_user : string -> string -> string -> CreateResult  (** email, password, name *)
}.

(** [verifyUser] (lines 25-37): the token is the second space-separated
    field of the [Authorization] header; an absent or empty token is
    refused before the identity service is asked. *)
Definition verifyUser (env : Env) (authorization : option string) : option string :=
  match authorization ≫= fun h => js_index (js_split " "%char h) 1 with
  | None | Some EmptyString => None
  | Some token => env_get_user env token
  end.

Section Helpers.
Context {S : Type} `{KvStoreLaws KvValue S}.
Variable env : Env.

(** [updateUserXP] (lines 324-340): a level every 1000 XP. *)
Definition updateUserXP (userId : string) (xpGained : Z) (st : S) : S :=
  match kv_get (profile_key userId) st with
  | Some (VProfile p) =>
      let newXP := p_total_xp p + xpGained in
      let newLevel := newXP / 1000 + 1 in
      kv_set (profile_key userId) (VProfile (mkProfile (p_user_id p) (p_name p)
        (p_email p) newLevel newXP (p_streak_days p) (p_total_points p)
        (p_created_at p) (env_now env))) st
  | _ => st
  end.

(** [updateUserPoints] (lines 342-354). *)
Definition updateUserPoints (userId : string) (pointsGained : Z) (st : S) : S :=
  match kv_get (profile_key userId) st with
  | Some (VProfile p) =>
      kv_set (profile_key userId) (VProfile (mkProfile (p_user_id p) (p_name p)
        (p_email p) (p_level p) (p_total_xp p) (p_streak_days p)
        (p_total_points p + pointsGained) (p_created_at p) (env_now env))) st
  | _ => st
  end.

(** [updateUserEcoStats] (lines 356-375): the stats default to zero. *)
Definition updateUserEcoStats (userId : string) (ecoPoints : Z) (co2Saved : Q)
  (st : S) : S :=
  let ecoStats := match kv_get (eco_stats_key userId) st with
                  | Some (VEcoStats e) => e
                  | _ => mkEcoStats 0 0 0
                  end in
  let st' := kv_set (eco_stats_key userId)
    (VEcoStats (mkEcoStats (es_total_eco_points ecoStats + ecoPoints)
                 (es_total_co2_saved ecoStats + co2Saved)
                 (es_sustainable_purchases ecoStats + 1))) st in
  updateUserPoints userId ecoPoints st'.

End Helpers.

(** ** Requests and responses *)

(** The fields of [PUT /profile]'s JSON body that name a field of the
    profile; the spread [{...existingProfile, ...updates}] overwrites
    exactly those.  (Updates are taken with the types of [UserProfile];
    keys outside the profile are not modelled.) *)
Record ProfileUpdate := mkProfileUpdate {
  u_user_id : option string; u_name : option string; u_email : option string;
  u_level : option Z; u_total_xp : option Z; u_streak_days : option Z;
  u_total_points : option Z; u_created_at : option string
}.

(** The parsed JSON bodies; [None] when [c.req.json()] throws. *)
Inductive Route :=
| Health
| Signup (body : option (string * string * string))          (** email, password, name *)
| GetProfile
| PutProfile (updates : option ProfileUpdate)
| PostProgress (body : option (Z * string * Z * Z * Z))
    (** module_id, module_name, progress_percentage, lessons_completed, total_lessons *)
| GetProgress
| PostEcoAction (body : option (string * Q * string * Z))     (** item_name, amount, category, eco_rating *)
| PostExpense (body : option (string * Q * string * string))  (** description, amount, category, date *)
| GetExpenses
| PostAchievement (body : option (string * string * string * Z))
    (** badge_name, badge_description, badge_icon, points_earned *)
| GetLeaderboard.

Record Request := mkRequest {
  req_authorization : option string;   (** the [Authorization] header *)
  req_route : Route
}.

(** [rank], [name], [level], [total_points], [user_id] (lines 308-314). *)
Record LeaderboardEntry := mkEntry {
  le_rank : Z; le_name : string; le_level : Z; le_total_points : Z; le_user_id : string
}.

Inductive Body :=
| BError (msg : string)
| BHealth (status : string) (timestamp : string)
| BUser (user : option string)
| BProfile (profile : KvValue)
| BProgress (progress : Progress) (xp_gained : Z)
| BProgressList (progress : list KvValue)
| BEcoAction (eco_action : EcoAction) (eco_points : Z)
| BExpense (expense : Expense)
| BExpenses (expenses : list KvValue)
| BAchievement (achievement : Achievement)
| BLeaderboard (leaderboard : list LeaderboardEntry).

Record Response := mkResponse { status : Z; body : Body }.

Definition ok (b : Body) : Response := mkResponse 200 b.
Definition unauthorized : Response := mkResponse 401 (BError "Unauthorized").
Definition internal_error : Response := mkResponse 500 (BError "Internal server error").

(** ** The leaderboard (lines 300-321) *)

Definition as_profile (v : KvValue) : option Profile :=
  match v with VProfile p => Some p | _ => None end.

(** The comparator [(a, b) => (b.total_points || 0) - (a.total_points || 0)]
    puts [a] before [b] when it is not positive. *)
Definition points_desc (a b : Profile) : Prop := p_total_points b <= p_total_points a.

#[export] Instance points_desc_dec : RelDecision points_desc.
Proof. intros a b. unfold points_desc. apply _. Defined.

Definition leaderboard_entry (index : nat) (p : Profile) : LeaderboardEntry :=
  mkEntry (Z.of_nat index + 1) (p_name p) (p_level p) (p_total_points p) (p_user_id p).

(** [.sort(...)], [.slice(0, 50)], [.map((profile, index) => ...)]. *)
Definition leaderboard (profiles : list Profile) : list LeaderboardEntry :=
  imap leaderboard_entry (take 50 (merge_sort points_desc profiles)).

(** ** The profile merge of [PUT /profile] (lines 117-121) *)

Definition mergeProfile (p : Profile) (u : ProfileUpdate) (now : string) : Profile :=
  mkProfile (default (p_user_id p) (u_user_id u)) (default (p_name p) (u_name u))
    (default (p_email p) (u_email u)) (default (p_level p) (u_level u))
    (default (p_total_xp p) (u_total_xp u)) (default (p_streak_days p) (u_streak_days u))
    (default (p_total_points p) (u_total_points u))
    (default (p_created_at p) (u_created_at u)) now.

(** The eco formulas of [POST /eco-actions] (lines 190-191). *)
Definition eco_points_of (eco_rating : Z) (amount : Q) : Z :=
  Qfloor (inject_Z eco_rating * amount * (1 # 10)).
Definition co2_saved_of (eco_rating : Z) : Q := inject_Z eco_rating * (1 # 2).

(** [existingAchievements.some(a => a.badge_name === badge_name)] (line 271). *)
Definition has_badge (badge_name : string) (v : KvValue) : bool :=
  match v with VAchievement a => bool_decide (ac_badge_name a = badge_name) | _ => false end.

(** ** The routes *)

Section Routes.
Context {S : Type} `{KvStoreLaws KvValue S}.
Variable env : Env.

(** [GET /health] (lines 40-42). *)
Definition health (st : S) : S * Response := (st, ok (BHealth "healthy" (env_now env))).

(** [POST /auth/signup] (lines 45-81): no caller check; the profile is
    created when the identity service returns a user. *)
Definition signup (body : option (string * string * string)) (st : S) : S * Response :=
  match body with
  | None => (st, internal_error)
  | Some (email, password, name) =>
      match env_create_user env email password name with
      | CreateError msg => (st, mkResponse 400 (BError msg))
      | CreateOk user =>
          let st' := match user with
                     | Some uid =>
                         kv_set (profile_key uid) (VProfile (mkProfile uid name email
                           1 0 0 0 (env_now env) (env_now env))) st
                     | None => st
                     end in
          (st', ok (BUser user))
      end
  end.

(** [GET /profile] (lines 84-101). *)
Definition getProfile (uid : string) (st : S) : S * Response :=
  match kv_get (profile_key uid) st with
  | None => (st, mkResponse 404 (BError "Profile not found"))
  | Some v => (st, ok (BProfile v))
  end.

(** [PUT /profile] (lines 103-129).  A key [profile:<id>] always holds a
    profile ([profile_keys_hold_profiles]); the other branch is
    unreachable. *)
Definition putProfile (uid : string) (updates : option ProfileUpdate) (st : S)
  : S * Response :=
  match updates with
  | None => (st, internal_error)
  | Some u =>
      match kv_get (profile_key uid) st with
      | None => (st, mkResponse 404 (BError "Profile not found"))
      | Some (VProfile p) =>
          let updated := mergeProfile p u (env_now env) in
          (kv_set (profile_key uid) (VProfile updated) st, ok (BProfile (VProfile updated)))
      | Some _ => (st, internal_error)
      end
  end.

(** [POST /learning/progress] (lines 132-162): 25 XP per completed lesson
    on every call. *)
Definition postProgress (uid : string) (body : option (Z * string * Z * Z * Z)) (st : S)
  : S * Response :=
  match body with
  | None => (st, internal_error)
  | Some (module_id, module_name, progress_percentage, lessons_completed, total_lessons) =>
      let progressData := mkProgress uid module_id module_name progress_percentage
                            lessons_completed total_lessons (env_now env) in
      let st1 := kv_set (progress_key uid module_id) (VProgress progressData) st in
      let xpGained := lessons_completed * 25 in
      (updateUserXP env uid xpGained st1, ok (BProgress progressData xpGained))
  end.

(** [GET /learning/progress] (lines 164-177). *)
Definition getProgress (uid : string) (st : S) : S * Response :=
  (st, ok (BProgressList (kv_getByPrefix (progress_prefix uid) st))).

(** [POST /eco-actions] (lines 180-214). *)
Definition postEcoAction (uid : string) (body : option (string * Q * string * Z)) (st : S)
  : S * Response :=
  match body with
  | None => (st, internal_error)
  | Some (item_name, amount, category, eco_rating) =>
      let ecoPoints := eco_points_of eco_rating amount in
      let co2Saved := co2_saved_of eco_rating in
      let ecoAction := mkEcoAction (env_uuid env) uid item_name amount category ecoPoints
                         co2Saved (env_now env) in
      let st1 := kv_set (eco_key uid (env_uuid env)) (VEco ecoAction) st in
      (updateUserEcoStats env uid ecoPoints co2Saved st1, ok (BEcoAction ecoAction ecoPoints))
  end.

(** [POST /expenses] (lines 217-242). *)
Definition postExpense (uid : string) (body : option (string * Q * string * string)) (st : S)
  : S * Response :=
  match body with
  | None => (st, internal_error)
  | Some (description, amount, category, date) =>
      let expense := mkExpense (env_uuid env) uid description amount category date
                       (env_now env) in
      (kv_set (expense_key uid (env_uuid env)) (VExpense expense) st, ok (BExpense expense))
  end.

(** [GET /expenses] (lines 244-257). *)
Definition getExpenses (uid : string) (st : S) : S * Response :=
  (st, ok (BExpenses (kv_getByPrefix (expense_prefix uid) st))).

(** [POST /achievements] (lines 260-297): a badge name is earned once. *)
Definition postAchievement (uid : string) (body : option (string * string * string * Z))
  (st : S) : S * Response :=
  match body with
  | None => (st, internal_error)
  | Some (badge_name, badge_description, badge_icon, points_earned) =>
      if existsb (has_badge badge_name) (kv_getByPrefix (achievement_prefix uid) st)
      then (st, mkResponse 400 (BError "Achievement already earned"))
      else
        let achievement := mkAchievement (env_uuid env) uid badge_name badge_description
                             badge_icon points_earned (env_now env) in
        let st1 := kv_set (achievement_key uid (env_uuid env)) (VAchievement achievement) st in
        (updateUserPoints env uid points_earned st1, ok (BAchievement achievement))
  end.

(** [GET /leaderboard] (lines 300-321): public. *)
Definition getLeaderboard (st : S) : S * Response :=
  (st, ok (BLeaderboard (leaderboard (omap as_profile (kv_getByPrefix "profile:" st))))).

(** The routes behind [verifyUser]. *)
Definition authenticated (uid : string) (r : Route) (st : S) : S * Response :=
  match r with
  | GetProfile => getProfile uid st
  | PutProfile u => putProfile uid u st
  | PostProgress b => postProgress uid b st
  | GetProgress => getProgress uid st
  | PostEcoAction b => postEcoAction uid b st
  | PostExpense b => postExpense uid b st
  | GetExpenses => getExpenses uid st
  | PostAchievement b => postAchievement uid b st
  | _ => (st, internal_error)
  end.

(** The app: Hono's routing of a request to its handler.  The protected
    routes answer 401 before reading the body. *)
Definition handle (req : Request) (st : S) : S * Response :=
  match req_route req with
  | Health => health st
  | Signup b => signup b st
  | GetLeaderboard => getLeaderboard st
  | r => match verifyUser env (req_authorization req) with
         | None => (st, unauthorized)
         | Some uid => authenticated uid r st
         end
  end.

End Routes.

End Server.
