(* ===== verification/ServerProps.v ===== *)
(** * ServerProps: what the API routes of src/index.tsx guarantee

    Proved against the [KvStore] interface: the keys of the different
    record kinds never collide, every [profile:<id>] key holds a profile,
    a request without a valid caller never touches the store, XP and
    levels move together, a badge is earned at most once per user, each
    user reads back exactly their own expenses, and the leaderboard is the
    top 50 profiles by points.  Several facts need user ids without a
    colon: the keys are built as [kind:<id>:<uuid>], and a prefix scan for
    [kind:<id>:] must not see another user's keys. *)

From stdpp Require Import base list gmap strings pretty sorting.
From Stdlib Require Import Ascii ZArith QArith Qround Lia.
From S2P Require Import Prelude KvStore Server.

Module ServerProps.
Import Server.

Local Open Scope Z_scope.

(** ** Keys of different kinds are different *)

Ltac key_neq := unfold profile_key, progress_key, progress_prefix, eco_key,
  expense_key, expense_prefix, achievement_key, achievement_prefix, eco_stats_key;
  simpl; discriminate.

Lemma progress_key_not_profile u m u' : progress_key u m <> profile_key u'.
Proof. key_neq. Qed.
Lemma eco_key_not_profile u i u' : eco_key u i <> profile_key u'.
Proof. key_neq. Qed.
Lemma expense_key_not_profile u i u' : expense_key u i <> profile_key u'.
Proof. key_neq. Qed.
Lemma achievement_key_not_profile u i u' : achievement_key u i <> profile_key u'.
Proof. key_neq. Qed.
Lemma eco_stats_key_not_profile u u' : eco_stats_key u <> profile_key u'.
Proof. key_neq. Qed.

Lemma profile_key_inj u u' : profile_key u = profile_key u' -> u = u'.
Proof. unfold profile_key. intros H. by simplify_eq/=. Qed.

#[export] Hint Resolve progress_key_not_profile eco_key_not_profile expense_key_not_profile
  achievement_key_not_profile eco_stats_key_not_profile : yagna.

Section Store.
Context {S : Type} `{KvStoreLaws KvValue S}.
Implicit Types (st : S).

(** ** Reading after the helpers *)

Lemma updateUserXP_other env uid g st k :
  k <> profile_key uid -> kv_get k (updateUserXP env uid g st) = kv_get k st.
Proof.
  intros Hk. unfold updateUserXP.
  destruct (kv_get (profile_key uid) st) as [[]|]; auto using kv_get_set_ne.
Qed.

Lemma updateUserPoints_other env uid g st k :
  k <> profile_key uid -> kv_get k (updateUserPoints env uid g st) = kv_get k st.
Proof.
  intros Hk. unfold updateUserPoints.
  destruct (kv_get (profile_key uid) st) as [[]|]; auto using kv_get_set_ne.
Qed.

Lemma updateUserEcoStats_other env uid g c st k :
  k <> profile_key uid -> k <> eco_stats_key uid ->
  kv_get k (updateUserEcoStats env uid g c st) = kv_get k st.
Proof.
  intros Hk Hs. unfold updateUserEcoStats.
  rewrite updateUserPoints_other by done. by apply kv_get_set_ne.
Qed.

(** The profile after a points award. *)
Lemma updateUserPoints_profile env uid g st p :
  kv_get (profile_key uid) st = Some (VProfile p) ->
  kv_get (profile_key uid) (updateUserPoints env uid g st) =
    Some (VProfile (mkProfile (p_user_id p) (p_name p) (p_email p) (p_level p)
      (p_total_xp p) (p_streak_days p) (p_total_points p + g) (p_created_at p)
      (env_now env))).
Proof. intros Hp. unfold updateUserPoints. rewrite Hp. apply kv_get_set_eq. Qed.

Lemma updateUserXP_profile env uid g st p :
  kv_get (profile_key uid) st = Some (VProfile p) ->
  kv_get (profile_key uid) (updateUserXP env uid g st) =
    Some (VProfile (mkProfile (p_user_id p) (p_name p) (p_email p)
      ((p_total_xp p + g) / 1000 + 1) (p_total_xp p + g) (p_streak_days p) (p_total_points p)
      (p_created_at p) (env_now env))).
Proof. intros Hp. unfold updateUserXP. rewrite Hp. apply kv_get_set_eq. Qed.

Lemma updateUserEcoStats_profile env uid g c st p :
  kv_get (profile_key uid) st = Some (VProfile p) ->
  kv_get (profile_key uid) (updateUserEcoStats env uid g c st) =
    Some (VProfile (mkProfile (p_user_id p) (p_name p) (p_email p) (p_level p)
      (p_total_xp p) (p_streak_days p) (p_total_points p + g) (p_created_at p)
      (env_now env))).
Proof.
  intros Hp. unfold updateUserEcoStats. apply updateUserPoints_profile.
  rewrite kv_get_set_ne by auto with yagna. exact Hp.
Qed.

(** ** The shape of the store *)

(** Every [profile:<id>] key holds a profile. *)
Definition profiles_ok st : Prop :=
  forall uid v, kv_get (profile_key uid) st = Some v -> exists p, v = VProfile p.

Lemma profiles_ok_set st k v :
  profiles_ok st -> (forall uid, k <> profile_key uid) -> profiles_ok (kv_set k v st).
Proof.
  intros Hok Hk uid v'. rewrite kv_get_set_ne by auto. apply Hok.
Qed.

Lemma profiles_ok_set_profile st uid p :
  profiles_ok st -> profiles_ok (kv_set (profile_key uid) (VProfile p) st).
Proof.
  intros Hok uid' v. destruct (decide (profile_key uid = profile_key uid')) as [E|E].
  - rewrite <- E, kv_get_set_eq. intros [= <-]. eauto.
  - rewrite kv_get_set_ne by done. apply Hok.
Qed.

Lemma profiles_ok_updateUserPoints env uid g st :
  profiles_ok st -> profiles_ok (updateUserPoints env uid g st).
Proof.
  intros Hok. unfold updateUserPoints.
  destruct (kv_get _ st) as [[]|]; auto using profiles_ok_set_profile.
Qed.

Lemma profiles_ok_updateUserXP env uid g st :
  profiles_ok st -> profiles_ok (updateUserXP env uid g st).
Proof.
  intros Hok. unfold updateUserXP.
  destruct (kv_get _ st) as [[]|]; auto using profiles_ok_set_profile.
Qed.

Lemma profiles_ok_updateUserEcoStats env uid g c st :
  profiles_ok st -> profiles_ok (updateUserEcoStats env uid g c st).
Proof.
  intros Hok. unfold updateUserEcoStats.
  apply profiles_ok_updateUserPoints, profiles_ok_set; auto with yagna.
Qed.

#[local] Hint Resolve profiles_ok_set profiles_ok_set_profile profiles_ok_updateUserPoints
  profiles_ok_updateUserXP profiles_ok_updateUserEcoStats : yagna.

Lemma profiles_ok_authenticated env uid r st :
  profiles_ok st -> profiles_ok (authenticated env uid r st).1.
Proof.
  intros Hok. destruct r; simpl; try done;
    unfold getProfile, putProfile, postProgress, postEcoAction, postExpense, postAchievement;
    repeat case_match; simpl; auto 7 with yagna.
Qed.

Lemma profiles_ok_handle env req st :
  profiles_ok st -> profiles_ok (handle env req st).1.
Proof.
  intros Hok. unfold handle.
  destruct (req_route req); try (destruct (verifyUser env _);
    [apply profiles_ok_authenticated, Hok|exact Hok]).
  - exact Hok.
  - unfold signup. repeat case_match; simpl; auto with yagna.
  - exact Hok.
Qed.

(** ** Requests without a caller *)

(** The routes behind [verifyUser]. *)
Definition protected_route (r : Route) : Prop :=
  match r with Health | Signup _ | GetLeaderboard => False | _ => True end.

(** C12: A request to a protected route whose caller [verifyUser] does
    not accept (no header, no second field, an empty token, or a token the
    identity service rejects) is answered 401 and leaves the store as it
    was, whatever its body. *)
Theorem unauthenticated_request_rejected env req st :
  protected_route (req_route req) -> verifyUser env (req_authorization req) = None ->
  handle env req st = (st, unauthorized).
Proof. intros Hp Hv. unfold handle. destruct (req_route req); simpl in Hp; by rewrite ?Hv. Qed.

(** C13: Awarding XP to a user with a profile adds it to [total_xp] and
    sets [level] to [floor(total_xp / 1000) + 1] of the new total, leaving
    the points alone.  For a profile whose level agrees with its XP, as
    signup and every award leave it, an award of non-negative XP never
    lowers the level.  A level that disagrees with the XP (one written by
    PUT /profile) is replaced by the level of the new total. *)
Theorem xp_award_sets_level env uid g st p :
  kv_get (profile_key uid) st = Some (VProfile p) ->
  exists p', kv_get (profile_key uid) (updateUserXP env uid g st) = Some (VProfile p') /\
    p_total_xp p' = p_total_xp p + g /\ p_level p' = (p_total_xp p + g) / 1000 + 1 /\
    p_total_points p' = p_total_points p /\
    (0 <= g -> p_level p = p_total_xp p / 1000 + 1 -> p_level p <= p_level p').
Proof.
  intros Hp. rewrite (updateUserXP_profile _ _ _ _ p Hp).
  eexists. split; [done|]. simpl. split_and!; try done. intros Hg ->.
  apply Z.add_le_mono_r, Z.div_le_mono; lia.
Qed.

(** ** Invariants of the entries, through the helpers *)

Lemma entries_ok_updateUserPoints (P : string -> KvValue -> Prop) env uid g st :
  (forall p, P (profile_key uid) (VProfile p)) -> entries_ok P st ->
  entries_ok P (updateUserPoints env uid g st).
Proof.
  intros HP Hok. unfold updateUserPoints. repeat case_match; auto using entries_ok_set.
Qed.

Lemma entries_ok_updateUserXP (P : string -> KvValue -> Prop) env uid g st :
  (forall p, P (profile_key uid) (VProfile p)) -> entries_ok P st -> entries_ok P (updateUserXP env uid g st).
Proof.
  intros HP Hok. unfold updateUserXP. repeat case_match; auto using entries_ok_set.
Qed.

Lemma entries_ok_updateUserEcoStats (P : string -> KvValue -> Prop) env uid g c st :
  (forall p, P (profile_key uid) (VProfile p)) ->
  (forall e, P (eco_stats_key uid) (VEcoStats e)) -> entries_ok P st ->
  entries_ok P (updateUserEcoStats env uid g c st).
Proof.
  intros HP HE Hok. unfold updateUserEcoStats.
  apply entries_ok_updateUserPoints, entries_ok_set; auto.
Qed.

#[local] Hint Resolve entries_ok_set entries_ok_updateUserPoints entries_ok_updateUserXP
  entries_ok_updateUserEcoStats : yagna.

(** ** Achievements *)


(** No user has two stored achievements with the same badge name. *)
Definition badges_unique st : Prop :=
  forall k1 k2 a1 a2, kv_get k1 st = Some (VAchievement a1) ->
    kv_get k2 st = Some (VAchievement a2) -> ac_user_id a1 = ac_user_id a2 ->
    ac_badge_name a1 = ac_badge_name a2 -> k1 = k2.


(** Writing a value that is not an achievement keeps both properties. *)
Lemma badges_unique_set st k v :
  badges_unique st -> (forall a, v <> VAchievement a) -> badges_unique (kv_set k v st).
Proof.
  intros Hu Hv k1 k2 a1 a2.
  destruct (decide (k = k1)) as [<-|E1]; [rewrite kv_get_set_eq; intros [= Ha]; by destruct (Hv a1)|].
  destruct (decide (k = k2)) as [<-|E2]; [rewrite kv_get_set_eq; intros ? [= Ha]; by destruct (Hv a2)|].
  rewrite !kv_get_set_ne by done. apply Hu.
Qed.

Lemma badges_unique_updateUserPoints env uid g st :
  badges_unique st -> badges_unique (updateUserPoints env uid g st).
Proof.
  intros Hok. unfold updateUserPoints. repeat case_match; try done.
  apply badges_unique_set; [done|discriminate].
Qed.

Lemma badges_unique_updateUserXP env uid g st :
  badges_unique st -> badges_unique (updateUserXP env uid g st).
Proof.
  intros Hok. unfold updateUserXP. repeat case_match; try done.
  apply badges_unique_set; [done|discriminate].
Qed.

Lemma badges_unique_updateUserEcoStats env uid g c st :
  badges_unique st -> badges_unique (updateUserEcoStats env uid g c st).
Proof.
  intros Hok. unfold updateUserEcoStats.
  apply badges_unique_updateUserPoints, badges_unique_set; [done|discriminate].
Qed.

#[local] Hint Resolve badges_unique_set badges_unique_updateUserPoints
  badges_unique_updateUserXP badges_unique_updateUserEcoStats : yagna.









(** ** Histories of the server *)

(** The identity service issues user ids without a colon (UUIDs). *)
Definition ids_ok (env : Env) : Prop :=
  forall token uid, env_get_user env token = Some uid -> no_char ":"%char uid.

Lemma verifyUser_ids env h uid : ids_ok env -> verifyUser env h = Some uid -> no_char ":"%char uid.
Proof. unfold verifyUser. intros Hids. repeat case_match; eauto; done. Qed.

(** Requests served one after another from [init], each with the external
    answers of its time. *)
Inductive served (init : S) : S -> Prop :=
| served_init : served init init
| served_step st env req st' resp :
    served init st -> ids_ok env -> handle env req st = (st', resp) -> served init st'.

(** Requests served in order, each with its external answers. *)
Fixpoint serve (rs : list (Env * Request)) (st : S) : S :=
  match rs with
  | [] => st
  | (env, req) :: rs' => serve rs' (handle env req st).1
  end.

Lemma served_serve init st rs :
  served init st -> Forall (fun er => ids_ok er.1) rs -> served init (serve rs st).
Proof.
  revert st. induction rs as [|[env req] rs IH]; intros st Hs Hrs; [done|].
  apply Forall_cons in Hrs as [Hids Hrs]. apply IH; [|done].
  eapply served_step; [done|exact Hids|apply surjective_pairing].
Qed.

Lemma served_ind_inv (I : S -> Prop) init st :
  (forall env req st, ids_ok env -> I st -> I (handle env req st).1) ->
  I init -> served init st -> I st.
Proof.
  intros Hstep Hinit. induction 1 as [|st env req st' resp _ IH Hids Hh]; [done|].
  replace st' with (handle env req st).1 by (by rewrite Hh). auto.
Qed.

(** C33: In every history of the server that starts from a store where
    it holds, each key [profile:<id>] holds a profile record, whatever the
    requests: the routes write profiles only under these keys and other
    records only under keys of their own kinds.  (The unreachable 500
    branch of [PUT /profile] relies on it.) *)
Theorem profile_keys_hold_profiles init st :
  profiles_ok init -> served init st -> profiles_ok st.
Proof.
  intros Hinit Hs. apply (served_ind_inv profiles_ok init st); [|done|done].
  intros. by apply profiles_ok_handle.
Qed.


(** ** Expenses *)

(** The keys that start with [expense:] hold expenses, each under the key
    [expense:<user>:<id>] of its own user, a user id without a colon. *)
Definition expense_home (k : string) (v : KvValue) : Prop :=
  (String.prefix "expense:" k = true <-> exists e, v = VExpense e) /\
  (forall e, v = VExpense e ->
     k = expense_key (ex_user_id e) (ex_id e) /\ no_char ":"%char (ex_user_id e)).

Lemma expense_home_other k v :
  String.prefix "expense:" k = false -> (forall e, v <> VExpense e) -> expense_home k v.
Proof.
  intros Hk Hv. split; [split; [congruence|intros [e ->]; by destruct (Hv e)]|].
  intros e ->. by destruct (Hv e).
Qed.

Ltac expense_other := apply expense_home_other; [reflexivity|intros ? ?; discriminate].

Lemma expense_home_authenticated env uid r st :
  no_char ":"%char uid ->
  entries_ok expense_home st -> entries_ok expense_home (authenticated env uid r st).1.
Proof.
  intros Hu Hok.
  destruct r; simpl; try done;
    unfold getProfile, getProgress, getExpenses, putProfile, postProgress, postEcoAction,
      postExpense, postAchievement;
    repeat case_match; simpl; try done.
  all: repeat first [ apply entries_ok_updateUserPoints | apply entries_ok_updateUserXP
                    | apply entries_ok_updateUserEcoStats | apply entries_ok_set ];
       try done; intros; try expense_other.
  (* the expense itself *)
  split; [split; [intros _; by eexists|intros _; apply prefix_app_r2]|].
  intros e [= <-]. done.
Qed.

Lemma expense_home_handle env req st :
  ids_ok env -> entries_ok expense_home st -> entries_ok expense_home (handle env req st).1.
Proof.
  intros Hids Hok. unfold handle.
  destruct (req_route req); try (destruct (verifyUser env _) eqn:Hv;
    [apply expense_home_authenticated; [eapply verifyUser_ids; eauto|done]|exact Hok]).
  - exact Hok.
  - unfold signup. repeat case_match; simpl; try done.
    apply entries_ok_set; [done|expense_other].
  - exact Hok.
Qed.

(** A key of [expense:<uid>:] holds an expense of [uid] when user ids
    have no colon. *)
Lemma expense_prefix_owner st uid k v :
  entries_ok expense_home st -> no_char ":"%char uid ->
  String.prefix (expense_prefix uid) k = true -> kv_get k st = Some v ->
  exists e, v = VExpense e /\ ex_user_id e = uid /\ k = expense_key uid (ex_id e).
Proof.
  intros Hok Hu Hp Hk. destruct (Hok k v Hk) as [[Hkind _] Hhome].
  destruct Hkind as [e ->]; [by eapply prefix_app_inv|].
  destruct (Hhome e eq_refl) as [-> Hu']. exists e.
  unfold expense_key, expense_prefix in Hp. rewrite !string_app_assoc in Hp.
  rewrite prefix_app_l in Hp. apply prefix_sep_inj in Hp; [|done|done].
  by subst.
Qed.

(** C15: In every history of the server (user ids without a colon, as the
    identity service issues them), [GET /expenses] answers a caller with
    exactly the stored expenses that caller created, each under its key
    [expense:<caller>:<id>]. *)
Theorem own_expenses_only init st env h uid :
  entries_ok expense_home init -> served init st -> ids_ok env ->
  verifyUser env h = Some uid ->
  exists vs, handle env (mkRequest h GetExpenses) st = (st, ok (BExpenses vs)) /\
    forall v, v ∈ vs <-> exists e, v = VExpense e /\ ex_user_id e = uid /\
                           kv_get (expense_key uid (ex_id e)) st = Some v.
Proof.
  intros Hinit Hs Hids Hv.
  assert (Hok : entries_ok expense_home st).
  { apply (served_ind_inv _ init st); [|done|done]. intros. by apply expense_home_handle. }
  pose proof (verifyUser_ids _ _ _ Hids Hv) as Hu.
  eexists. unfold handle. simpl. rewrite Hv. split; [done|]. intros v.
  rewrite kv_getByPrefix_elem. split.
  - intros (k & Hp & Hk). destruct (expense_prefix_owner st uid k v Hok Hu Hp Hk)
      as (e & -> & Hid & ->). eauto.
  - intros (e & -> & Hid & Hk). eexists. split; [|exact Hk]. apply prefix_app_r.
Qed.

(** ** The leaderboard *)

#[export] Instance points_desc_trans : Transitive points_desc.
Proof. unfold points_desc. intros ???. lia. Qed.
#[export] Instance points_desc_total : Total points_desc.
Proof. unfold points_desc. intros ??. lia. Qed.

(** C16: [GET /leaderboard] answers the stored profiles ranked by points:
    they split into the listed ones and the rest, the listed ones are
    [min 50 n] of the [n] stored profiles in order of decreasing points,
    every profile left out has no more points than any listed one, and the
    store is unchanged. *)
Theorem leaderboard_is_top_50 st :
  exists top rest,
    getLeaderboard st = (st, ok (BLeaderboard (imap leaderboard_entry top))) /\
    top ++ rest ≡ₚ omap as_profile (kv_getByPrefix "profile:" st) /\
    length top = Nat.min 50 (length (omap as_profile (kv_getByPrefix "profile:" st))) /\
    StronglySorted points_desc top /\
    (forall p q, p ∈ rest -> q ∈ top -> p_total_points p <= p_total_points q).
Proof.
  destruct (take_merge_sort_spec points_desc 50 (omap as_profile (kv_getByPrefix "profile:" st)))
    as (Hperm & Hsort & Hlen & Hmax).
  eexists _, _. split_and!; [reflexivity|exact Hperm|exact Hlen|exact Hsort|].
  intros p q Hp Hq. exact (Hmax p q Hp Hq).
Qed.

(** The [i]-th entry of the leaderboard (from 0) has rank [i + 1]
    and carries the name, level, points and id of a profile it was built
    from. *)
Theorem leaderboard_rank ps i e :
  leaderboard ps !! i = Some e ->
  le_rank e = Z.of_nat i + 1 /\ (i < 50)%nat /\
  exists p, p ∈ ps /\ e = mkEntry (Z.of_nat i + 1) (p_name p) (p_level p)
                                   (p_total_points p) (p_user_id p).
Proof.
  unfold leaderboard. rewrite list_lookup_imap.
  destruct (take 50 (merge_sort points_desc ps) !! i) as [p|] eqn:Hi; [|done].
  intros [= <-]. apply lookup_take_Some in Hi as [Hi Hlt].
  split_and!; [done|done|]. exists p. split; [|done].
  rewrite <- (merge_sort_Permutation points_desc ps). by eapply list_elem_of_lookup_2.
Qed.

(** ** Profile updates *)

(** A profile with strictly more points than every other one heads the
    leaderboard. *)
Lemma leaderboard_head ps q :
  q ∈ ps -> (forall q', q' ∈ ps -> q' = q \/ p_total_points q' < p_total_points q) ->
  exists rest, leaderboard ps = leaderboard_entry 0 q :: rest.
Proof.
  intros Hq Hmax. unfold leaderboard.
  pose proof (StronglySorted_merge_sort points_desc ps) as Hs.
  pose proof (merge_sort_Permutation points_desc ps) as Hp.
  destruct (merge_sort points_desc ps) as [|q0 s'] eqn:E.
  { apply Permutation_nil_l in Hp. subst. by apply not_elem_of_nil in Hq. }
  assert (q0 = q) as ->; [|by eexists].
  apply StronglySorted_cons in Hs as [Hs _]. rewrite Forall_forall in Hs.
  destruct (Hmax q0) as [|Hlt]; [rewrite <- Hp; by left|done|].
  rewrite <- Hp in Hq. apply elem_of_cons in Hq as [->|Hq]; [lia|].
  specialize (Hs q Hq). unfold points_desc in Hs. lia.
Qed.

(** The profiles [GET /leaderboard] ranks come from the [profile:] keys. *)
Lemma stored_profile_elem st q :
  q ∈ omap as_profile (kv_getByPrefix "profile:" st) <->
  exists k, String.prefix "profile:" k = true /\ kv_get k st = Some (VProfile q).
Proof.
  rewrite list_elem_of_omap. setoid_rewrite kv_getByPrefix_elem. split.
  - intros (v & (k & Hk & Hv) & Hq). destruct v; simplify_eq/=. eauto.
  - intros (k & Hk & Hv). exists (VProfile q). eauto.
Qed.

(** C18: [PUT /profile] takes every field of the body, [total_points]
    included: a caller with a profile who sends more points than any other
    stored profile has is answered 200 and is then listed first on the
    leaderboard, under their own user id, with the points they sent. *)
Theorem profile_update_claims_first_rank env uid u p n st :
  kv_get (profile_key uid) st = Some (VProfile p) ->
  u_total_points u = Some n -> u_user_id u = None ->
  (forall k q, k <> profile_key uid -> kv_get k st = Some (VProfile q) -> p_total_points q < n) ->
  exists st' p' rest,
    putProfile env uid (Some u) st = (st', ok (BProfile (VProfile p'))) /\
    getLeaderboard st' = (st', ok (BLeaderboard (leaderboard_entry 0 p' :: rest))) /\
    p_user_id p' = p_user_id p /\ p_total_points p' = n.
Proof.
  intros Hp Hn Hid Hothers. unfold putProfile. rewrite Hp.
  set (p' := mergeProfile p u (env_now env)).
  set (st' := kv_set (profile_key uid) (VProfile p') st).
  assert (Hpts : p_total_points p' = n) by (unfold p'; simpl; by rewrite Hn).
  destruct (leaderboard_head (omap as_profile (kv_getByPrefix "profile:" st')) p')
    as [rest Hl].
  - apply stored_profile_elem. exists (profile_key uid). split; [apply prefix_app_r|].
    apply kv_get_set_eq.
  - intros q' (k & _ & Hk)%stored_profile_elem.
    destruct (decide (k = profile_key uid)) as [->|Hne].
    + left. unfold st' in Hk. rewrite kv_get_set_eq in Hk. by simplify_eq.
    + right. unfold st' in Hk. rewrite kv_get_set_ne in Hk by done.
      rewrite Hpts. eauto.
  - exists st', p', rest. split_and!; [done| |unfold p'; simpl; by rewrite Hid|done].
    unfold getLeaderboard. by rewrite Hl.
Qed.

End Store.

(** ** Runs on the finite-map store *)

Notation Store := (gmap string KvValue) (only parsing).

(** The identity service knows two tokens; signup gives the user id of the
    name. *)
Definition demo_env (now uuid : string) : Env :=
  mkEnv now uuid
    (fun tok => if bool_decide (tok = "tok-alice") then Some "alice"
                else if bool_decide (tok = "tok-bob") then Some "bob" else None)
    (fun _ _ name => CreateOk (Some name)).

Lemma demo_env_ids now uuid : ids_ok (demo_env now uuid).
Proof. intros tok uid. simpl. repeat case_bool_decide; intros [= <-]; by apply (bool_decide_unpack _). Qed.

Definition demo_requests : list (Env * Request) := [
  (demo_env "t0" "u0", mkRequest None (Signup (Some ("alice@example.com", "pw", "alice"))));
  (demo_env "t1" "u1", mkRequest None (Signup (Some ("bob@example.com", "pw", "bob"))));
  (demo_env "t2" "e1", mkRequest (Some "Bearer tok-alice")
     (PostExpense (Some ("coffee", (9 # 2)%Q, "food", "2024-01-01"))));
  (demo_env "t3" "e2", mkRequest (Some "Bearer tok-bob")
     (PostExpense (Some ("bus", (3 # 1)%Q, "transport", "2024-01-01"))));
  (demo_env "t4" "a1", mkRequest (Some "Bearer tok-alice")
     (PostAchievement (Some ("Saver", "saved", "piggy", 50))));
  (demo_env "t5" "a2", mkRequest (Some "Bearer tok-alice")
     (PostAchievement (Some ("Saver", "saved", "piggy", 50))))].

Definition demo_store : Store := serve demo_requests ∅.

Lemma demo_served : served ∅ demo_store.
Proof.
  apply served_serve; [constructor|].
  repeat constructor; apply demo_env_ids.
Qed.

Lemma entries_ok_empty (P : string -> KvValue -> Prop) : entries_ok P (∅ : Store).
Proof. intros k v Hk. change ((∅ : Store) !! k = Some v) in Hk. by rewrite lookup_empty in Hk. Qed.

Definition alice_profile : Profile :=
  mkProfile "alice" "alice" "alice@example.com" 1 950 0 50 "t0" "t4".

(** Witness of C12: [GET /expenses] without a header. *)
Lemma unauthenticated_request_rejected_witness :
  protected_route GetExpenses /\ verifyUser (demo_env "t" "u") None = None /\
  handle (demo_env "t" "u") (mkRequest None GetExpenses) demo_store = (demo_store, unauthorized).
Proof.
  split_and!; [exact I|reflexivity|].
  by apply (unauthenticated_request_rejected (demo_env "t" "u") (mkRequest None GetExpenses)).
Defined.

(** Witness of C13: 950 XP plus 100 crosses into level 2. *)
Lemma xp_award_sets_level_witness :
  kv_get (profile_key "alice") (<[profile_key "alice" := VProfile alice_profile]> (∅ : Store))
    = Some (VProfile alice_profile) /\
  exists p', kv_get (profile_key "alice") (updateUserXP (demo_env "t" "u") "alice" 100
      (<[profile_key "alice" := VProfile alice_profile]> (∅ : Store))) = Some (VProfile p') /\
    p_total_xp p' = 950 + 100 /\ p_level p' = (950 + 100) / 1000 + 1 /\
    p_total_points p' = 50 /\
    (0 <= 100 -> p_level alice_profile = 950 / 1000 + 1 -> p_level alice_profile <= p_level p').
Proof.
  split; [reflexivity|].
  apply (xp_award_sets_level (demo_env "t" "u") "alice" 100 _ alice_profile). reflexivity.
Defined.


(** Witness of C15: alice reads back her coffee and not bob's bus fare. *)
Lemma own_expenses_only_witness :
  entries_ok expense_home (∅ : Store) /\ served ∅ demo_store /\
  ids_ok (demo_env "t" "u") /\ verifyUser (demo_env "t" "u") (Some "Bearer tok-alice") = Some "alice" /\
  exists vs, handle (demo_env "t" "u") (mkRequest (Some "Bearer tok-alice") GetExpenses) demo_store
      = (demo_store, ok (BExpenses vs)) /\
    forall v, v ∈ vs <-> exists e, v = VExpense e /\ ex_user_id e = "alice" /\
                     kv_get (expense_key "alice" (ex_id e)) demo_store = Some v.
Proof.
  split_and!; [apply entries_ok_empty|exact demo_served|apply demo_env_ids|reflexivity|].
  apply (own_expenses_only ∅ demo_store (demo_env "t" "u") (Some "Bearer tok-alice") "alice");
    [apply entries_ok_empty|exact demo_served|apply demo_env_ids|reflexivity].
Defined.


(** Witness of C17: the single profile of a one-profile board. *)
Lemma leaderboard_rank_witness :
  leaderboard [alice_profile] !! 0%nat = Some (leaderboard_entry 0 alice_profile) /\
  le_rank (leaderboard_entry 0 alice_profile) = Z.of_nat 0 + 1 /\ (0 < 50)%nat /\
  exists p, p ∈ [alice_profile] /\ leaderboard_entry 0 alice_profile =
    mkEntry (Z.of_nat 0 + 1) (p_name p) (p_level p) (p_total_points p) (p_user_id p).
Proof.
  split; [reflexivity|]. by apply (leaderboard_rank [alice_profile] 0).
Defined.

(** A profile value below [n] points (other values pass). *)
Definition below_points (n : Z) (v : KvValue) : bool :=
  match v with VProfile q => bool_decide (p_total_points q < n) | _ => true end.

Definition forge : ProfileUpdate :=
  mkProfileUpdate None None None None None None (Some 1000000) None.

Definition demo_alice : Profile :=
  mkProfile "alice" "alice" "alice@example.com" 1 0 0 50 "t0" "t4".

Lemma demo_others_below :
  forall k q, k <> profile_key "alice" -> kv_get k demo_store = Some (VProfile q) ->
    p_total_points q < 1000000.
Proof.
  assert (H : map_Forall (fun k v => k = profile_key "alice" \/ below_points 1000000 v = true)
                demo_store) by (apply (bool_decide_unpack _); vm_compute; reflexivity).
  intros k q Hk Hq. rewrite gmap_kv_get in Hq.
  destruct (H k _ Hq) as [Heq|Hb]; [contradiction|]. simpl in Hb.
  exact (bool_decide_eq_true_1 _ Hb).
Qed.

(** Witness of C18: alice, with 50 points, sends 1000000 and heads the
    board above bob. *)
Lemma profile_update_claims_first_rank_witness :
  kv_get (profile_key "alice") demo_store = Some (VProfile demo_alice) /\
  exists st' p' rest,
    putProfile (demo_env "t9" "u9") "alice" (Some forge) demo_store
      = (st', ok (BProfile (VProfile p'))) /\
    getLeaderboard st' = (st', ok (BLeaderboard (leaderboard_entry 0 p' :: rest))) /\
    p_user_id p' = p_user_id demo_alice /\ p_total_points p' = 1000000.
Proof.
  assert (Hp : kv_get (profile_key "alice") demo_store = Some (VProfile demo_alice))
    by (vm_compute; reflexivity).
  split; [exact Hp|].
  exact (profile_update_claims_first_rank (demo_env "t9" "u9") "alice" forge demo_alice
           1000000 demo_store Hp eq_refl eq_refl demo_others_below).
Defined.


(** Witness of C33: the demo history from the empty store. *)
Lemma profile_keys_hold_profiles_witness :
  profiles_ok (∅ : Store) /\ served ∅ demo_store /\ profiles_ok demo_store.
Proof.
  assert (Hinit : profiles_ok (∅ : Store)).
  { intros uid v Hk. change ((∅ : Store) !! profile_key uid = Some v) in Hk.
    by rewrite lookup_empty in Hk. }
  split_and!; [exact Hinit|exact demo_served|].
  exact (profile_keys_hold_profiles ∅ demo_store Hinit demo_served).
Defined.

End ServerProps.
