(* ===== verification/ClientTypes.v ===== *)
(** * ClientTypes: the record types of src/client.ts against the server's JSON

    src/client.ts declares the types the browser expects for the records
    it receives: [UserProfile], [Achievement], [LearningProgress],
    [EcoAction] and [ExpenseEntry].  TypeScript erases these types, so
    nothing checks them at run time.  This file gives each type its
    meaning as a decoder.  [decode_X] accepts a JSON value exactly when it
    is an object that has every required field of [X] with a value of
    the declared JSON type.  It then returns the typed record.  The
    server side is the JSON of the object literals the routes of
    src/index.tsx build ([to_json]).  The theorem compares the two:
    achievements, eco actions and expenses decode back to their fields.
    Profiles and learning progress never decode, because [id] is
    declared but never written.  Numbers are [Q], as JS numbers. *)

From stdpp Require Import base list strings.
From Stdlib Require Import Ascii ZArith QArith Lia.
From S2P Require Import Prelude KvStore Server.

Module ClientTypes.
Import Server.

(** ** JSON values *)

Inductive Json :=
| JNull
| JBool (b : bool)
| JNum (q : Q)
| JStr (s : string)
| JArr (xs : list Json)
| JObj (fields : list (string * Json)).

(** [obj[k]]: the value of the first field named [k]. *)
Definition field (fs : list (string * Json)) (k : string) : option Json :=
  snd <$> List.find (fun kv => bool_decide (kv.1 = k)) fs.

(** A required [string] field. *)
Definition req_str (fs : list (string * Json)) (k : string) : option string :=
  match field fs k with Some (JStr s) => Some s | _ => None end.

(** A required [number] field. *)
Definition req_num (fs : list (string * Json)) (k : string) : option Q :=
  match field fs k with Some (JNum q) => Some q | _ => None end.

(** An optional [string] field ([k?: string]): absent is fine, present
    must be a string. *)
Definition opt_str (fs : list (string * Json)) (k : string) : option (option string) :=
  match field fs k with
  | None => Some None
  | Some (JStr s) => Some (Some s)
  | Some _ => None
  end.

(** ** The server's objects (src/index.tsx) *)

(** The object literals of the routes, field by field in source order. *)
Definition to_json (v : KvValue) : Json :=
  match v with
  | VProfile p =>
      JObj [("user_id", JStr (p_user_id p)); ("name", JStr (p_name p)); ("email", JStr (p_email p));
            ("level", JNum (inject_Z (p_level p))); ("total_xp", JNum (inject_Z (p_total_xp p)));
            ("streak_days", JNum (inject_Z (p_streak_days p)));
            ("total_points", JNum (inject_Z (p_total_points p)));
            ("created_at", JStr (p_created_at p)); ("updated_at", JStr (p_updated_at p))]
  | VProgress p =>
      JObj [("user_id", JStr (pr_user_id p)); ("module_id", JNum (inject_Z (pr_module_id p)));
            ("module_name", JStr (pr_module_name p));
            ("progress_percentage", JNum (inject_Z (pr_progress_percentage p)));
            ("lessons_completed", JNum (inject_Z (pr_lessons_completed p)));
            ("total_lessons", JNum (inject_Z (pr_total_lessons p)));
            ("last_accessed", JStr (pr_last_accessed p))]
  | VEco e =>
      JObj [("id", JStr (ea_id e)); ("user_id", JStr (ea_user_id e));
            ("item_name", JStr (ea_item_name e)); ("amount", JNum (ea_amount e));
            ("category", JStr (ea_category e)); ("eco_points", JNum (inject_Z (ea_eco_points e)));
            ("co2_saved", JNum (ea_co2_saved e)); ("created_at", JStr (ea_created_at e))]
  | VExpense e =>
      JObj [("id", JStr (ex_id e)); ("user_id", JStr (ex_user_id e));
            ("description", JStr (ex_description e)); ("amount", JNum (ex_amount e));
            ("category", JStr (ex_category e)); ("date", JStr (ex_date e));
            ("created_at", JStr (ex_created_at e))]
  | VAchievement a =>
      JObj [("id", JStr (ac_id a)); ("user_id", JStr (ac_user_id a));
            ("badge_name", JStr (ac_badge_name a)); ("badge_description", JStr (ac_badge_description a));
            ("badge_icon", JStr (ac_badge_icon a)); ("points_earned", JNum (inject_Z (ac_points_earned a)));
            ("earned_at", JStr (ac_earned_at a))]
  | VEcoStats s =>
      JObj [("total_eco_points", JNum (inject_Z (es_total_eco_points s)));
            ("total_co2_saved", JNum (es_total_co2_saved s));
            ("sustainable_purchases", JNum (inject_Z (es_sustainable_purchases s)))]
  end.

(** ** The types of src/client.ts *)

Record UserProfile := mkUserProfile {
  up_id : string; up_user_id : string; up_name : string; up_email : string; up_level : Q;
  up_total_xp : Q; up_streak_days : Q; up_total_points : Q; up_avatar_url : option string;
  up_created_at : string; up_updated_at : string
}.

Record Achievement := mkAchievement {
  a_id : string; a_user_id : string; a_badge_name : string; a_badge_description : string;
  a_badge_icon : string; a_earned_at : string; a_points_earned : Q
}.

Record LearningProgress := mkLearningProgress {
  lp_id : string; lp_user_id : string; lp_module_id : Q; lp_module_name : string;
  lp_progress_percentage : Q; lp_lessons_completed : Q; lp_total_lessons : Q;
  lp_last_accessed : string
}.

Record EcoAction := mkEcoAction {
  e_id : string; e_user_id : string; e_item_name : string; e_amount : Q; e_category : string;
  e_eco_points : Q; e_co2_saved : Q; e_created_at : string
}.

Record ExpenseEntry := mkExpenseEntry {
  x_id : string; x_user_id : string; x_description : string; x_amount : Q; x_category : string;
  x_date : string; x_created_at : string
}.

Definition decode_UserProfile (j : Json) : option UserProfile :=
  match j with
  | JObj fs =>
      id ← req_str fs "id"; user_id ← req_str fs "user_id"; name ← req_str fs "name";
      email ← req_str fs "email"; level ← req_num fs "level"; total_xp ← req_num fs "total_xp";
      streak_days ← req_num fs "streak_days"; total_points ← req_num fs "total_points";
      avatar_url ← opt_str fs "avatar_url"; created_at ← req_str fs "created_at";
      updated_at ← req_str fs "updated_at";
      Some (mkUserProfile id user_id name email level total_xp streak_days total_points
              avatar_url created_at updated_at)
  | _ => None
  end.

Definition decode_Achievement (j : Json) : option Achievement :=
  match j with
  | JObj fs =>
      id ← req_str fs "id"; user_id ← req_str fs "user_id"; badge_name ← req_str fs "badge_name";
      badge_description ← req_str fs "badge_description"; badge_icon ← req_str fs "badge_icon";
      earned_at ← req_str fs "earned_at"; points_earned ← req_num fs "points_earned";
      Some (mkAchievement id user_id badge_name badge_description badge_icon earned_at points_earned)
  | _ => None
  end.

Definition decode_LearningProgress (j : Json) : option LearningProgress :=
  match j with
  | JObj fs =>
      id ← req_str fs "id"; user_id ← req_str fs "user_id"; module_id ← req_num fs "module_id";
      module_name ← req_str fs "module_name";
      progress_percentage ← req_num fs "progress_percentage";
      lessons_completed ← req_num fs "lessons_completed"; total_lessons ← req_num fs "total_lessons";
      last_accessed ← req_str fs "last_accessed";
      Some (mkLearningProgress id user_id module_id module_name progress_percentage
              lessons_completed total_lessons last_accessed)
  | _ => None
  end.

Definition decode_EcoAction (j : Json) : option EcoAction :=
  match j with
  | JObj fs =>
      id ← req_str fs "id"; user_id ← req_str fs "user_id"; item_name ← req_str fs "item_name";
      amount ← req_num fs "amount"; category ← req_str fs "category";
      eco_points ← req_num fs "eco_points"; co2_saved ← req_num fs "co2_saved";
      created_at ← req_str fs "created_at";
      Some (mkEcoAction id user_id item_name amount category eco_points co2_saved created_at)
  | _ => None
  end.

Definition decode_ExpenseEntry (j : Json) : option ExpenseEntry :=
  match j with
  | JObj fs =>
      id ← req_str fs "id"; user_id ← req_str fs "user_id"; description ← req_str fs "description";
      amount ← req_num fs "amount"; category ← req_str fs "category"; date ← req_str fs "date";
      created_at ← req_str fs "created_at";
      Some (mkExpenseEntry id user_id description amount category date created_at)
  | _ => None
  end.

(** ** Conformance *)

(** C27: The types of src/client.ts against the objects the server
    sends.  An achievement, an eco action or an expense decodes as its
    client type with exactly the server's fields.  No profile and no
    learning progress ever decodes, because the client types require an
    [id] that the server never writes. *)
Theorem client_types_vs_server_json :
  (forall a, decode_Achievement (to_json (VAchievement a)) =
     Some (mkAchievement (ac_id a) (ac_user_id a) (ac_badge_name a) (ac_badge_description a)
             (ac_badge_icon a) (ac_earned_at a) (inject_Z (ac_points_earned a)))) /\
  (forall e, decode_EcoAction (to_json (VEco e)) =
     Some (mkEcoAction (ea_id e) (ea_user_id e) (ea_item_name e) (ea_amount e) (ea_category e)
             (inject_Z (ea_eco_points e)) (ea_co2_saved e) (ea_created_at e))) /\
  (forall e, decode_ExpenseEntry (to_json (VExpense e)) =
     Some (mkExpenseEntry (ex_id e) (ex_user_id e) (ex_description e) (ex_amount e)
             (ex_category e) (ex_date e) (ex_created_at e))) /\
  (forall p, decode_UserProfile (to_json (VProfile p)) = None) /\
  (forall p, decode_LearningProgress (to_json (VProgress p)) = None).
Proof. split_and!; intros []; reflexivity. Qed.

End ClientTypes.
