(* ===== verification/Api.v ===== *)
(** * Api: the client's API service (src/api.ts) against the server

    [ApiService.makeRequest] sends every call to the server with the
    header [Authorization: Bearer <token>], the token being the session's
    access token or, without one, the public anon key; a response that is
    not [ok] becomes an [Error] carrying the server's [error] field.  Each
    method is modelled by the route and parsed body the server sees: the
    keys [JSON.stringify] writes are exactly those the route destructures
    (module_id, item_name, badge_name, ...), so the JSON round trip is the
    identity on them.  [call] runs a method through [Server.handle]: the
    client and the server composed.  [signIn], [signOut] and
    [getCurrentSession] talk to the identity service only and are inputs
    here. *)

From stdpp Require Import base list gmap strings.
From Stdlib Require Import Ascii ZArith QArith Lia.
From S2P Require Import Prelude KvStore Server ServerProps.

Module Api.
Import Server ServerProps.

Local Open Scope Z_scope.

(** The part of a Supabase session the client reads. *)
Record Session := mkSession { session_user : option string; access_token : string }.

(** [session?.access_token || publicAnonKey] (line 9). *)
Definition accessToken (publicAnonKey : string) (session : option Session) : string :=
  match session with
  | Some s => if bool_decide (access_token s = "") then publicAnonKey else access_token s
  | None => publicAnonKey
  end.

(** [`Bearer ${accessToken}`] (line 15). *)
Definition bearer (token : string) : string := "Bearer " +:+ token.

Definition makeRequest (publicAnonKey : string) (session : option Session) (route : Route)
  : Request := mkRequest (Some (bearer (accessToken publicAnonKey session))) route.

(** The value of an awaited call: the parsed JSON, or the [Error] thrown. *)
Inductive ApiResult := ApiError (message : string) | ApiOk (json : Body).

(** [error.error || 'API request failed'] (line 22). *)
Definition error_message (b : Body) : string :=
  match b with
  | BError m => if bool_decide (m = "") then "API request failed" else m
  | _ => "API request failed"
  end.

(** [if (!response.ok) throw ...; return response.json()] (lines 20-25). *)
Definition to_result (r : Response) : ApiResult :=
  if bool_decide (200 <= status r <= 299) then ApiOk (body r)
  else ApiError (error_message (body r)).

(** ** The methods (lines 29-140), as the route and body they send *)

Definition signUp (email password name : string) : Route := Signup (Some (email, password, name)).
Definition getUserProfile : Route := GetProfile.
Definition updateUserProfile (updates : ProfileUpdate) : Route := PutProfile (Some updates).
Definition updateLearningProgress (moduleId : Z) (moduleName : string)
  (progressPercentage lessonsCompleted totalLessons : Z) : Route :=
  PostProgress (Some (moduleId, moduleName, progressPercentage, lessonsCompleted, totalLessons)).
Definition getLearningProgress : Route := GetProgress.
Definition addEcoAction (itemName : string) (amount : Q) (category : string) (ecoRating : Z)
  : Route := PostEcoAction (Some (itemName, amount, category, ecoRating)).
Definition addExpense (description : string) (amount : Q) (category date : string) : Route :=
  PostExpense (Some (description, amount, category, date)).
Definition getExpenses : Route := GetExpenses.
Definition addAchievement (badgeName badgeDescription badgeIcon : string) (pointsEarned : Z)
  : Route := PostAchievement (Some (badgeName, badgeDescription, badgeIcon, pointsEarned)).
Definition getLeaderboard : Route := GetLeaderboard.

(** ** What the client holds

    The profile object of [App] ([userProfile]) is a JS object whose
    fields may be absent: it is a [ProfileUpdate], every field an option.
    [{...prev, ...updates}] overwrites the fields [updates] has. *)

Definition profile_object (p : Profile) : ProfileUpdate :=
  mkProfileUpdate (Some (p_user_id p)) (Some (p_name p)) (Some (p_email p)) (Some (p_level p))
    (Some (p_total_xp p)) (Some (p_streak_days p)) (Some (p_total_points p))
    (Some (p_created_at p)).

Definition no_fields : ProfileUpdate := mkProfileUpdate None None None None None None None None.

(** [{...prev, ...updates}]; spreading [null] adds no field. *)
Definition spread (prev : option ProfileUpdate) (u : ProfileUpdate) : ProfileUpdate :=
  let p := default no_fields prev in
  mkProfileUpdate (u_user_id u ∪ u_user_id p) (u_name u ∪ u_name p) (u_email u ∪ u_email p)
    (u_level u ∪ u_level p) (u_total_xp u ∪ u_total_xp p) (u_streak_days u ∪ u_streak_days p)
    (u_total_points u ∪ u_total_points p) (u_created_at u ∪ u_created_at p).

(** [userProfile?.total_points || 0] and [userProfile?.total_xp || 0]. *)
Definition points_or_0 (p : option ProfileUpdate) : Z := default 0 (p ≫= u_total_points).
Definition xp_or_0 (p : option ProfileUpdate) : Z := default 0 (p ≫= u_total_xp).

(** [{ total_points: n }] and [{ total_xp: x, total_points: n }]. *)
Definition points_update (n : Z) : ProfileUpdate :=
  mkProfileUpdate None None None None None None (Some n) None.
Definition xp_points_update (x n : Z) : ProfileUpdate :=
  mkProfileUpdate None None None None (Some x) None (Some n) None.

(** What a handler of a component does besides changing its own state. *)
Inductive Toast := ToastSuccess (msg : string) | ToastError (msg : string).

Inductive Effect :=
| EToast (t : Toast)
| EUpdateProfile (updates : ProfileUpdate)   (** the [updateUserProfile] prop of [App] *)
| ERequest (route : Route).                 (** an [apiService] call, answered later *)

Section Call.
Context {S : Type} `{KvStoreLaws KvValue S}.

(** A method called from the browser and served. *)
Definition call (publicAnonKey : string) (env : Env) (session : option Session)
  (route : Route) (st : S) : S * ApiResult :=
  let res := handle env (makeRequest publicAnonKey session route) st in
  (res.1, to_result res.2).

End Call.

(** ** The header round trip *)

Lemma bearer_split tok :
  no_char " "%char tok -> js_split " "%char (bearer tok) = ["Bearer"; tok].
Proof.
  intros Htok. apply (js_split_join " "%char ["Bearer"; tok]); [done|].
  repeat constructor; [apply char_free_spec; reflexivity|exact Htok].
Qed.

(** C19: The token the client writes into [Authorization: Bearer <token>]
    is the token [verifyUser] reads back from the header, so the server
    asks the identity service about exactly that token (a non-empty token
    without a space, as JWTs are). *)
Theorem bearer_roundtrip env tok :
  tok <> "" -> no_char " "%char tok ->
  verifyUser env (Some (bearer tok)) = env_get_user env tok.
Proof.
  intros Hne Htok. unfold verifyUser.
  change (Some (bearer tok) ≫= ?f) with (f (bearer tok)). cbv beta.
  rewrite bearer_split by done. simpl. by destruct tok.
Qed.

(** The token sent is never empty and has no space when the anon key and
    the session's token have none. *)
Lemma accessToken_ok anon session :
  anon <> "" -> no_char " "%char anon ->
  (forall s, session = Some s -> no_char " "%char (access_token s)) ->
  accessToken anon session <> "" /\ no_char " "%char (accessToken anon session).
Proof.
  intros Hne Hsp Hs. destruct session as [s|]; simpl; [|done].
  case_bool_decide; [done|]. split; [done|]. by apply Hs.
Qed.

Section Served.
Context {S : Type} `{KvStoreLaws KvValue S}.

(** C20: A call of a protected method from the browser is served as the
    route of the user whom the identity service gives for the session's
    token (the anon key when signed out), and a refused token comes back
    as [Error('Unauthorized')] with the store untouched. *)
Theorem call_protected anon env session r (st : S) :
  protected_route r -> anon <> "" -> no_char " "%char anon ->
  (forall s, session = Some s -> no_char " "%char (access_token s)) ->
  call anon env session r st =
    match env_get_user env (accessToken anon session) with
    | None => (st, ApiError "Unauthorized")
    | Some uid => let res := authenticated env uid r st in (res.1, to_result res.2)
    end.
Proof.
  intros Hr Hne Hsp Hs. destruct (accessToken_ok anon session Hne Hsp Hs) as [Htne Htsp].
  unfold call, makeRequest, handle. cbn [req_route req_authorization].
  rewrite bearer_roundtrip by done.
  destruct r; try contradiction; destruct (env_get_user env _); reflexivity.
Qed.

End Served.

(** ** Runs *)

Lemma no_space_ok s : char_free " "%char s = true -> no_char " "%char s.
Proof. apply char_free_spec. Qed.

(** Witness of C19: alice's token. *)
Lemma bearer_roundtrip_witness :
  "tok-alice" <> "" /\ no_char " "%char "tok-alice" /\
  verifyUser (demo_env "t" "u") (Some (bearer "tok-alice"))
    = env_get_user (demo_env "t" "u") "tok-alice".
Proof.
  assert (Hsp : no_char " "%char "tok-alice") by (apply no_space_ok; reflexivity).
  split_and!; [done|exact Hsp|]. by apply bearer_roundtrip.
Defined.

(** Witness of C20: signed out, [getExpenses] goes out with the anon key,
    which the identity service refuses. *)
Lemma call_protected_witness :
  protected_route getExpenses /\ "anon-key" <> "" /\ no_char " "%char "anon-key" /\
  (forall s, (None : option Session) = Some s -> no_char " "%char (access_token s)) /\
  call "anon-key" (demo_env "t" "u") None getExpenses demo_store =
    match env_get_user (demo_env "t" "u") (accessToken "anon-key" None) with
    | None => (demo_store, ApiError "Unauthorized")
    | Some uid => let res := authenticated (demo_env "t" "u") uid getExpenses demo_store in
                  (res.1, to_result res.2)
    end.
Proof.
  assert (Hsp : no_char " "%char "anon-key") by (apply no_space_ok; reflexivity).
  assert (Hs : forall s, (None : option Session) = Some s -> no_char " "%char (access_token s))
    by done.
  split_and!; [exact I|done|exact Hsp|exact Hs|].
  by apply call_protected.
Defined.

End Api.
