(* ===== verification/Budget.v ===== *)
(** * Budget: the BudgetingTools component (src/BudgetingTools.tsx)

    The component loads the caller's expenses on mount, derives the
    monthly budget, the five category budgets and the ten most recent
    transactions from them, and adds an expense through the API, awarding
    10 points locally.  Its state is the four [useState] hooks; each
    asynchronous handler is split at its [await] into the part that runs
    on the click (returning the request) and the part that runs on the
    answer.  The clock and the date parser are section variables:
    [in_current_month] is the test of lines 57-60, [time_of] is
    [new Date(s).getTime()], [parseFloat] reads the number input (an
    [<Input type="number">], whose value is empty or a number) and [today]
    is [new Date().toISOString().split('T')[0]].  Amounts are exact
    rationals ([Q]); the budgets are non-zero constants, so the division of
    [getSpendingStatus] never meets a zero. *)

From stdpp Require Import base list sets strings sorting pretty.
From Stdlib Require Import Ascii ZArith QArith Lia.
From S2P Require Import Prelude KvStore Server Api.

Module Budget.
Import Server Api.

Local Open Scope Q_scope.

Record NewExpense := mkNewExpense {
  ne_category : string; ne_amount : string; ne_description : string
}.

Record BudgetState := mkBudgetState {
  newExpense : NewExpense;
  expenses : list Expense;
  loading : bool;
  addingExpense : bool
}.

Definition empty_expense : NewExpense := mkNewExpense "" "" "".

(** The [useState] initial values (lines 32-35). *)
Definition initial_budget_state : BudgetState := mkBudgetState empty_expense [] false false.

(** [budget], [spent] of a category, without the icon and colour. *)
Record Category := mkCategory { cat_name : string; cat_budget : Q; cat_spent : Q }.

(** [savingsGoals] (lines 110-114). *)
Record SavingsGoal := mkSavingsGoal { goal_name : string; goal_target : Z; goal_current : Z }.

Definition savingsGoals : list SavingsGoal := [
  mkSavingsGoal "Emergency Fund" 50000 32000;
  mkSavingsGoal "Vacation Trip" 15000 8500;
  mkSavingsGoal "New Laptop" 60000 45000].

Inductive SpendingStatus := Good | Warning | Danger.

(** [getSpendingStatus] (lines 116-121). *)
Definition getSpendingStatus (spent budget : Q) : SpendingStatus :=
  let percentage := spent / budget * 100 in
  if Qle_bool 90 percentage then Danger
  else if Qle_bool 75 percentage then Warning
  else Good.

(** [reduce((sum, e) => sum + e.amount, 0)]. *)
Definition sum_amounts (es : list Expense) : Q := fold_left (fun sum e => sum + ex_amount e) es 0.

(** [expenses.filter(e => e.category === name).reduce(...)]. *)
Definition category_spent (name : string) (es : list Expense) : Q :=
  sum_amounts (filter (fun e => ex_category e = name) es).

(** The names and budgets of [categories] (lines 68-104). *)
Definition category_budgets : list (string * Q) := [
  ("Food & Dining", 8000); ("Transportation", 5000); ("Shopping", 4000);
  ("Housing", 6000); ("Entertainment", 2000)].

Definition categories (es : list Expense) : list Category :=
  (fun nb => mkCategory nb.1 nb.2 (category_spent nb.1 es)) <$> category_budgets.

(** The expenses of a [GET /expenses] answer. *)
Definition as_expense (v : KvValue) : option Expense :=
  match v with VExpense e => Some e | _ => None end.

Section Clock.
Variable in_current_month : string -> bool.
Variable time_of : string -> Z.
Variable parseFloat : string -> Q.
Variable today : string.

(** [monthlyBudget] (lines 54-66): [total], [spent] this month and the
    getter [remaining]. *)
Definition monthly_total : Q := 25000.
Definition monthly_spent (es : list Expense) : Q :=
  fold_left (fun sum e => if in_current_month (ex_date e) then sum + ex_amount e else sum) es 0.
Definition monthly_remaining (es : list Expense) : Q := monthly_total - monthly_spent es.

(** The comparator of line 107: [a] goes first when it is not older. *)
Definition newest_first (a b : Expense) : Prop :=
  (time_of (ex_created_at b) <= time_of (ex_created_at a))%Z.

#[export] Instance newest_first_dec : RelDecision newest_first.
Proof. intros a b. unfold newest_first. apply _. Defined.

(** [recentTransactions] (lines 106-108).  The [sort] also reorders the
    state's array in place; the sums above do not depend on the order. *)
Definition recentTransactions (es : list Expense) : list Expense :=
  take 10 (merge_sort newest_first es).

(** [loadExpenses] (lines 41-52), on mount: the request, then the answer. *)
Definition loadExpenses_start (s : BudgetState) : BudgetState * list Effect :=
  (mkBudgetState (newExpense s) (expenses s) true (addingExpense s), [ERequest getExpenses]).

(** [setExpenses(userExpenses || [])]: by [own_expenses_only] the answer
    holds expenses only. *)
Definition loadExpenses_done (r : ApiResult) (s : BudgetState) : BudgetState * list Effect :=
  match r with
  | ApiOk b =>
      let es := match b with BExpenses vs => omap as_expense vs | _ => [] end in
      (mkBudgetState (newExpense s) es false (addingExpense s), [])
  | ApiError _ =>
      (mkBudgetState (newExpense s) (expenses s) false (addingExpense s),
       [EToast (ToastError "Failed to load expenses")])
  end.

(** [handleAddExpense] up to its [await] (lines 123-132, 151-153). *)
Definition handleAddExpense_start (s : BudgetState) : BudgetState * list Effect :=
  let ne := newExpense s in
  if bool_decide (ne_category ne <> "") && bool_decide (ne_amount ne <> "")
     && bool_decide (ne_description ne <> "")
  then (mkBudgetState ne (expenses s) (loading s) true,
        [ERequest (addExpense (ne_description ne) (parseFloat (ne_amount ne)) (ne_category ne)
                     today)])
  else (s, [EToast (ToastError "Please fill in all fields")]).

(** The rest (lines 134-150), on the [expense] of the answer or the error
    thrown; [userProfile] is the prop the click's render saw. *)
Definition handleAddExpense_done (userProfile : option ProfileUpdate)
  (r : string + Expense) (s : BudgetState) : BudgetState * list Effect :=
  match r with
  | inr expense =>
      let pointsEarned := 10%Z in
      (mkBudgetState empty_expense (expense :: expenses s) (loading s) false,
       [EToast (ToastSuccess "Expense added successfully!");
        EUpdateProfile (points_update (points_or_0 userProfile + pointsEarned));
        EToast (ToastSuccess ("+" +:+ pretty pointsEarned +:+ " points for tracking expense!"))])
  | inl _ =>
      (mkBudgetState (newExpense s) (expenses s) (loading s) false,
       [EToast (ToastError "Failed to add expense")])
  end.

End Clock.

(** ** Sums of amounts *)

Lemma fold_sum_acc es a :
  fold_left (fun sum e => sum + ex_amount e) es a == a + sum_amounts es.
Proof.
  unfold sum_amounts. revert a. induction es as [|e es IH]; intros a; simpl.
  - ring.
  - rewrite (IH (a + ex_amount e)), (IH (0 + ex_amount e)). ring.
Qed.

Lemma sum_amounts_cons e es : sum_amounts (e :: es) == ex_amount e + sum_amounts es.
Proof. unfold sum_amounts at 1. simpl. rewrite fold_sum_acc. ring. Qed.

(** Splitting a list by a test splits its sum. *)
Lemma sum_amounts_filter (P : Expense -> Prop) `{!forall e, Decision (P e)} (es : list Expense) :
  sum_amounts es == sum_amounts (filter P es) + sum_amounts (filter (fun e => ~ P e) es).
Proof.
  induction es as [|e es IH]; [reflexivity|].
  rewrite !filter_cons, sum_amounts_cons, IH.
  destruct (decide (P e)); rewrite ?decide_True, ?decide_False by tauto;
    rewrite ?sum_amounts_cons; ring.
Qed.

Lemma filter_comm (P R : Expense -> Prop) `{!forall e, Decision (P e), !forall e, Decision (R e)} (es : list Expense) :
  filter P (filter R es) = filter R (filter P es).
Proof. rewrite !list_filter_filter. apply list_filter_iff. tauto. Qed.

(** The spending of distinct categories and of the expenses in none of
    them add up to all the spending. *)
Lemma category_sums ns es :
  NoDup ns ->
  foldr Qplus 0 ((fun n => category_spent n es) <$> ns)
    + sum_amounts (filter (fun e => ex_category e ∉ ns) es) == sum_amounts es.
Proof.
  revert es. induction ns as [|n ns IH]; intros es Hnd.
  - simpl. rewrite filter_all by set_solver. ring.
  - apply NoDup_cons in Hnd as [Hn Hnd]. simpl. rewrite <- Qplus_assoc.
    rewrite (sum_amounts_filter (fun e => ex_category e = n) es).
    rewrite <- (IH (filter (fun e => ex_category e <> n) es) Hnd).
    unfold category_spent at 1.
    assert (Hmap : (fun m => category_spent m (filter (fun e => ex_category e <> n) es)) <$> ns
                   = (fun m => category_spent m es) <$> ns).
    { apply list_fmap_ext. intros i m Hm%list_elem_of_lookup_2. unfold category_spent.
      rewrite filter_comm, list_filter_filter. f_equal. apply list_filter_iff.
      intros e. split; [tauto|]. intros He. split; [|done]. intros Hen.
      apply Hn. by rewrite <- Hen, He. }
    rewrite Hmap, list_filter_filter.
    rewrite (list_filter_iff (fun e => (ex_category e ∉ ns) /\ ex_category e <> n)
                             (fun e => ex_category e ∉ n :: ns)) by set_solver.
    reflexivity.
Qed.

(** C21: The five category cards share out the spending: their [spent]
    figures and the spending on expenses of no listed category add up to
    the sum of all the expenses' amounts. *)
Theorem categories_partition es :
  foldr Qplus 0 (cat_spent <$> categories es)
    + sum_amounts (filter (fun e => ex_category e ∉ category_budgets.*1) es) == sum_amounts es.
Proof.
  rewrite <- (category_sums (category_budgets.*1) es) by (apply (bool_decide_unpack _); vm_compute; reflexivity).
  unfold categories. rewrite <- list_fmap_compose. reflexivity.
Qed.

(** ** Spending status *)

Definition status_rank (st : SpendingStatus) : nat :=
  match st with Good => 0 | Warning => 1 | Danger => 2 end.

Lemma percentage_le c spent budget :
  0 < budget -> (c <= spent / budget * 100 <-> c / 100 * budget <= spent).
Proof.
  intros Hb. assert (Hb0 : ~ budget == 0) by (intros E; rewrite E in Hb; discriminate).
  rewrite <- (Qmult_le_r c (spent / budget * 100) budget Hb).
  assert (E1 : spent / budget * 100 * budget == spent * 100) by (field; exact Hb0).
  assert (E2 : c * budget == c / 100 * budget * 100) by field.
  rewrite E1, E2. apply Qmult_le_r. reflexivity.
Qed.

(** C23: With a positive budget, [getSpendingStatus] is [danger] from 90%
    of the budget on, [warning] from 75% on and [good] below, so spending
    more never shows a better status. *)
Theorem spending_status_thresholds spent budget :
  0 < budget ->
  getSpendingStatus spent budget =
    (if Qle_bool (90 / 100 * budget) spent then Danger
     else if Qle_bool (75 / 100 * budget) spent then Warning else Good) /\
  (forall spent', spent <= spent' ->
     (status_rank (getSpendingStatus spent budget) <= status_rank (getSpendingStatus spent' budget))%nat).
Proof.
  intros Hb.
  assert (Hst : forall x, getSpendingStatus x budget =
    (if Qle_bool (90 / 100 * budget) x then Danger
     else if Qle_bool (75 / 100 * budget) x then Warning else Good)).
  { intros x. unfold getSpendingStatus.
    assert (E1 : Qle_bool 90 (x / budget * 100) = Qle_bool (90 / 100 * budget) x).
    { apply eq_true_iff_eq. rewrite !Qle_bool_iff, percentage_le by done.
      reflexivity. }
    assert (E2 : Qle_bool 75 (x / budget * 100) = Qle_bool (75 / 100 * budget) x).
    { apply eq_true_iff_eq. rewrite !Qle_bool_iff, percentage_le by done.
      reflexivity. }
    by rewrite E1, E2. }
  split; [apply Hst|]. intros spent' Hle. rewrite !Hst.
  assert (Hup : forall c, Qle_bool c spent = true -> Qle_bool c spent' = true).
  { intros c Hc. apply Qle_bool_iff. apply Qle_bool_iff in Hc. eapply Qle_trans; eauto. }
  destruct (Qle_bool (90 / 100 * budget) spent) eqn:D1; [by rewrite Hup|].
  destruct (Qle_bool (75 / 100 * budget) spent) eqn:D2; [|apply Nat.le_0_l].
  rewrite (Hup _ D2). destruct (Qle_bool (90 / 100 * budget) spent'); simpl; lia.
Qed.

Section ClockProps.
Variable in_current_month : string -> bool.
Variable time_of : string -> Z.

Lemma monthly_fold es a :
  fold_left (fun sum e => if in_current_month (ex_date e) then sum + ex_amount e else sum) es a
    == a + sum_amounts (filter (fun e => in_current_month (ex_date e) = true) es).
Proof.
  revert a. induction es as [|e es IH]; intros a; simpl.
  - unfold sum_amounts. simpl. ring.
  - rewrite filter_cons. destruct (in_current_month (ex_date e)) eqn:Hm.
    + rewrite decide_True by done. rewrite IH, sum_amounts_cons. ring.
    + rewrite decide_False by congruence. apply IH.
Qed.

(** The month's spending of [monthlyBudget], summed in one
    [reduce] with the date test inside, is the sum of the amounts of the
    expenses dated this month, so [remaining] is the budget less them. *)
Theorem monthly_spent_is_filtered_sum es :
  monthly_spent in_current_month es
    == sum_amounts (filter (fun e => in_current_month (ex_date e) = true) es) /\
  monthly_remaining in_current_month es
    == 25000 - sum_amounts (filter (fun e => in_current_month (ex_date e) = true) es).
Proof.
  assert (Hs : monthly_spent in_current_month es
    == sum_amounts (filter (fun e => in_current_month (ex_date e) = true) es)).
  { unfold monthly_spent. rewrite monthly_fold. ring. }
  split; [exact Hs|]. unfold monthly_remaining, monthly_total. by rewrite Hs.
Qed.

Lemma newest_first_trans : Transitive (newest_first time_of).
Proof. unfold newest_first. intros ???. lia. Qed.
Lemma newest_first_total : Total (newest_first time_of).
Proof. unfold newest_first. intros ??. lia. Qed.
Existing Instances newest_first_trans newest_first_total.

(** C24: [recentTransactions] shows [min 10 n] of the [n] expenses, newest
    first, and every expense it leaves out is no newer than any it shows. *)
Theorem recent_transactions_newest es :
  exists rest,
    recentTransactions time_of es ++ rest ≡ₚ es /\
    length (recentTransactions time_of es) = Nat.min 10 (length es) /\
    StronglySorted (newest_first time_of) (recentTransactions time_of es) /\
    (forall x y, x ∈ rest -> y ∈ recentTransactions time_of es ->
       (time_of (ex_created_at x) <= time_of (ex_created_at y))%Z).
Proof.
  destruct (take_merge_sort_spec (newest_first time_of) 10 es) as (Hp & Hs & Hl & Hm).
  by exists (drop 10 (merge_sort (newest_first time_of) es)).
Qed.

End ClockProps.

(** Witness of C23: 7200 of the 8000 food budget is exactly 90%. *)
Lemma spending_status_thresholds_witness :
  0 < 8000 /\
  getSpendingStatus 7200 8000 =
    (if Qle_bool (90 / 100 * 8000) 7200 then Danger
     else if Qle_bool (75 / 100 * 8000) 7200 then Warning else Good) /\
  (forall spent', 7200 <= spent' ->
     (status_rank (getSpendingStatus 7200 8000) <= status_rank (getSpendingStatus spent' 8000))%nat).
Proof. split; [reflexivity|]. apply spending_status_thresholds. reflexivity. Defined.

End Budget.
