(* ===== verification/BudgetView.v ===== *)
(** * BudgetView: what the BudgetingTools tab renders and its form inputs

    [Budget] models the state, the sums and the handlers of BudgetingTools
    (src/BudgetingTools.tsx).  This file models what the component
    renders (lines 156-387):
    - the monthly overview card with its bar;
    - the category breakdown, a spinner while [loading];
    - the inputs of the expense form, each of which writes one field with
      [setNewExpense({ ...newExpense, field: value })], and its button;
    - the savings goals with [percentage.toFixed(0)];
    - the transactions list, with its spinner and its empty message.
    Numbers rendered through [toLocaleString] are kept as numbers.
    [toLocaleDateString] depends on the browser's locale and is a
    parameter. *)

From stdpp Require Import base list strings pretty.
From Stdlib Require Import Ascii ZArith QArith Lia.
From S2P Require Import Prelude KvStore Server Api Budget.

Module BudgetView.
Import Server Api Budget.

Local Open Scope Q_scope.

(** ** The overview (lines 158-188) *)

Record Overview := mkOverview { ov_total : Q; ov_spent : Q; ov_remaining : Q; ov_bar : Q }.

(** ** The category breakdown (lines 199-243) *)

Record CategoryRow := mkCategoryRow {
  cr_name : string; cr_spent : Q; cr_budget : Q; cr_status : SpendingStatus; cr_bar : Q;
  cr_barClass : string
}.

(** A category's row: [percentage = (spent / budget) * 100], the status
    icon and the bar colour of [getSpendingStatus]. *)
Definition category_row (c : Category) : CategoryRow :=
  let status := getSpendingStatus (cat_spent c) (cat_budget c) in
  mkCategoryRow (cat_name c) (cat_spent c) (cat_budget c) status (cat_spent c / cat_budget c * 100)
    (match status with
     | Danger => "[&>div]:bg-red-500"
     | Warning => "[&>div]:bg-yellow-500"
     | Good => "[&>div]:bg-green-500"
     end).

(** [loading ? <Loader2/> : categories.map(...)]. *)
Definition category_breakdown (s : BudgetState) : option (list CategoryRow) :=
  if loading s then None else Some (category_row <$> categories (expenses s)).

(** ** The form (lines 246-311) *)

Definition set_category (v : string) (s : BudgetState) : BudgetState :=
  let ne := newExpense s in
  mkBudgetState (mkNewExpense v (ne_amount ne) (ne_description ne)) (expenses s) (loading s)
    (addingExpense s).
Definition set_amount (v : string) (s : BudgetState) : BudgetState :=
  let ne := newExpense s in
  mkBudgetState (mkNewExpense (ne_category ne) v (ne_description ne)) (expenses s) (loading s)
    (addingExpense s).
Definition set_description (v : string) (s : BudgetState) : BudgetState :=
  let ne := newExpense s in
  mkBudgetState (mkNewExpense (ne_category ne) (ne_amount ne) v) (expenses s) (loading s)
    (addingExpense s).

(** The options of the category [select] (lines 266-270): a placeholder
    and the names of [categories]. *)
Definition category_options (s : BudgetState) : list string :=
  "" :: (cat_name <$> categories (expenses s)).

(** The button, disabled with "Adding Expense..." while [addingExpense]. *)
Definition add_button (s : BudgetState) : bool * string :=
  (addingExpense s, if addingExpense s then "Adding Expense..." else "Add Expense (+10 pts)").

(** ** The savings goals (lines 313-343) *)

Record GoalRow := mkGoalRow {
  gr_name : string; gr_current : Z; gr_target : Z; gr_bar : Q; gr_complete : string;
  gr_remaining : Z
}.

Definition goal_row (g : SavingsGoal) : GoalRow :=
  let percentage := inject_Z (goal_current g) / inject_Z (goal_target g) * 100 in
  mkGoalRow (goal_name g) (goal_current g) (goal_target g) percentage
    (toFixed0 percentage +:+ "% complete") (goal_target g - goal_current g).

Definition goals_view : list GoalRow := goal_row <$> savingsGoals.

(** ** The transactions (lines 345-384) *)

Inductive TransactionsView :=
| TxLoading
| TxEmpty
| TxRows (rows : list (string * string * Q)).

Section Views.
Variable in_current_month : string -> bool.
Variable time_of : string -> Z.
(** [new Date(date).toLocaleDateString()]. *)
Variable toLocaleDateString : string -> string.

Definition overview (s : BudgetState) : Overview :=
  let spent := monthly_spent in_current_month (expenses s) in
  mkOverview monthly_total spent (monthly_remaining in_current_month (expenses s))
    (spent / monthly_total * 100).

(** The spinner while [loading], the empty message when
    [recentTransactions.length === 0], else one row per transaction:
    description, [{category} • {date}] and the amount shown as [-₹...]. *)
Definition transactions_view (s : BudgetState) : TransactionsView :=
  if loading s then TxLoading else
  match recentTransactions time_of (expenses s) with
  | [] => TxEmpty
  | rs => TxRows ((fun e => (ex_description e,
                             ex_category e +:+ " • " +:+ toLocaleDateString (ex_date e),
                             ex_amount e)) <$> rs)
  end.

End Views.

End BudgetView.
