(* ===== verification/JsDate.v ===== *)
(** * JsDate: the dates of expenses and the month test of BudgetingTools

    BudgetingTools writes the date of a new expense as
    [new Date().toISOString().split('T')[0]] (src/BudgetingTools.tsx,
    line 131).  That is the UTC calendar date of the click.
    [monthlyBudget.spent] (lines 56-64) counts an expense when
    [new Date(exp.date)] falls in the current month and year in local
    time.  [new Date("YYYY-MM-DD")] is midnight UTC of that date.  This
    file models these pieces of [Date] to the minute:
    - an instant is a UTC calendar date with a minute of the day;
    - the local time of the browser is that instant shifted by the
      timezone offset, in minutes;
    - [toISOString] prints the UTC date, and [new Date] reads it back.

    The calendar is the proleptic Gregorian one of [Date].  [Budget]
    takes the month test and the date of today as parameters, and
    [in_current_month_js] and [today_js] are their values here. *)

From stdpp Require Import base list strings pretty.
From Stdlib Require Import Ascii ZArith NArith QArith Lia.
From S2P Require Import Prelude KvStore Server Budget.

Module JsDate.
Import Server.

Local Open Scope Z_scope.

(** ** The calendar *)

Record Date3 := mkDate3 { year : Z; month : Z; day : Z }.

Definition is_leap (y : Z) : bool :=
  (Z.eqb (y mod 4) 0 && negb (Z.eqb (y mod 100) 0)) || Z.eqb (y mod 400) 0.

Definition days_in_month (y m : Z) : Z :=
  if Z.eqb m 2 then (if is_leap y then 29 else 28)
  else if Z.eqb m 4 || Z.eqb m 6 || Z.eqb m 9 || Z.eqb m 11 then 30
  else 31.

(** A date [Date] can print as [YYYY-MM-DD]: years 0 to 9999. *)
Definition valid_date (d : Date3) : Prop :=
  0 <= year d <= 9999 /\ 1 <= month d <= 12 /\ 1 <= day d <= days_in_month (year d) (month d).

#[export] Instance valid_date_dec d : Decision (valid_date d).
Proof. unfold valid_date. apply _. Defined.

Definition next_day (d : Date3) : Date3 :=
  if day d <? days_in_month (year d) (month d) then mkDate3 (year d) (month d) (day d + 1)
  else if month d <? 12 then mkDate3 (year d) (month d + 1) 1
  else mkDate3 (year d + 1) 1 1.

Definition prev_day (d : Date3) : Date3 :=
  if 1 <? day d then mkDate3 (year d) (month d) (day d - 1)
  else if 1 <? month d then mkDate3 (year d) (month d - 1) (days_in_month (year d) (month d - 1))
  else mkDate3 (year d - 1) 12 31.

(** ** Instants and local time *)

(** A UTC date and a minute of that day, [0 <= minute < 1440]. *)
Record Instant := mkInstant { idate : Date3; iminute : Z }.

(** The local date and minute of the browser, [offset] minutes east of
    UTC ([-getTimezoneOffset()]); real offsets are below a day. *)
Definition to_local (offset : Z) (i : Instant) : Instant :=
  let t := iminute i + offset in
  if 1440 <=? t then mkInstant (next_day (idate i)) (t - 1440)
  else if t <? 0 then mkInstant (prev_day (idate i)) (t + 1440)
  else mkInstant (idate i) t.

(** ** Printing and reading dates *)

(** [toISOString().split('T')[0]] of a date: [YYYY-MM-DD]. *)
Definition format_date (d : Date3) : string :=
  padStart 4 "0" (pretty (year d)) +:+ "-" +:+ padStart 2 "0" (pretty (month d)) +:+ "-" +:+
  padStart 2 "0" (pretty (day d)).

(** [new Date(s)] on a date of the form [YYYY-MM-DD]: midnight UTC of that
    date, or [None] for an Invalid Date. *)
Definition parse_date (s : string) : option Date3 :=
  match js_split "-" s with
  | [ys; ms; ds] =>
      if bool_decide (String.length ys = 4%nat /\ String.length ms = 2%nat /\
                      String.length ds = 2%nat) then
        y ← digits_go 0 ys; m ← digits_go 0 ms; d ← digits_go 0 ds;
        let D := mkDate3 (Z.of_N y) (Z.of_N m) (Z.of_N d) in
        if bool_decide (valid_date D) then Some D else None
      else None
  | _ => None
  end.

(** The [today] of [handleAddExpense] (line 131). *)
Definition today_js (now : Instant) : string := format_date (idate now).

(** The test of [monthlyBudget.spent] (lines 57-60): the local month and
    year of [new Date(exp.date)] against those of [new Date()].  An
    Invalid Date has month [NaN], equal to nothing. *)
Definition in_current_month_js (offset : Z) (now : Instant) (s : string) : bool :=
  match parse_date s with
  | Some D =>
      let l := idate (to_local offset (mkInstant D 0)) in
      let c := idate (to_local offset now) in
      bool_decide (month l = month c) && bool_decide (year l = year c)
  | None => false
  end.

(** ** Lemmas *)

Lemma padStart_length k c s :
  (String.length s <= k)%nat -> String.length (padStart k c s) = k.
Proof. intros Hs. unfold padStart. rewrite string_length_app, pad_chars_length. lia. Qed.

(** A padded number contains no dash. *)
Lemma padded_no_dash k (n : N) : no_char "-" (padStart k "0" (pretty n)).
Proof.
  apply char_free_spec. unfold padStart.
  assert (Hd : forall acc d s, (d < 10)%N ->
            (fun (_ : N) s => char_free "-" s) acc (String (pretty_N_char d) s)
            = (fun (_ : N) s => char_free "-" s) (acc * 10 + d)%N s).
  { intros acc d s Hd.
    assert (d = 0 \/ d = 1 \/ d = 2 \/ d = 3 \/ d = 4 \/ d = 5 \/ d = 6 \/ d = 7 \/ d = 8 \/ d = 9)%N
      as Hc by lia.
    repeat destruct Hc as [->|Hc]; try subst; reflexivity. }
  rewrite (pad_zeros_read _ Hd). destruct (pretty_N_read _ Hd n) as [k' Hk].
  rewrite <- (string_app_nil_r (pretty n)). exact (Hk 0%N "").
Qed.

(** A padded number reads back as the number. *)
Lemma padded_digits k (n : N) : digits_go 0 (padStart k "0" (pretty n)) = Some n.
Proof.
  unfold padStart. rewrite (pad_zeros_read digits_go digits_go_digit).
  destruct (pretty_N_read digits_go digits_go_digit n) as [k' Hk].
  rewrite <- (string_app_nil_r (pretty n)), Hk, N.mul_0_l, N.add_0_l. reflexivity.
Qed.

Lemma days_in_month_le y m : days_in_month y m <= 31.
Proof. unfold days_in_month. repeat case_match; lia. Qed.

(** [new Date] reads back every date [toISOString] prints. *)
Lemma parse_format_date d : valid_date d -> parse_date (format_date d) = Some d.
Proof.
  intros Hv. pose proof Hv as (Hy & Hm & Hd). pose proof (days_in_month_le (year d) (month d)).
  unfold format_date. rewrite (pretty_Z_nonneg (year d)), (pretty_Z_nonneg (month d)),
    (pretty_Z_nonneg (day d)) by lia.
  rewrite !string_cons_app. unfold parse_date.
  rewrite !js_split_app by apply padded_no_dash.
  rewrite js_split_no_sep by apply padded_no_dash.
  rewrite bool_decide_eq_true_2.
  2:{ split_and!; apply padStart_length, pretty_N_length; simpl; lia. }
  rewrite !padded_digits. simpl. rewrite !Z2N.id by lia.
  destruct d as [y m dd]. simpl. by rewrite bool_decide_eq_true_2.
Qed.

(** The day after a valid date is the first of a month only when it is
    in another month. *)
Lemma next_day_first_month d :
  valid_date d -> day (next_day d) = 1 -> month (next_day d) <> month d.
Proof.
  intros (_ & Hm & Hd). unfold next_day.
  destruct (day d <? _) eqn:H1; [simpl; lia|].
  destruct (month d <? 12) eqn:H2; simpl; lia.
Qed.

(** Midnight UTC of a date is still that date east of UTC. *)
Lemma to_local_midnight offset d :
  0 <= offset < 1440 -> idate (to_local offset (mkInstant d 0)) = d.
Proof.
  intros Ho. unfold to_local. simpl.
  rewrite (proj2 (Z.leb_gt _ _)) by lia. by rewrite (proj2 (Z.ltb_ge _ _)) by lia.
Qed.

(** ** The month test east of UTC *)

(** The month and year of a date string, when [new Date] reads it. *)
Definition month_of_text (s : string) : option (Z * Z) :=
  (fun D => (month D, year D)) <$> parse_date s.

(** C22: East of UTC and at UTC, the month test of [monthlyBudget.spent]
    counts exactly the expenses whose date text names the local month
    and year of [new Date()], so [spent] is their sum.  An expense dated
    with [today_js] at a moment when the UTC date is still the local
    date is counted. *)
Theorem month_test_east_of_utc offset now es :
  0 <= offset < 1440 ->
  Budget.monthly_spent (in_current_month_js offset now) es ==
    Budget.sum_amounts (filter (fun e => month_of_text (ex_date e) =
      Some (month (idate (to_local offset now)), year (idate (to_local offset now)))) es) /\
  (valid_date (idate now) -> 0 <= iminute now -> iminute now + offset < 1440 ->
   in_current_month_js offset now (today_js now) = true).
Proof.
  intros Ho. split.
  - etransitivity; [apply (proj1 (Budget.monthly_spent_is_filtered_sum _ es))|].
    erewrite list_filter_iff; [reflexivity|]. intros e.
    unfold in_current_month_js, month_of_text.
    destruct (parse_date (ex_date e)) as [D|]; simpl; [|split; discriminate].
    rewrite to_local_midnight by lia. rewrite andb_true_iff, !bool_decide_eq_true.
    split; [intros [-> ->]; done|intros [= -> ->]; done].
  - intros Hv Hm Hlt. unfold in_current_month_js, today_js.
    rewrite parse_format_date by done. rewrite to_local_midnight by lia.
    unfold to_local. rewrite (proj2 (Z.leb_gt _ _)) by lia. rewrite (proj2 (Z.ltb_ge _ _)) by lia.
    simpl. by rewrite !bool_decide_eq_true_2.
Qed.

(** ** Expenses added after local midnight on the first *)

(** C17: East of UTC, in the first [offset] minutes of the first day of
    a month, [handleAddExpense] dates a new expense with the UTC date,
    the last day of the previous month.  [new Date(date)] is then in the
    previous month in local time, so [monthlyBudget.spent] leaves the
    expense out of the current month, although it was just added. *)
Theorem expense_after_midnight_not_in_month offset now (e : Expense) es :
  0 < offset < 1440 -> valid_date (idate now) -> 0 <= iminute now ->
  1440 <= iminute now + offset -> day (idate (to_local offset now)) = 1 ->
  ex_date e = today_js now ->
  in_current_month_js offset now (ex_date e) = false /\
  Budget.monthly_spent (in_current_month_js offset now) (e :: es)
    = Budget.monthly_spent (in_current_month_js offset now) es.
Proof.
  intros Ho Hv Hm Hnext H1 He.
  assert (Hout : in_current_month_js offset now (ex_date e) = false).
  { unfold in_current_month_js. rewrite He. unfold today_js. rewrite parse_format_date by done.
    rewrite to_local_midnight by lia. unfold to_local in *.
    rewrite (proj2 (Z.leb_le _ _) Hnext) in H1 |- *. simpl in *.
    rewrite bool_decide_eq_false_2; [done|]. intros Heq.
    by apply (next_day_first_month (idate now)). }
  split; [exact Hout|]. unfold Budget.monthly_spent. simpl. by rewrite Hout.
Qed.

(** Witness of C17: in India (UTC+5:30), an expense added at 02:30 on
    1 December 2024 (21:00 UTC on 30 November) is dated 2024-11-30 and is
    not counted in December. *)
Lemma expense_after_midnight_not_in_month_witness :
  today_js (mkInstant (mkDate3 2024 11 30) 1260) = "2024-11-30" /\
  Budget.monthly_spent (in_current_month_js 330 (mkInstant (mkDate3 2024 11 30) 1260))
    [mkExpense "x1" "alice" "lunch" 250 "Food & Dining" "2024-11-30" "t"]
    = Budget.monthly_spent (in_current_month_js 330 (mkInstant (mkDate3 2024 11 30) 1260)) [].
Proof.
  split; [reflexivity|].
  apply (expense_after_midnight_not_in_month 330 (mkInstant (mkDate3 2024 11 30) 1260)
           (mkExpense "x1" "alice" "lunch" 250 "Food & Dining" "2024-11-30" "t") []);
    simpl; try lia; try reflexivity.
  vm_compute. split_and!; discriminate || lia.
Defined.

(** Witness of C22: in India at 10:00 local time on 15 November 2024, an
    expense added then is counted in November. *)
Lemma month_test_east_of_utc_witness :
  in_current_month_js 330 (mkInstant (mkDate3 2024 11 15) 270)
    (today_js (mkInstant (mkDate3 2024 11 15) 270)) = true.
Proof.
  apply (proj2 (month_test_east_of_utc 330 (mkInstant (mkDate3 2024 11 15) 270) [] ltac:(lia)));
    simpl; try lia. vm_compute. split_and!; discriminate || lia.
Defined.

End JsDate.
