(* ===== verification/Eco.v ===== *)
(** * Eco: the SustainableTracker component (src/SustainableTracker.tsx)

    The component logs an eco purchase through [POST /eco-actions] and adds
    the eco points of the answer to the profile object it was rendered
    with; a purchase worth 50 eco points or more also earns a "High Impact
    Purchase" toast.  Its state is the two [useState] hooks; the handler is
    split at its [await] as in [Budget].  The statistics and lists it shows
    are constants of the source, kept here as data.  [parseFloat] reads
    the number input.  (Strings are kept in ASCII: the emoji prefixes of
    the toasts are left out and the subscript of CO2 is dropped.) *)

From stdpp Require Import base list strings pretty.
From Stdlib Require Import Ascii ZArith QArith Qround Lia.
From S2P Require Import Prelude KvStore Server Api.

Module Eco.
Import Server Api.

Local Open Scope Z_scope.

Record NewPurchase := mkNewPurchase {
  np_item : string; np_amount : string; np_category : string; np_ecoRating : Z
}.

Record EcoState := mkEcoState { newPurchase : NewPurchase; addingPurchase : bool }.

Definition empty_purchase : NewPurchase := mkNewPurchase "" "" "" 5.

(** The [useState] initial values (lines 30-31). *)
Definition initial_eco_state : EcoState := mkEcoState empty_purchase false.

(** [ecoStats] (lines 34-41): the profile's points, or 1250 when they are
    0 or absent ([||]). *)
Record EcoStats := mkEcoStatsView {
  totalEcoPoints : Z; monthlyGoal : Z; carbonSaved : Q; treesEquivalent : Z;
  waterSaved : Z; ecoRank : string
}.

Definition ecoStats (userProfile : option ProfileUpdate) : EcoStats :=
  let p := points_or_0 userProfile in
  mkEcoStatsView (if bool_decide (p = 0) then 1250 else p) 2000 (452 # 10) 12 1200 "Eco Warrior".

Record SustainableCategory := mkSustainableCategory {
  sc_name : string; sc_points : Z; sc_purchases : Z; sc_impact : string
}.

(** [sustainableCategories] (lines 43-72), without the icons. *)
Definition sustainableCategories : list SustainableCategory := [
  mkSustainableCategory "Renewable Energy" 420 3 "15kg CO2 saved";
  mkSustainableCategory "Organic Food" 380 12 "8kg CO2 saved";
  mkSustainableCategory "Eco Transport" 290 8 "12kg CO2 saved";
  mkSustainableCategory "Sustainable Fashion" 160 2 "5kg CO2 saved"].

Record EcoPurchase := mkEcoPurchase {
  ep_id : Z; ep_item : string; ep_amount : Z; ep_ecoPoints : Z; ep_date : string;
  ep_category : string; ep_impact : string
}.

(** [recentEcoPurchases] (lines 74-111). *)
Definition recentEcoPurchases : list EcoPurchase := [
  mkEcoPurchase 1 "Solar Power Bank" 1500 50 "2024-12-19" "Renewable Energy" "Reduces electronic waste";
  mkEcoPurchase 2 "Organic Vegetables" 450 25 "2024-12-18" "Organic Food" "Pesticide-free farming";
  mkEcoPurchase 3 "Bamboo Toothbrush Set" 200 15 "2024-12-17" "Sustainable Products" "Biodegradable alternative";
  mkEcoPurchase 4 "Public Transport Pass" 800 40 "2024-12-16" "Eco Transport" "Reduces carbon footprint"].

Record EcoTip := mkEcoTip { tip_text : string; tip_points : Z; tip_action : string }.

(** [ecoTips] (lines 113-118). *)
Definition ecoTips : list EcoTip := [
  mkEcoTip "Buy local produce to reduce transportation emissions" 10 "Shop Local";
  mkEcoTip "Choose products with minimal packaging" 15 "Reduce Waste";
  mkEcoTip "Invest in energy-efficient appliances" 25 "Save Energy";
  mkEcoTip "Support brands with sustainability certifications" 20 "Choose Certified"].

Record Reward := mkReward { rw_name : string; rw_description : string; rw_achieved : bool; rw_points : Z }.

(** [rewards] (lines 120-125). *)
Definition rewards : list Reward := [
  mkReward "Eco Beginner" "First sustainable purchase" true 100;
  mkReward "Green Shopper" "10 eco-friendly purchases" true 250;
  mkReward "Carbon Saver" "Saved 50kg CO2" false 500;
  mkReward "Eco Champion" "100 sustainable actions" false 1000].

(** [handleTipAction] (lines 162-165). *)
Definition handleTipAction (tip : EcoTip) : list Effect :=
  [EToast (ToastSuccess ("Great choice! " +:+ tip_action tip +:+ " can earn you +"
                         +:+ pretty (tip_points tip) +:+ " eco points!"))].

Section Input.
Variable parseFloat : string -> Q.

(** [handleAddPurchase] up to its [await] (lines 127-136, 157-159). *)
Definition handleAddPurchase_start (s : EcoState) : EcoState * list Effect :=
  let np := newPurchase s in
  if bool_decide (np_item np <> "") && bool_decide (np_amount np <> "")
     && bool_decide (np_category np <> "")
  then (mkEcoState np true,
        [ERequest (addEcoAction (np_item np) (parseFloat (np_amount np)) (np_category np)
                     (np_ecoRating np))])
  else (s, [EToast (ToastError "Please fill in all required fields")]).

End Input.

(** The rest (lines 138-156), on the [{ eco_action, eco_points }] of the
    answer or the error thrown. *)
Definition handleAddPurchase_done (userProfile : option ProfileUpdate)
  (r : string + (EcoAction * Z)) (s : EcoState) : EcoState * list Effect :=
  match r with
  | inr (_, eco_points) =>
      (mkEcoState empty_purchase false,
       [EToast (ToastSuccess ("Eco purchase logged! +" +:+ pretty eco_points +:+ " eco points earned!"));
        EUpdateProfile (points_update (points_or_0 userProfile + eco_points))] ++
       (if bool_decide (50 <= eco_points)
        then [EToast (ToastSuccess "Achievement: High Impact Purchase!")] else []))
  | inl _ =>
      (mkEcoState (newPurchase s) false, [EToast (ToastError "Failed to log eco purchase")])
  end.

(** ** The high-impact toast *)

Lemma le_Qfloor (n : Z) (x : Q) : n <= Qfloor x <-> (inject_Z n <= x)%Q.
Proof.
  split; intros Hn.
  - eapply Qle_trans; [|apply Qfloor_le]. by rewrite <- Zle_Qle.
  - rewrite <- (Qfloor_Z n). by apply Qfloor_resp_le.
Qed.

(** C25: After an eco purchase is logged, the "High Impact Purchase"
    toast is shown exactly when the server's eco points
    [Math.floor(eco_rating * amount * 0.1)] reach 50, that is when
    [eco_rating * amount] is at least 500. *)
Theorem high_impact_iff userProfile ea eco_rating amount s :
  EToast (ToastSuccess "Achievement: High Impact Purchase!")
    ∈ (handleAddPurchase_done userProfile (inr (ea, eco_points_of eco_rating amount)) s).2
  <-> (500 <= inject_Z eco_rating * amount)%Q.
Proof.
  assert (Hiff : 50 <= Qfloor (inject_Z eco_rating * amount * (1 # 10))
                 <-> (500 <= inject_Z eco_rating * amount)%Q).
  { rewrite le_Qfloor, <- (Qmult_le_r 500 _ (1 # 10)) by reflexivity.
    assert (E : (inject_Z 50 == 500 * (1 # 10))%Q) by reflexivity. by rewrite E. }
  unfold handleAddPurchase_done, eco_points_of. cbn [snd app].
  rewrite !elem_of_cons, <- Hiff.
  assert (Hne : forall n : Z, EToast (ToastSuccess "Achievement: High Impact Purchase!")
    <> EToast (ToastSuccess ("Eco purchase logged! +" +:+ pretty n +:+ " eco points earned!"))).
  { by intros n [= H]. }
  case_bool_decide as Hle; rewrite ?elem_of_list_singleton, ?elem_of_nil.
  - split; [intros _; exact Hle|intros _; by right; right; left].
  - split; [|tauto]. intros [H1|[H1|[]]]; [by apply Hne in H1|done].
Qed.

End Eco.
