(* ===== verification/EcoView.v ===== *)
(** * EcoView: what the SustainableTracker tab renders and its form inputs

    [Eco] models the state, the data and the handlers of
    SustainableTracker (src/SustainableTracker.tsx).  This file models the
    rest of the component (lines 166-444):
    - the four stat cards;
    - the inputs of the purchase form, each of which writes one field with
      [setNewPurchase({ ...newPurchase, field: value })];
    - the submit button;
    - the four lists.
    A number rendered through [toLocaleString] is kept as the number.
    The file's non-ASCII text is stored as UTF-8 decoded as Mac Roman: the
    rupee sign and the bullet of the purchase rows are written [‚Çπ] and
    [‚Ä¢], and the strings below keep those bytes. *)

From stdpp Require Import base list strings pretty.
From Stdlib Require Import Ascii ZArith QArith Lia.
From S2P Require Import Prelude KvStore Server Api Eco.

Module EcoView.
Import Server Api Eco.

Local Open Scope Z_scope.

(** ** The stat cards (lines 169-227) *)

Record EcoCards := mkEcoCards {
  ec_points : Z; ec_bar : Q; ec_goalText : string; ec_carbonSaved : Q; ec_trees : Z;
  ec_rank : string; ec_level : string
}.

(** The Eco Points card with its bar [(totalEcoPoints / monthlyGoal) *
    100] and [{totalEcoPoints}/{monthlyGoal} monthly goal], the CO2 and
    tree cards, and the rank card with [Level {userProfile?.level || 7}]. *)
Definition eco_cards (userProfile : option ProfileUpdate) : EcoCards :=
  let e := ecoStats userProfile in
  mkEcoCards (totalEcoPoints e) (inject_Z (totalEcoPoints e) / inject_Z (monthlyGoal e) * 100)%Q
    (pretty (totalEcoPoints e) +:+ "/" +:+ pretty (monthlyGoal e) +:+ " monthly goal")
    (carbonSaved e) (treesEquivalent e) (ecoRank e)
    ("Level " +:+ pretty (match userProfile ≫= u_level with
                          | Some l => if bool_decide (l = 0) then 7 else l
                          | None => 7
                          end)).

(** ** The form (lines 231-313) *)

Definition set_item (v : string) (s : EcoState) : EcoState :=
  let np := newPurchase s in
  mkEcoState (mkNewPurchase v (np_amount np) (np_category np) (np_ecoRating np)) (addingPurchase s).
Definition set_amount (v : string) (s : EcoState) : EcoState :=
  let np := newPurchase s in
  mkEcoState (mkNewPurchase (np_item np) v (np_category np) (np_ecoRating np)) (addingPurchase s).
Definition set_category (v : string) (s : EcoState) : EcoState :=
  let np := newPurchase s in
  mkEcoState (mkNewPurchase (np_item np) (np_amount np) v (np_ecoRating np)) (addingPurchase s).
(** The range input ([min="1" max="5"]) gives [parseInt] one of 1 to 5. *)
Definition set_rating (v : Z) (s : EcoState) : EcoState :=
  let np := newPurchase s in
  mkEcoState (mkNewPurchase (np_item np) (np_amount np) (np_category np) v) (addingPurchase s).

(** The options of the category [select] (lines 269-274); [""] is
    "Select Category". *)
Definition category_options : list string :=
  [""; "Renewable Energy"; "Organic Food"; "Eco Transport"; "Sustainable Fashion";
   "Eco-friendly Products"].

Record FormView := mkFormView {
  fv_ratingLabel : string; fv_disabled : bool; fv_buttonText : string
}.

(** [Eco Impact Rating: {ecoRating}/5] and the button, disabled with
    "Logging Purchase..." while [addingPurchase]. *)
Definition form_view (s : EcoState) : FormView :=
  mkFormView ("Eco Impact Rating: " +:+ pretty (np_ecoRating (newPurchase s)) +:+ "/5")
    (addingPurchase s)
    (if addingPurchase s then "Logging Purchase..." else "Add Eco Purchase").

(** ** The lists (lines 315-441) *)

Definition category_rows : list (string * string * string * string) :=
  (fun c => (sc_name c, sc_impact c, pretty (sc_points c) +:+ " pts",
             pretty (sc_purchases c) +:+ " purchases")) <$> sustainableCategories.

Definition purchase_rows : list (string * string * string * string) :=
  (fun p => (ep_item p, ep_category p +:+ " ‚Ä¢ " +:+ ep_impact p, "‚Çπ" +:+ pretty (ep_amount p),
             "+" +:+ pretty (ep_ecoPoints p) +:+ " pts")) <$> recentEcoPurchases.

(** A tip's row, whose button runs [handleTipAction(tip)]. *)
Definition tip_rows : list (string * string * string * list Effect) :=
  (fun t => (tip_text t, "+" +:+ pretty (tip_points t) +:+ " pts", tip_action t, handleTipAction t))
    <$> ecoTips.

(** A reward's row: the trophy or the lock, the badge variant and the
    points. *)
Definition reward_rows : list (string * bool * string * string) :=
  (fun r => (rw_name r, rw_achieved r, if rw_achieved r then "default" else "secondary",
             pretty (rw_points r) +:+ " pts")) <$> rewards.

End EcoView.
