(* ===== verification/Learning.v ===== *)
(** * Learning: the LearningModules component (src/LearningModules.tsx)

    The component lists five modules, starts the current lesson (a
    1.5-second [setTimeout] that awards 50 XP to the profile object the
    click saw), opens the [QuizModal] of a module with its questions and,
    when the quiz reports [onComplete(score, xpEarned)], posts the module's
    progress to the server and adds [xpEarned] to both the XP and the
    points of the profile object.  The state is the four [useState] hooks;
    the timer and the [await] split the two handlers into a start and a
    continuation, as in [Budget].  The quiz questions are those of
    [Quiz.quizQuestions]. *)

From stdpp Require Import base list strings pretty.
From Stdlib Require Import Ascii ZArith Lia.
From S2P Require Import Prelude KvStore Quiz Server Api.

Module Learning.
Import Server Api.

Local Open Scope Z_scope.

(** A module card (lines 42-127), without its icon. *)
Record LearningModule := mkModule {
  m_id : Z; m_title : string; m_description : string; m_lessons : Z; m_duration : string;
  m_difficulty : string; m_progress : Z; m_completed : bool; m_locked : bool;
  m_xpReward : Z; m_topics : list string; m_participants : Z; m_hasQuiz : bool;
  m_quizQuestions : Z; m_averageScore : Z
}.

(** The five cards of [modules] (lines 41-128); only the fifth has
    [locked: true]. *)
Definition financialBasics : LearningModule :=
  mkModule 1 "Financial Basics" "Learn the fundamentals of money management" 8 "45 min"
    "Beginner" 100 true false 250
    ["Budgeting Basics"; "Saving Strategies"; "Understanding Interest"; "Banking Fundamentals"]
    1247 true 12 85.
Definition smartSpending : LearningModule :=
  mkModule 2 "Smart Spending" "Make informed purchasing decisions" 6 "35 min"
    "Beginner" 67 false false 200
    ["Needs vs Wants"; "Price Comparison"; "Quality Assessment"; "Avoiding Impulse Buys"]
    892 true 10 78.
Definition investmentFundamentals : LearningModule :=
  mkModule 3 "Investment Fundamentals" "Start your investment journey safely" 10 "60 min"
    "Intermediate" 20 false false 400
    ["Types of Investments"; "Risk Management"; "Portfolio Basics"; "Long-term Planning"]
    654 true 15 72.
Definition sustainableFinance : LearningModule :=
  mkModule 4 "Sustainable Finance" "Align money with environmental values" 7 "40 min"
    "Intermediate" 0 false false 300
    ["Green Investing"; "Eco-friendly Spending"; "Carbon Footprint"; "Sustainable Brands"]
    423 true 8 81.
Definition financialSecurity : LearningModule :=
  mkModule 5 "Financial Security" "Protect yourself from financial risks" 9 "50 min"
    "Advanced" 0 false true 450
    ["Insurance Basics"; "Emergency Funds"; "Identity Protection"; "Fraud Prevention"]
    156 true 18 68.

#[export] Instance LearningModule_eq_dec : EqDecision LearningModule.
Proof. solve_decision. Defined.

Definition modules : list LearningModule :=
  [financialBasics; smartSpending; investmentFundamentals; sustainableFinance; financialSecurity].

(** [currentLesson] (lines 130-138). *)
Record Lesson := mkLesson {
  l_title : string; l_description : string; l_duration : string; l_type : string;
  l_questions : Z; l_xpReward : Z; l_moduleId : Z
}.

Definition currentLesson : Lesson :=
  mkLesson "Understanding Credit Scores" "Learn how credit scores work and how to improve them"
    "8 min" "Interactive Quiz" 12 50 2.

(** [getDifficultyColor] (lines 213-220). *)
Definition getDifficultyColor (difficulty : string) : string :=
  if bool_decide (difficulty = "Beginner") then "bg-green-100 text-green-800"
  else if bool_decide (difficulty = "Intermediate") then "bg-yellow-100 text-yellow-800"
  else if bool_decide (difficulty = "Advanced") then "bg-red-100 text-red-800"
  else "bg-gray-100 text-gray-800".

(** [modules.find(m => m.id === id)]. *)
Definition find_module (id : Z) : option LearningModule :=
  List.find (fun m => bool_decide (m_id m = id)) modules.

Record LearningState := mkLearningState {
  selectedModule : option Z;
  startingLesson : option Z;
  showQuiz : bool;
  currentQuizModule : option LearningModule
}.

(** The [useState] initial values (lines 36-39). *)
Definition initial_learning_state : LearningState := mkLearningState None None false None.

(** The card's [onClick={() => !module.locked && setSelectedModule(module.id)}]
    (line 362). *)
Definition selectModule (m : LearningModule) (s : LearningState) : LearningState :=
  if m_locked m then s
  else mkLearningState (Some (m_id m)) (startingLesson s) (showQuiz s) (currentQuizModule s).

(** [handleStartLesson] on the click (lines 222-224); the button is
    disabled while [startingLesson === currentLesson.moduleId]. *)
Definition handleStartLesson_start (s : LearningState) : LearningState :=
  mkLearningState (selectedModule s) (Some (l_moduleId currentLesson)) (showQuiz s)
    (currentQuizModule s).

(** The timeout's callback (lines 225-233), with the [userProfile] of the
    render that handled the click. *)
Definition handleStartLesson_fire (userProfile : option ProfileUpdate) (s : LearningState)
  : LearningState * list Effect :=
  let xpGained := l_xpReward currentLesson in
  (mkLearningState (selectedModule s) None (showQuiz s) (currentQuizModule s),
   [EUpdateProfile (xp_points_update (xp_or_0 userProfile + xpGained)
                                      (points_or_0 userProfile + xpGained));
    EToast (ToastSuccess ("Lesson started! +" +:+ pretty xpGained +:+ " XP earned!"))]).

(** [handleStartQuiz] (lines 244-247), with the module [find] returned. *)
Definition handleStartQuiz (m : option LearningModule) (s : LearningState) : LearningState :=
  mkLearningState (selectedModule s) (startingLesson s) true m.

(** The quiz is shown when [showQuiz && currentQuizModule] (line 541),
    with [quizQuestions[currentQuizModule.id] || []]. *)
Definition quiz_open (s : LearningState) : bool :=
  showQuiz s && bool_decide (is_Some (currentQuizModule s)).

Definition quiz_questions (s : LearningState) : list Quiz.Question :=
  match currentQuizModule s with
  | Some m => Quiz.quizQuestions (Z.to_nat (m_id m))
  | None => []
  end.

(** The quiz's [onClose] (lines 543-546). *)
Definition closeQuiz (s : LearningState) : LearningState :=
  mkLearningState (selectedModule s) (startingLesson s) false None.

(** [handleQuizComplete] up to its [await] (lines 249-258): reading
    [currentQuizModule.id] of [null] throws, and the [catch] shows the
    error toast. *)
Definition handleQuizComplete_start (s : LearningState) : option Route * list Effect :=
  match currentQuizModule s with
  | Some m =>
      (Some (updateLearningProgress (m_id m) (m_title m) (Z.min (m_progress m + 20) 100)
               (m_lessons m) (m_lessons m)), [])
  | None => (None, [EToast (ToastError "Failed to save quiz results")])
  end.

(** The rest (lines 260-278), on the answer: the XP reported by the quiz
    goes into both [total_xp] and [total_points] of the profile object
    the quiz's render saw. *)
Definition handleQuizComplete_done (userProfile : option ProfileUpdate) (score xpEarned : Z)
  (r : ApiResult) (s : LearningState) : LearningState * list Effect :=
  match r with
  | ApiOk _ =>
      (closeQuiz s,
       EUpdateProfile (xp_points_update (xp_or_0 userProfile + xpEarned)
                                        (points_or_0 userProfile + xpEarned)) ::
       (if bool_decide (90 <= score) then [EToast (ToastSuccess "Achievement: Quiz Master! Perfect score!")]
        else if bool_decide (75 <= score) then [EToast (ToastSuccess "Great job on the quiz!")]
        else []))
  | ApiError _ => (s, [EToast (ToastError "Failed to save quiz results")])
  end.

(** ** The page as a state machine

    The events a user can fire on the page, with the condition under which
    the JSX renders (or enables) the control that fires them.  A card and
    its buttons exist for each of [modules] (line 356).  The Review /
    Continue / Start button and the quiz button stop the click's
    propagation to the card (lines 433 and 448).  The module-details panel
    and its "Start Quiz" button exist while [selectedModule] is set
    (line 464).  The quiz dialog covers the page, so while it is open only
    its own events reach the component: closing it, and the answer to the
    save of a finished quiz.  The lesson timer fires whenever it is
    pending. *)
Inductive LearnEvent :=
| ClickCard (m : LearningModule)
| ClickModuleAction (m : LearningModule)
| ClickCardQuiz (m : LearningModule)
| ClickStartLesson
| LessonTimerFires
| ClickLessonQuiz
| ClickDetailsQuiz
| CloseQuizDialog
| QuizSaveAnswered (r : ApiResult).

Definition learn_enabled (s : LearningState) (e : LearnEvent) : bool :=
  if quiz_open s then
    match e with CloseQuizDialog | QuizSaveAnswered _ | LessonTimerFires => true | _ => false end
  else
    match e with
    | ClickCard m => bool_decide (m ∈ modules)
    | ClickModuleAction m => bool_decide (m ∈ modules) && negb (m_locked m)
    | ClickCardQuiz m => bool_decide (m ∈ modules) && m_hasQuiz m && negb (m_locked m)
    | ClickStartLesson => negb (bool_decide (startingLesson s = Some (l_moduleId currentLesson)))
    | LessonTimerFires => bool_decide (is_Some (startingLesson s))
    | ClickLessonQuiz => true
    | ClickDetailsQuiz => bool_decide (is_Some (selectedModule s))
    | CloseQuizDialog | QuizSaveAnswered _ => false
    end.

(** One event and its handler, on the component's own state (the effects
    on the profile object and the requests are those of [System]). *)
Definition learn_handle (s : LearningState) (e : LearnEvent) : LearningState :=
  match e with
  | ClickCard m => selectModule m s
  | ClickModuleAction _ => s
  | ClickCardQuiz m => handleStartQuiz (Some m) s
  | ClickStartLesson => handleStartLesson_start s
  | LessonTimerFires => (handleStartLesson_fire None s).1
  | ClickLessonQuiz => handleStartQuiz (find_module (l_moduleId currentLesson)) s
  | ClickDetailsQuiz => handleStartQuiz (selectedModule s ≫= find_module) s
  | CloseQuizDialog => closeQuiz s
  | QuizSaveAnswered r => (handleQuizComplete_done None 0 0 r s).1
  end.

Definition learn_step (s : LearningState) (e : LearnEvent) : option LearningState :=
  if learn_enabled s e then Some (learn_handle s e) else None.

Fixpoint learn_run (s : LearningState) (es : list LearnEvent) : option LearningState :=
  match es with
  | [] => Some s
  | e :: es => s' ← learn_step s e; learn_run s' es
  end.

(** ** No locked module is ever selected or quizzed *)

Definition learn_inv (s : LearningState) : Prop :=
  (forall id, selectedModule s = Some id ->
     exists m, find_module id = Some m /\ m ∈ modules /\ m_locked m = false) /\
  (forall m, currentQuizModule s = Some m -> m ∈ modules /\ m_locked m = false).

Lemma find_module_id m : m ∈ modules -> find_module (m_id m) = Some m.
Proof.
  intros Hm. unfold modules in Hm.
  repeat (apply elem_of_cons in Hm as [->|Hm]; [reflexivity|]). inversion Hm.
Qed.

Lemma learn_inv_handle s e :
  learn_inv s -> learn_enabled s e = true -> learn_inv (learn_handle s e).
Proof.
  intros [Hsel Hcur] He. unfold learn_enabled in He.
  destruct (quiz_open s); destruct e; simpl in *; try discriminate;
    repeat match goal with
    | H : _ && _ = true |- _ => apply andb_prop in H as [? ?]
    | H : bool_decide _ = true |- _ => apply bool_decide_eq_true_1 in H
    | H : negb _ = true |- _ => apply negb_true_iff in H
    end.
  all: try (split; assumption).
  all: try solve [split; [exact Hsel|intros ? [=]]].
  all: try solve [destruct r; split; simpl; first [assumption|intros ? [=]]].
  - unfold selectModule. destruct (m_locked m) eqn:Hl; [split; assumption|].
    split; [|exact Hcur]. intros id [= <-]. exists m. by rewrite find_module_id.
  - split; [exact Hsel|]. intros m' [= <-]. done.
  - split; [exact Hsel|]. intros m [= <-]. split; [|reflexivity]. apply list_elem_of_In. simpl. auto.
  - split; [exact Hsel|]. intros m Hm. destruct (selectedModule s) as [id|]; [|done].
    destruct (Hsel id eq_refl) as (m' & Hf & Hin & Hl). simpl in Hm. rewrite Hf in Hm.
    by injection Hm as <-.
Qed.

Lemma learn_inv_initial : learn_inv initial_learning_state.
Proof. split; discriminate. Qed.

Lemma learn_run_inv s es s' : learn_inv s -> learn_run s es = Some s' -> learn_inv s'.
Proof.
  revert s. induction es as [|e es IH]; intros s Hs Hr; simpl in Hr; [by simplify_eq|].
  unfold learn_step in Hr. destruct (learn_enabled s e) eqn:He; [|discriminate].
  exact (IH _ (learn_inv_handle s e Hs He) Hr).
Qed.

(** C10: Whatever the user clicks, in whatever order, the page never
    selects a locked module and never opens the quiz of one: the
    selected id names an unlocked module of the grid, the quiz dialog's
    module is an unlocked module, and "Financial Security" (locked) is
    never quizzed. *)
Theorem locked_module_never_opened es s :
  learn_run initial_learning_state es = Some s ->
  (forall id, selectedModule s = Some id ->
     exists m, find_module id = Some m /\ m_locked m = false) /\
  (forall m, currentQuizModule s = Some m -> m ∈ modules /\ m_locked m = false) /\
  currentQuizModule s <> Some financialSecurity.
Proof.
  intros Hr. destruct (learn_run_inv _ _ _ learn_inv_initial Hr) as [Hsel Hcur].
  split_and!.
  - intros id Hid. destruct (Hsel id Hid) as (m & ? & _ & ?). eauto.
  - exact Hcur.
  - intros Hc. by destruct (Hcur _ Hc).
Qed.

(** Witness of C42: a click on the locked card is ignored, then module 2
    is selected and its quiz opened from the details panel. *)
Lemma locked_module_never_opened_witness :
  learn_run initial_learning_state
    [ClickCard financialSecurity; ClickCard smartSpending; ClickDetailsQuiz]
    = Some (mkLearningState (Some 2) None true (Some smartSpending)) /\
  currentQuizModule (mkLearningState (Some 2) None true (Some smartSpending)) <> Some financialSecurity.
Proof.
  assert (Hr : learn_run initial_learning_state
    [ClickCard financialSecurity; ClickCard smartSpending; ClickDetailsQuiz]
    = Some (mkLearningState (Some 2) None true (Some smartSpending))) by reflexivity.
  split; [exact Hr|]. exact (proj2 (proj2 (locked_module_never_opened _ _ Hr))).
Defined.

End Learning.
