(* ===== verification/Dash.v ===== *)
(** * Dash: the Dashboard component (src/Dashboard.tsx)

    The dashboard shows the profile's statistics (with demo figures where
    a field is 0 or absent, through [||]), static charts and lists, and
    three quick actions.  A quick action adds its points to the profile
    object the render saw and marks itself completed; a 2-second
    [setTimeout] clears the mark, and the button of the marked action is
    disabled.  The state is [completedAction] and [timeRange]; the
    timeouts not yet fired are counted in [pendingClears], the part of the
    browser's timer queue this component fills.  (Strings are kept in
    ASCII: the rupee sign is written Rs.) *)

From stdpp Require Import base list strings pretty list_numbers.
From Stdlib Require Import Ascii ZArith QArith Lia.
From S2P Require Import Prelude KvStore Server Api.

Module Dash.
Import Server Api.

Local Open Scope Z_scope.

(** [a || d] on a number field of the profile object. *)
Definition or_default (v : option Z) (d : Z) : Z :=
  match v with Some x => if bool_decide (x = 0) then d else x | None => d end.

Record UserStats := mkUserStats {
  us_level : Z; us_xp : Z; us_xpToNext : Z; us_streak : Z; us_totalPoints : Z;
  us_completedLessons : Z; us_sustainableActions : Z; us_savedMoney : Z
}.

(** [userStats] (lines 33-42). *)
Definition userStats (userProfile : option ProfileUpdate) : UserStats :=
  let f (g : ProfileUpdate -> option Z) := userProfile ≫= g in
  mkUserStats (or_default (f u_level) 7) (or_default (f u_total_xp) 2450) 3000
    (or_default (f u_streak_days) 12) (or_default (f u_total_points) 15670) 24 18 1240.

Record DayProgress := mkDayProgress { dp_day : string; dp_xp : Z; dp_ecoPoints : Z; dp_spending : Z }.

(** [weeklyProgressData] (lines 45-53). *)
Definition weeklyProgressData : list DayProgress := [
  mkDayProgress "Mon" 150 45 320; mkDayProgress "Tue" 280 60 450;
  mkDayProgress "Wed" 190 35 280; mkDayProgress "Thu" 350 80 600;
  mkDayProgress "Fri" 420 95 380; mkDayProgress "Sat" 300 70 520;
  mkDayProgress "Sun" 250 55 290].

Record CategoryShare := mkCategoryShare { cs_name : string; cs_value : Z; cs_amount : Z; cs_color : string }.

(** [categorySpendingData] (lines 55-61). *)
Definition categorySpendingData : list CategoryShare := [
  mkCategoryShare "Food & Dining" 35 8750 "#3b82f6";
  mkCategoryShare "Transportation" 20 5000 "#10b981";
  mkCategoryShare "Shopping" 25 6250 "#8b5cf6";
  mkCategoryShare "Housing" 15 3750 "#f59e0b";
  mkCategoryShare "Entertainment" 5 1250 "#ef4444"].

Record MonthTrend := mkMonthTrend { mt_month : string; mt_income : Z; mt_expenses : Z; mt_savings : Z }.

(** [monthlyTrends] (lines 63-69). *)
Definition monthlyTrends : list MonthTrend := [
  mkMonthTrend "Aug" 25000 18500 6500; mkMonthTrend "Sep" 26000 19200 6800;
  mkMonthTrend "Oct" 25500 17800 7700; mkMonthTrend "Nov" 27000 20100 6900;
  mkMonthTrend "Dec" 26500 19500 7000].

Record Goal := mkGoal {
  wg_id : Z; wg_title : string; wg_progress : Z; wg_current : Z; wg_target : Z;
  wg_actionable : bool; wg_reward : Z
}.

(** [weeklyGoals] (lines 77-82). *)
Definition weeklyGoals : list Goal := [
  mkGoal 1 "Complete 3 lessons" 67 2 3 true 100;
  mkGoal 2 "Track daily expenses" 86 6 7 true 50;
  mkGoal 3 "Make 2 sustainable purchases" 50 1 2 true 75;
  mkGoal 4 "Save 15% of income" 80 12 15 false 200].

(** [weeklyGoals.reduce((sum, goal) => sum + goal.reward, 0)] (line 358). *)
Definition goals_reward : Z := fold_left (fun sum g => sum + wg_reward g) weeklyGoals 0.

Record QuickAction := mkQuickAction { qa_id : Z; qa_title : string; qa_tab : string; qa_points : Z }.

(** [quickActions] (lines 84-88), without icons and colours. *)
Definition quickActions : list QuickAction := [
  mkQuickAction 1 "Continue Learning" "learn" 25;
  mkQuickAction 2 "Add Expense" "budget" 10;
  mkQuickAction 3 "Log Eco Purchase" "sustainable" 15].

Record Challenge := mkChallenge {
  ch_id : Z; ch_title : string; ch_description : string; ch_reward : Z; ch_timeLeft : string;
  ch_difficulty : string
}.

(** [upcomingChallenges] (lines 90-94). *)
Definition upcomingChallenges : list Challenge := [
  mkChallenge 1 "Weekend Saver Challenge" "Spend less than Rs 1000 this weekend" 200 "2 days" "Medium";
  mkChallenge 2 "Green Shopping Spree" "Make 3 eco-friendly purchases" 150 "5 days" "Easy";
  mkChallenge 3 "Financial Quiz Master" "Score 90%+ on investment quiz" 300 "1 week" "Hard"].

Record DashState := mkDashState {
  completedAction : option string; timeRange : string; pendingClears : nat
}.

(** The [useState] initial values (lines 30-31). *)
Definition initial_dash_state : DashState := mkDashState None "7d" 0.

(** [disabled={isCompleted}] with [isCompleted = completedAction === action.title]
    (lines 485, 495). *)
Definition quick_action_enabled (s : DashState) (a : QuickAction) : bool :=
  negb (bool_decide (completedAction s = Some (qa_title a))).

(** [handleQuickAction] (lines 96-106). *)
Definition handleQuickAction (userProfile : option ProfileUpdate) (a : QuickAction)
  (s : DashState) : DashState * list Effect :=
  (mkDashState (Some (qa_title a)) (timeRange s) (S (pendingClears s)),
   [EUpdateProfile (points_update (points_or_0 userProfile + qa_points a))]).

(** One of the [setTimeout(() => setCompletedAction(null), 2000)] fires. *)
Definition clear_fires (s : DashState) : option DashState :=
  match pendingClears s with
  | O => None
  | S n => Some (mkDashState None (timeRange s) n)
  end.

(** The 7d / 30d buttons (lines 216-220). *)
Definition setTimeRange (r : string) (s : DashState) : DashState :=
  mkDashState (completedAction s) r (pendingClears s).

Record RecentAchievement := mkRecentAchievement {
  ra_id : Z; ra_title : string; ra_description : string; ra_earned : string; ra_clickable : bool;
  ra_points : Z
}.

(** [recentAchievements] (lines 71-75), without the icons. *)
Definition recentAchievements : list RecentAchievement := [
  mkRecentAchievement 1 "Budget Master" "Created your first budget" "2 days ago" true 100;
  mkRecentAchievement 2 "Eco Warrior" "10 sustainable purchases" "1 week ago" true 250;
  mkRecentAchievement 3 "Streak Champion" "7-day learning streak" "3 days ago" true 150].

(** [handleAchievementClick], [handleGoalAction] and [handleChallengeJoin]
    (lines 108-118) only write to the console: no state, no effect. *)
Definition handleAchievementClick (a : RecentAchievement) (s : DashState) : DashState * list Effect :=
  (s, []).
Definition handleGoalAction (g : Goal) (s : DashState) : DashState * list Effect := (s, []).
Definition handleChallengeJoin (c : Challenge) (s : DashState) : DashState * list Effect := (s, []).

Record StatsView := mkStatsView {
  sv_level : Z; sv_xpBar : Q; sv_xpText : string; sv_streak : Z; sv_streakDots : list bool;
  sv_totalPoints : Z; sv_savedMoney : Z
}.

(** The four statistics cards (lines 125-197): the level with its bar
    [(xp / xpToNext) * 100] and text [xp/xpToNext XP], the streak with
    seven dots of which the [i]-th is lit when [i < streak % 7], the
    points and the money saved. *)
Definition stats_view (userProfile : option ProfileUpdate) : StatsView :=
  let u := userStats userProfile in
  mkStatsView (us_level u) (inject_Z (us_xp u) / inject_Z (us_xpToNext u) * 100)%Q
    (pretty (us_xp u) +:+ "/" +:+ pretty (us_xpToNext u) +:+ " XP") (us_streak u)
    ((fun i => bool_decide (i < Z.rem (us_streak u) 7)) <$> seqZ 0 7)
    (us_totalPoints u) (us_savedMoney u).

(** A goal's row (lines 365-400): the [current/target] badge is filled
    when [progress === 100], the action button is shown when
    [actionable && progress < 100], and a done mark when
    [progress === 100]. *)
Definition goal_view (g : Goal) : string * string * bool * bool * bool :=
  (wg_title g, pretty (wg_current g) +:+ "/" +:+ pretty (wg_target g),
   bool_decide (wg_progress g = 100), wg_actionable g && bool_decide (wg_progress g < 100),
   bool_decide (wg_progress g = 100)).

(** The statistics cards read the profile with [||], so the zeros of
    a new account are replaced by demo figures: right after signup
    (level 1, no XP, no streak, no points) the Dashboard shows 2450 XP, a
    12-day streak and 15670 points. *)
Theorem new_account_shows_demo_stats uid name email now :
  userStats (Some (profile_object (mkProfile uid name email 1 0 0 0 now now)))
    = mkUserStats 1 2450 3000 12 15670 24 18 1240.
Proof. reflexivity. Qed.

(** The level card measures XP against the constant 3000 of
    [userStats], so its bar passes 100% for every profile with more than
    3000 XP.  The streak card lights [streak % 7] of its seven dots, so a
    streak of 7, 14, ... days lights none. *)
Lemma stats_view_bounds (userProfile : option ProfileUpdate) :
  (3000 < us_xp (userStats userProfile) -> (100 < sv_xpBar (stats_view userProfile))%Q) /\
  (forall k, 0 < k -> us_streak (userStats userProfile) = 7 * k ->
     sv_streakDots (stats_view userProfile) = replicate 7 false).
Proof.
  split.
  - intros Hx. unfold stats_view. cbn [sv_xpBar]. change (us_xpToNext _) with 3000.
    unfold Qlt. cbn. cbn in Hx. lia.
  - intros k Hk Hs. unfold stats_view. cbn [sv_streakDots]. rewrite Hs.
    rewrite Z.mul_comm, Z.rem_mul by lia. reflexivity.
Qed.

(** The 7D and 30D buttons (lines 216-221): [variant={timeRange === r ?
    'default' : 'outline'}]. *)
Definition range_variant (s : DashState) (r : string) : string :=
  if bool_decide (timeRange s = r) then "default" else "outline".

(** The legend of the spending chart (lines 292-297):
    [{item.name}: {item.value}%]. *)
Definition legend_view : list string :=
  (fun c => cs_name c +:+ ": " +:+ pretty (cs_value c) +:+ "%") <$> categorySpendingData.

(** A challenge's row (lines 408-435): title, difficulty badge,
    description, [{timeLeft} left] and [+{reward} pts]. *)
Definition challenge_view (c : Challenge) : string * string * string * string * string :=
  (ch_title c, ch_difficulty c, ch_description c, ch_timeLeft c +:+ " left",
   "+" +:+ pretty (ch_reward c) +:+ " pts").

(** A challenge row's [onClick={() => handleChallengeJoin(challenge)}]. *)
Definition challenge_click (c : Challenge) (s : DashState) : DashState * list Effect :=
  handleChallengeJoin c s.

(** A recent achievement's row (lines 450-471): the clickable styling,
    the [+{points} pts] badge, [earned] and the arrow when clickable. *)
Definition achievement_view (a : RecentAchievement) : string * string * bool * string * string :=
  (ra_title a, ra_description a, ra_clickable a, "+" +:+ pretty (ra_points a) +:+ " pts", ra_earned a).

(** [onClick={() => achievement.clickable && handleAchievementClick(achievement)}]. *)
Definition achievement_click (a : RecentAchievement) (s : DashState) : DashState * list Effect :=
  if ra_clickable a then handleAchievementClick a s else (s, []).

Record QuickActionView := mkQuickActionView {
  qv_title : string; qv_points : string; qv_variant : string; qv_disabled : bool;
  qv_overlay : option string
}.

(** A quick action's button (lines 483-514): the first is [default], the
    others [outline]; the completed one is disabled and covered by
    [+{points} pts!]. *)
Definition quick_action_view (s : DashState) (a : QuickAction) : QuickActionView :=
  let isCompleted := negb (quick_action_enabled s a) in
  mkQuickActionView (qa_title a) ("+" +:+ pretty (qa_points a) +:+ " points")
    (if bool_decide (qa_id a = 1) then "default" else "outline") isCompleted
    (if isCompleted then Some ("+" +:+ pretty (qa_points a) +:+ " pts!") else None).

(** The quick actions card (lines 475-517). *)
Definition quick_actions_view (s : DashState) : list QuickActionView :=
  quick_action_view s <$> quickActions.

(** A click on a quick action's button covers that button, and only
    that one, with its points until a clear fires. *)
Lemma quick_action_click_view userProfile a s :
  qv_overlay (quick_action_view (handleQuickAction userProfile a s).1 a)
    = Some ("+" +:+ pretty (qa_points a) +:+ " pts!") /\
  forall b, qa_title b <> qa_title a ->
    qv_overlay (quick_action_view (handleQuickAction userProfile a s).1 b) = None.
Proof.
  unfold quick_action_view, quick_action_enabled. simpl. split.
  - by rewrite bool_decide_eq_true_2.
  - intros b Hb. rewrite bool_decide_eq_false_2; [done|congruence].
Qed.

End Dash.
