(* ===== verification/Board.v ===== *)
(** * Board: the Leaderboard view (src/Leaderboard.tsx)

    The view loads [GET /leaderboard] on mount (and every 30 seconds),
    shows the server's entries, or a built-in mock board when the request
    fails, and filters the rows by a case-insensitive search on the name.
    A server row has the five fields of [Server.LeaderboardEntry]; a mock
    row also has the decorations ([avatar], [change], [location], ...),
    kept in [r_extra].  The sixth mock row is built from the profile
    object ([name || "You"], [total_points || 15670], ...).  Strings are in
    ASCII, which is what [js_toLowerCase] lowers. *)

From stdpp Require Import base list strings pretty.
From Stdlib Require Import Ascii ZArith QArith Lia.
From S2P Require Import Prelude KvStore Server ServerProps Api.

Module Board.
Import Server Api.

Local Open Scope Z_scope.

Record MockExtra := mkMockExtra {
  avatar : string; change : Z; weeklyXP : Z; streak : Z; badges : Z; ecoPoints : Z;
  lessonsCompleted : Z; location : string; joinedDaysAgo : Z; isCurrentUser : bool
}.

Record Row := mkRow {
  r_rank : Z; r_name : string; r_level : Z; r_total_points : Z; r_user_id : string;
  r_extra : option MockExtra
}.

Definition server_row (e : LeaderboardEntry) : Row :=
  mkRow (le_rank e) (le_name e) (le_level e) (le_total_points e) (le_user_id e) None.

(** [s || d] on a string field. *)
Definition str_or (v : option string) (d : string) : string :=
  match v with Some (String _ _ as x) => x | _ => d end.

(** [a || d] on a number field. *)
Definition num_or (v : option Z) (d : Z) : Z :=
  match v with Some x => if bool_decide (x = 0) then d else x | None => d end.

(** [name.split(' ').map((n) => n[0]).join('')]: the first letter of
    each word, none for an empty word. *)
Definition initials (name : string) : string :=
  String.concat "" ((fun w => match w with String c _ => String c "" | EmptyString => "" end)
                     <$> js_split " "%char name).

(** [mockLeaderboardData] (lines 67-165). *)
Definition mockLeaderboardData (userProfile : option ProfileUpdate) : list Row :=
  let name := userProfile ≫= u_name in
  [mkRow 1 "Priya Sharma" 12 24580 "1"
     (Some (mkMockExtra "PS" 2 1240 28 15 2450 45 "Mumbai" 45 false));
   mkRow 2 "Arjun Kumar" 11 22340 "2"
     (Some (mkMockExtra "AK" (-1) 980 15 12 1980 38 "Delhi" 67 false));
   mkRow 3 "Sneha Patel" 10 21750 "3"
     (Some (mkMockExtra "SP" 1 1120 22 13 2100 41 "Bangalore" 52 false));
   mkRow 4 "Rahul Singh" 9 19820 "4"
     (Some (mkMockExtra "RS" 0 850 8 10 1650 35 "Pune" 38 false));
   mkRow 5 "Anita Desai" 9 18950 "5"
     (Some (mkMockExtra "AD" 3 1350 18 11 1890 33 "Chennai" 41 false));
   mkRow 6 (str_or name "You") (num_or (userProfile ≫= u_level) 7)
     (num_or (userProfile ≫= u_total_points) 15670)
     (str_or (userProfile ≫= u_user_id) "current")
     (Some (mkMockExtra (str_or (initials <$> name) "YO") 1 720
              (num_or (userProfile ≫= u_streak_days) 12) 8 1250 24 "Your City" 28 true))].

Record WeeklyLeader := mkWeeklyLeader { wl_name : string; wl_weeklyXP : Z; wl_change : string }.

(** [weeklyLeaders] (lines 167-171). *)
Definition weeklyLeaders : list WeeklyLeader := [
  mkWeeklyLeader "Priya Sharma" 1240 "+2 ranks";
  mkWeeklyLeader "Anita Desai" 1350 "+3 ranks";
  mkWeeklyLeader "Sneha Patel" 1120 "+1 rank"].

(** [categoryLeaders] (lines 173-189): name and the two figures of each. *)
Definition categoryLeaders : list (string * list (string * Z * Z)) := [
  ("learning", [("Rahul Singh", 45, 1125); ("Priya Sharma", 42, 1050); ("Sneha Patel", 38, 950)]);
  ("eco", [("Priya Sharma", 2450, 125); ("Sneha Patel", 2100, 98); ("Anita Desai", 1890, 87)]);
  ("savings", [("Arjun Kumar", 45000, 32); ("Priya Sharma", 38500, 28); ("Rahul Singh", 32000, 25)])].

(** [achievements] (lines 191-196), without the icons. *)
Definition achievements : list (string * string * string) := [
  ("Top Performer", "Ranked #1 for 7 days", "legendary");
  ("Streak Master", "30-day learning streak", "epic");
  ("Eco Champion", "Saved 100kg CO2", "rare");
  ("Quiz Master", "Perfect score on 10 quizzes", "uncommon")].

Inductive RankIcon := Crown | MedalSilver | MedalAmber | RankNumber (rank : Z).

(** [getRankIcon] (lines 198-209). *)
Definition getRankIcon (rank : Z) : RankIcon :=
  if bool_decide (rank = 1) then Crown
  else if bool_decide (rank = 2) then MedalSilver
  else if bool_decide (rank = 3) then MedalAmber
  else RankNumber rank.

Inductive ChangeIcon := ArrowUp | ArrowDown | NoChange.

(** [getChangeIcon] (lines 211-215). *)
Definition getChangeIcon (change : Z) : ChangeIcon :=
  if bool_decide (0 < change) then ArrowUp else if bool_decide (change < 0) then ArrowDown
  else NoChange.

(** [getRarityColor] (lines 217-225). *)
Definition getRarityColor (rarity : string) : string :=
  if bool_decide (rarity = "legendary") then "bg-gradient-to-r from-yellow-400 to-orange-500 text-white"
  else if bool_decide (rarity = "epic") then "bg-gradient-to-r from-purple-500 to-pink-500 text-white"
  else if bool_decide (rarity = "rare") then "bg-gradient-to-r from-blue-500 to-cyan-500 text-white"
  else if bool_decide (rarity = "uncommon") then "bg-gradient-to-r from-green-500 to-emerald-500 text-white"
  else "bg-gray-100 text-gray-800".

Record BoardState := mkBoardState {
  leaderboardData : list Row; loading : bool; activeTab : string; searchQuery : string;
  timeframe : string; lastUpdated : string
}.

(** The [useState] initial values (lines 38-43); [now] is [new Date()]. *)
Definition initial_board_state (now : string) : BoardState :=
  mkBoardState [] false "overall" "" "week" now.

(** [loadLeaderboard] up to its [await] (lines 51-55). *)
Definition loadLeaderboard_start (s : BoardState) : BoardState * list Effect :=
  (mkBoardState (leaderboardData s) true (activeTab s) (searchQuery s) (timeframe s)
     (lastUpdated s), [ERequest getLeaderboard]).

(** The rest (lines 56-63): [leaderboard || mockLeaderboardData] keeps any
    array the server sends, an empty one included. *)
Definition loadLeaderboard_done (userProfile : option ProfileUpdate) (now : string)
  (r : ApiResult) (s : BoardState) : BoardState :=
  match r with
  | ApiOk b =>
      let rows := match b with
                  | BLeaderboard es => server_row <$> es
                  | _ => mockLeaderboardData userProfile
                  end in
      mkBoardState rows false (activeTab s) (searchQuery s) (timeframe s) now
  | ApiError _ =>
      mkBoardState (mockLeaderboardData userProfile) false (activeTab s) (searchQuery s)
        (timeframe s) (lastUpdated s)
  end.

(** [filteredLeaderboard] (lines 227-229). *)
Definition filteredLeaderboard (rows : list Row) (searchQuery : string) : list Row :=
  filter (fun r => js_includes (js_toLowerCase (r_name r)) (js_toLowerCase searchQuery) = true)
    rows.

Record RowView := mkRowView {
  rv_rank : RankIcon; rv_name : string; rv_you : bool; rv_change : ChangeIcon;
  rv_changeText : option (string * string); rv_level : Z; rv_total_points : Z
}.

(** A row of the main board (lines 342-407).  A server row has no
    [change] and no [isCurrentUser]: [getChangeIcon(undefined)] is the
    dash, [undefined !== 0] holds, and [Math.abs(undefined)] prints
    [NaN] in red ([undefined > 0] is false).  An absent [isCurrentUser]
    hides the "(You)" mark. *)
Definition row_view (r : Row) : RowView :=
  let change_text :=
    match r_extra r with
    | Some x => if bool_decide (change x = 0) then None
                else Some (pretty (Z.abs (change x)),
                           if bool_decide (0 < change x) then "text-green-600" else "text-red-600")
    | None => Some ("NaN", "text-red-600")
    end in
  mkRowView (getRankIcon (r_rank r)) (r_name r)
    (match r_extra r with Some x => isCurrentUser x | None => false end)
    (match r_extra r with Some x => getChangeIcon (change x) | None => NoChange end)
    change_text (r_level r) (r_total_points r).

(** The main board: the rows of the search, in order (line 342). *)
Definition board_view (s : BoardState) : list RowView :=
  row_view <$> filteredLeaderboard (leaderboardData s) (searchQuery s).

(** The "Streak Master" bar of the achievements tab (lines 605-607):
    [((userProfile?.streak_days || 12) / 30) * 100]. *)
Definition streak_master_bar (userProfile : option ProfileUpdate) : Q :=
  (inject_Z (num_or (userProfile ≫= u_streak_days) 12) / 30 * 100)%Q.

(** C26: The search is case-insensitive on both sides.  The empty
    query keeps every row.  Two queries that lower to the same string
    select the same rows.  A row is selected exactly when the lower-case
    query occurs in the lower-case name of the row. *)
Theorem search_is_case_insensitive rows q q' :
  filteredLeaderboard rows "" = rows /\
  (js_toLowerCase q = js_toLowerCase q' -> filteredLeaderboard rows q = filteredLeaderboard rows q') /\
  (forall r, r ∈ filteredLeaderboard rows q <->
     r ∈ rows /\ exists a b, js_toLowerCase (r_name r) = a +:+ js_toLowerCase q +:+ b).
Proof.
  split_and!.
  - apply filter_all. intros r. apply js_includes_empty.
  - intros Hq. unfold filteredLeaderboard. by rewrite Hq.
  - intros r. unfold filteredLeaderboard. rewrite list_elem_of_filter, js_includes_spec. tauto.
Qed.

Section Load.
Context {S : Type} `{KvStoreLaws KvValue S}.

(** Whatever the session, the answer of [GET /leaderboard] replaces
    the rows by the server's ranking of the stored profiles (an empty one
    included) and leaves the store as it was: the mock board is shown
    only when the request fails. *)
Theorem board_shows_server_ranking anon env session (st : S) userProfile now s :
  (call anon env session getLeaderboard st).1 = st /\
  leaderboardData (loadLeaderboard_done userProfile now (call anon env session getLeaderboard st).2 s)
    = server_row <$> leaderboard (omap as_profile (kv_getByPrefix "profile:" st)).
Proof. split; reflexivity. Qed.

End Load.

(** Witness of C26: "PRI" and "pri" select the same rows, and "PRI"
    finds Priya Sharma. *)
Lemma search_is_case_insensitive_witness :
  filteredLeaderboard (mockLeaderboardData None) "" = mockLeaderboardData None /\
  filteredLeaderboard (mockLeaderboardData None) "PRI"
    = filteredLeaderboard (mockLeaderboardData None) "pri" /\
  exists r, r ∈ filteredLeaderboard (mockLeaderboardData None) "PRI" /\ r_name r = "Priya Sharma".
Proof.
  destruct (search_is_case_insensitive (mockLeaderboardData None) "PRI" "pri") as (H1 & H2 & H3).
  split_and!; [exact H1|apply H2; reflexivity|].
  eexists. split; [apply H3; split; [constructor|exists "", "ya sharma"; reflexivity]|reflexivity].
Defined.

(** With the server's answer on screen, every row shows a red [NaN] as
    its rank change and none is marked "(You)", whoever is signed in: the
    server's entries carry neither field. *)
Lemma server_board_rows userProfile now es s :
  Forall (fun v => rv_changeText v = Some ("NaN", "text-red-600") /\ rv_you v = false)
    (board_view (loadLeaderboard_done userProfile now (ApiOk (BLeaderboard es)) s)).
Proof.
  unfold board_view. simpl. apply Forall_fmap, Forall_forall. intros r Hr.
  unfold filteredLeaderboard in Hr. apply list_elem_of_filter in Hr as [_ Hr].
  apply list_elem_of_fmap in Hr as (e & -> & _). split; reflexivity.
Qed.

(** The "Streak Master" bar is not capped: past 30 days it is over 100%. *)
Lemma streak_master_bar_over (userProfile : option ProfileUpdate) n :
  userProfile ≫= u_streak_days = Some n -> 30 < n -> (100 < streak_master_bar userProfile)%Q.
Proof.
  intros Hs Hn. unfold streak_master_bar, num_or. rewrite Hs.
  rewrite bool_decide_eq_false_2 by lia. unfold Qlt. cbn. lia.
Qed.

End Board.
