(* ===== verification/LeaderboardPage.v ===== *)
(** * LeaderboardPage: the rest of the Leaderboard page and its reloads

    [Board] models the rows of the main board.  This file models the rest
    of what [Leaderboard] renders (src/Leaderboard.tsx, lines 231-627):
    - the four stat cards;
    - the Refresh control;
    - the content of each of the four tabs.
    It also models when the page reloads.  [useEffect] (lines 45-49) runs
    [loadLeaderboard] on mount and again whenever [activeTab] or
    [timeframe] changes.  A 30-second interval also reloads it, and so
    does the Refresh button, which is disabled while [loading].  Nothing
    cancels a load in flight, and every answer sets the rows and ends
    [loading].  A [Page] keeps the component state and the number of
    loads in flight.  The interval is an event that may occur at any
    time: a tab change restarts it, which only shifts when it fires. *)

From stdpp Require Import base list strings pretty.
From Stdlib Require Import Ascii ZArith QArith Qround Lia.
From S2P Require Import Prelude KvStore Server ServerProps Api Board.

Module LeaderboardPage.
Import Server ServerProps Api Board.

Local Open Scope Z_scope.

(** ** The stat cards and the controls (lines 233-327) *)

(** The profile object has no [rank] field, so [userProfile?.rank || 6]
    (line 243) is always 6. *)
Definition rank_card (userProfile : option ProfileUpdate) : Z := 6.

(** The four cards: rank, weekly XP, active users, competition. *)
Definition stat_cards (userProfile : option ProfileUpdate) : Z * Z * string * string :=
  (rank_card userProfile, 720, "2,847", "Weekly").

(** [disabled={loading}] of the Refresh button (line 320). *)
Definition refresh_enabled (s : BoardState) : bool := negb (loading s).

(** ** The tabs (lines 329-625) *)

Inductive BoardTab := TOverall | TWeekly | TCategories | TAchievements.

Definition board_tab (t : string) : option BoardTab :=
  if bool_decide (t = "overall") then Some TOverall
  else if bool_decide (t = "weekly") then Some TWeekly
  else if bool_decide (t = "categories") then Some TCategories
  else if bool_decide (t = "achievements") then Some TAchievements
  else None.

(** A numbered line of a list: [index + 1], a name and two texts. *)
Definition Line : Type := Z * string * string * string.

(** [weeklyLeaders.map] of the weekly tab (lines 424-440). *)
Definition weekly_lines : list Line :=
  imap (fun i l => (Z.of_nat i + 1, wl_name l, wl_change l, "+" +:+ pretty (wl_weeklyXP l) +:+ " XP"))
    weeklyLeaders.

(** The two bars of the weekly challenge (lines 455-468). *)
Definition challenge_bars : list (string * string * Q) := [
  ("Complete 10,000 lessons collectively", "7,245 / 10,000", 7245 # 100);
  ("Save ₹1,00,000 collectively", "₹68,500 / ₹1,00,000", 685 # 10)]%Q.

(** [categoryLeaders[k]]. *)
Definition category (k : string) : list (string * Z * Z) :=
  default [] (snd <$> List.find (fun c => bool_decide (c.1 = k)) categoryLeaders).

(** The three lists of the categories tab (lines 490-557). *)
Definition learning_lines : list Line :=
  imap (fun i l => (Z.of_nat i + 1, l.1.1, pretty l.1.2, "+" +:+ pretty l.2 +:+ " pts"))
    (category "learning").

Definition eco_lines : list Line :=
  imap (fun i l => (Z.of_nat i + 1, l.1.1, pretty l.1.2, pretty l.2 +:+ "kg CO₂"))
    (category "eco").

(** [₹{(leader.savedAmount / 1000).toFixed(0)}k] (line 553). *)
Definition savings_lines : list Line :=
  imap (fun i l => (Z.of_nat i + 1, l.1.1, "₹" +:+ toFixed0 (inject_Z l.1.2 / 1000) +:+ "k",
                    pretty l.2 +:+ "% rate"))
    (category "savings").

(** The cards of the achievements tab (lines 574-590): title,
    description, colour and rarity. *)
Definition achievement_cards : list (string * string * string * string) :=
  (fun a => (a.1.1, a.1.2, getRarityColor a.2, a.2)) <$> achievements.

(** The three bars of "Your Achievement Progress" (lines 601-622). *)
Definition progress_bars (userProfile : option ProfileUpdate) : list (string * string * Q) := [
  ("Streak Master (30 days)", pretty (num_or (userProfile ≫= u_streak_days) 12) +:+ "/30",
   streak_master_bar userProfile);
  ("Quiz Master (10 perfect scores)", "6/10", 60%Q);
  ("Eco Champion (100kg CO₂ saved)", "45/100", 45%Q)].

Inductive TabContent :=
| OverallContent (rows : list RowView)
| WeeklyContent (leaders : list Line) (bars : list (string * string * Q))
| CategoriesContent (learning eco savings : list Line)
| AchievementsContent (cards : list (string * string * string * string))
    (bars : list (string * string * Q)).

(** The [TabsContent] of the active tab. *)
Definition tab_content (userProfile : option ProfileUpdate) (s : BoardState) : option TabContent :=
  match board_tab (activeTab s) with
  | Some TOverall => Some (OverallContent (board_view s))
  | Some TWeekly => Some (WeeklyContent weekly_lines challenge_bars)
  | Some TCategories => Some (CategoriesContent learning_lines eco_lines savings_lines)
  | Some TAchievements => Some (AchievementsContent achievement_cards (progress_bars userProfile))
  | None => None
  end.

(** ** Loads and answers *)

Record Page := mkPage { pg_board : BoardState; pg_inflight : nat }.

Inductive PageEvent :=
| SelectTab (t : string)              (** [onValueChange={setActiveTab}], line 329 *)
| TypeSearch (q : string)             (** the search input, line 316 *)
| ClickRefresh                        (** [onClick={loadLeaderboard}], line 320 *)
| IntervalFires                       (** [setInterval(loadLeaderboard, 30000)], line 47 *)
| Answer (r : ApiResult) (now : string).  (** a load in flight answered at [now] *)

Definition set_tab (t : string) (s : BoardState) : BoardState :=
  mkBoardState (leaderboardData s) (loading s) t (searchQuery s) (timeframe s) (lastUpdated s).
Definition set_search (q : string) (s : BoardState) : BoardState :=
  mkBoardState (leaderboardData s) (loading s) (activeTab s) q (timeframe s) (lastUpdated s).

Section Flow.
(** The profile object [App] passes, the same while the page is shown. *)
Variable userProfile : option ProfileUpdate.

(** [loadLeaderboard()] up to its [await]: one more load in flight. *)
Definition start_load (p : Page) : Page :=
  mkPage (loadLeaderboard_start (pg_board p)).1 (S (pg_inflight p)).

(** The first render and its effect (lines 38-49). *)
Definition page_mount (now : string) : Page := start_load (mkPage (initial_board_state now) 0).

(** One event.  A new [activeTab] re-runs the effect; setting the same
    value does not re-render. *)
Definition page_step (p : Page) (ev : PageEvent) : option Page :=
  let b := pg_board p in
  match ev with
  | SelectTab t =>
      if bool_decide (t = activeTab b) then Some p
      else Some (start_load (mkPage (set_tab t b) (pg_inflight p)))
  | TypeSearch q => Some (mkPage (set_search q b) (pg_inflight p))
  | ClickRefresh => if refresh_enabled b then Some (start_load p) else None
  | IntervalFires => Some (start_load p)
  | Answer r now =>
      match pg_inflight p with
      | O => None
      | S n => Some (mkPage (loadLeaderboard_done userProfile now r b) n)
      end
  end.

Fixpoint page_run (p : Page) (evs : list PageEvent) : option Page :=
  match evs with
  | [] => Some p
  | ev :: evs' => p' ← page_step p ev; page_run p' evs'
  end.

(** While the spinner turns, a load is in flight. *)
Definition page_ok (p : Page) : Prop := loading (pg_board p) = true -> (0 < pg_inflight p)%nat.

Lemma page_step_ok p ev p' : page_ok p -> page_step p ev = Some p' -> page_ok p'.
Proof.
  unfold page_ok, page_step, start_load. intros Hp Hs.
  destruct ev as [t|q| | |r now]; repeat case_match; simplify_eq; simpl; try lia; auto.
  destruct r; simpl; discriminate.
Qed.

Lemma page_run_ok p evs p' : page_ok p -> page_run p evs = Some p' -> page_ok p'.
Proof.
  revert p. induction evs as [|ev evs IH]; intros p Hp Hr; simpl in Hr; [by simplify_eq|].
  destruct (page_step p ev) as [p1|] eqn:Hs; [|discriminate].
  exact (IH p1 (page_step_ok p ev p1 Hp Hs) Hr).
Qed.

Lemma page_mount_ok now : page_ok (page_mount now).
Proof. intros _. simpl. lia. Qed.

End Flow.

Section Race.
Context {St : Type} `{KvStoreLaws KvValue St}.

(** The ranking of the stored profiles, as [GET /leaderboard] sends it. *)
Definition server_ranking (st : St) : list Row :=
  server_row <$> leaderboard (omap as_profile (kv_getByPrefix "profile:" st)).

(** C7: Loads are not ordered.  Take a page reached from the mount,
    with a load in flight, and switch to another tab.  This starts a
    second load.  The first answer to arrive ends [loading] and enables
    Refresh, although a load is still in flight.  The answer that
    arrives last then sets the rows, even when it was served from an
    older store.  The rows shown are the ranking of the last answer's
    store. *)
Theorem leaderboard_last_answer_wins userProfile now0 evs p t anon env sess (st1 st2 : St) now1 now2 :
  page_run userProfile (page_mount now0) evs = Some p -> loading (pg_board p) = true ->
  t <> activeTab (pg_board p) ->
  exists p1 p2 p3,
    page_step userProfile p (SelectTab t) = Some p1 /\ pg_inflight p1 = S (pg_inflight p) /\
    page_step userProfile p1 (Answer (call anon env sess getLeaderboard st2).2 now2) = Some p2 /\
    refresh_enabled (pg_board p2) = true /\ (0 < pg_inflight p2)%nat /\
    page_step userProfile p2 (Answer (call anon env sess getLeaderboard st1).2 now1) = Some p3 /\
    leaderboardData (pg_board p3) = server_ranking st1 /\ lastUpdated (pg_board p3) = now1.
Proof.
  intros Hrun Hl Ht.
  pose proof (page_run_ok _ _ _ _ (page_mount_ok now0) Hrun Hl) as Hn.
  destruct p as [b n]; simpl in *.
  destruct n as [|n]; [lia|].
  eexists _, _, _. simpl. rewrite bool_decide_eq_false_2 by done. split; [reflexivity|]. split; [reflexivity|].
  split; [reflexivity|]. split; [reflexivity|]. split; [simpl; lia|].
  split; [reflexivity|]. split; reflexivity.
Qed.

End Race.

(** Witness of C7: right after the mount, switching to the weekly tab. *)
Lemma leaderboard_last_answer_wins_witness :
  exists p1 p2 p3,
    page_step None (page_mount "t0") (SelectTab "weekly") = Some p1 /\
    pg_inflight p1 = S (pg_inflight (page_mount "t0")) /\
    page_step None p1 (Answer (call "anon-key" (demo_env "t9" "u9") None getLeaderboard demo_store).2 "t2")
      = Some p2 /\
    refresh_enabled (pg_board p2) = true /\ (0 < pg_inflight p2)%nat /\
    page_step None p2 (Answer (call "anon-key" (demo_env "t9" "u9") None getLeaderboard (∅ : Store)).2 "t1")
      = Some p3 /\
    leaderboardData (pg_board p3) = server_ranking (∅ : Store) /\ lastUpdated (pg_board p3) = "t1".
Proof.
  apply (leaderboard_last_answer_wins None "t0" [] (page_mount "t0") "weekly" "anon-key" (demo_env "t9" "u9")
           None (∅ : Store) demo_store "t1" "t2"); [reflexivity|reflexivity|discriminate].
Defined.

End LeaderboardPage.
