(* ===== verification/AppShell.v ===== *)
(** * AppShell: the App component (src/App.tsx)

    [App] holds the signed-in user, the profile object every tab reads and
    the [updateUserProfile] setter every tab writes through.  On mount it
    asks the identity client for the session ([getCurrentSession]); with a
    user it loads [GET /profile]; either way [loading] ends.  Signing out
    clears the user and the profile.  [updateUserProfile] merges an update
    into the current profile object ([setUserProfile(prev => ({...prev,
    ...updates}))]), so updates computed by the tabs from an older render
    still apply in order.  The [await]s split [checkAuth] and
    [handleSignOut] as in [Budget]. *)

From stdpp Require Import base list strings.
From Stdlib Require Import Ascii ZArith Lia.
From S2P Require Import Prelude KvStore Server Api.

Module AppShell.
Import Server Api.

Record AppState := mkAppState {
  activeTab : string;
  user : option string;                 (** the session's user *)
  userProfile : option ProfileUpdate;
  showAuthModal : bool;
  loading : bool
}.

(** The [useState] initial values (lines 30-34). *)
Definition initial_app_state : AppState := mkAppState "dashboard" None None false true.

Definition set_profile (p : option ProfileUpdate) (s : AppState) : AppState :=
  mkAppState (activeTab s) (user s) p (showAuthModal s) (loading s).

(** [updateUserProfile] (lines 77-79). *)
Definition updateUserProfile (updates : ProfileUpdate) (s : AppState) : AppState :=
  set_profile (Some (spread (userProfile s) updates)) s.

(** [checkAuth] up to [loadUserProfile]'s [await] (lines 40-46): the
    session read, or the error thrown by [getCurrentSession]. *)
Definition checkAuth_start (session : string + option Session) (s : AppState)
  : AppState * list Effect :=
  match session with
  | inr (Some sess) =>
      match session_user sess with
      | Some u => (mkAppState (activeTab s) (Some u) (userProfile s) (showAuthModal s) (loading s),
                   [ERequest getUserProfile])
      | None => (mkAppState (activeTab s) (user s) (userProfile s) (showAuthModal s) false, [])
      end
  | _ => (mkAppState (activeTab s) (user s) (userProfile s) (showAuthModal s) false, [])
  end.

(** [loadUserProfile]'s answer (lines 56-60) and [checkAuth]'s [finally]:
    [const { profile } = ...; setUserProfile(profile)]. *)
Definition checkAuth_done (r : ApiResult) (s : AppState) : AppState :=
  let p := match r with
           | ApiOk (BProfile (VProfile p)) => Some (Some (profile_object p))
           | ApiOk _ => Some None
           | ApiError _ => None
           end in
  mkAppState (activeTab s) (user s) (default (userProfile s) p) (showAuthModal s) false.

(** [handleSignOut] (lines 67-75), on the result of [apiService.signOut]. *)
Definition handleSignOut (r : string + unit) (s : AppState) : AppState :=
  match r with
  | inr _ => mkAppState (activeTab s) None None (showAuthModal s) (loading s)
  | inl _ => s
  end.

(** The tabs' [onValueChange={setActiveTab}] and the sign-in buttons. *)
Definition setActiveTab (t : string) (s : AppState) : AppState :=
  mkAppState t (user s) (userProfile s) (showAuthModal s) (loading s).
Definition setShowAuthModal (b : bool) (s : AppState) : AppState :=
  mkAppState (activeTab s) (user s) (userProfile s) b (loading s).

(** The header's [userProfile?.name || user.email] (line 113), with the
    user's email. *)
Definition header_name (email : string) (s : AppState) : string :=
  match userProfile s ≫= u_name with Some (String _ _ as n) => n | _ => email end.

(** The profile updates of a handler's effects, applied in order. *)
Definition apply_effects (effs : list Effect) (s : AppState) : AppState :=
  fold_left (fun s e => match e with EUpdateProfile u => updateUserProfile u s | _ => s end) effs s.

(** Toasts leave the profile object alone. *)
Lemma apply_effects_toasts effs s :
  Forall (fun e => exists t, e = EToast t) effs -> apply_effects effs s = s.
Proof. induction 1 as [|e effs [t ->] _ IH]; [done|]. exact IH. Qed.

Lemma apply_effects_app effs1 effs2 s :
  apply_effects (effs1 ++ effs2) s = apply_effects effs2 (apply_effects effs1 s).
Proof. unfold apply_effects. by rewrite fold_left_app. Qed.

End AppShell.
