(* ===== verification/Profile.v ===== *)
(** * Profile: the UserProfile tab (src/UserProfile.tsx)

    [App] renders [<UserProfile userProfile={userProfile}
    updateUserProfile={updateUserProfile} />], but the component is
    declared as [UserProfile()] and takes no props.  Its header, stats,
    badges, monthly progress and timeline all come from constants of the
    file.  The only state is [isEditing], which the edit button toggles
    and nothing reads.  The views below compute what each part of the JSX
    shows.  They take the props [App] passes only to make visible that
    they are ignored. *)

From stdpp Require Import base list strings pretty.
From Stdlib Require Import Ascii ZArith QArith Lia.
From S2P Require Import Prelude KvStore Server Api AppShell Board.

Module UserProfileTab.
Import Server Api.

Local Open Scope Z_scope.

(** ** The constants (lines 38-182) *)

Record ProfileCard := mkProfileCard {
  pc_name : string; pc_email : string; pc_level : Z; pc_totalXP : Z; pc_nextLevelXP : Z;
  pc_joinDate : string; pc_streak : Z; pc_rank : Z; pc_totalPoints : Z
}.

(** [const userProfile] (lines 38-48). *)
Definition userProfile : ProfileCard :=
  mkProfileCard "Alex Johnson" "alex.johnson@email.com" 9 7240 8000 "March 2024" 12 6 15670.

Record Stats := mkStats {
  st_lessonsCompleted : Z; st_totalMinutesLearned : Z; st_averageQuizScore : Z;
  st_sustainablePurchases : Z; st_co2Saved : Q; st_moneySaved : Z; st_budgetGoalsMet : Z;
  st_savingsRate : Z
}.

(** [stats] (lines 50-59). *)
Definition stats : Stats := mkStats 24 180 85 18 (452 # 10) 28500 8 25.

Record Badge := mkBadge {
  b_id : Z; b_name : string; b_description : string; b_earned : bool; b_rarity : string
}.

(** [badges] (lines 61-110), without the icons. *)
Definition badges : list Badge := [
  mkBadge 1 "Quick Learner" "Completed first 5 lessons" true "common";
  mkBadge 2 "Eco Warrior" "10 sustainable purchases" true "uncommon";
  mkBadge 3 "Budget Master" "Met budget goals for 3 months" true "rare";
  mkBadge 4 "Streak Champion" "30-day learning streak" false "epic";
  mkBadge 5 "Top 10" "Ranked in top 10 globally" false "legendary";
  mkBadge 6 "Carbon Saver" "Saved 100kg CO2" false "rare"].

Record MonthProgress := mkMonthProgress {
  mp_month : string; mp_lessonsCompleted : Z; mp_ecoPoints : Z; mp_moneySaved : Z
}.

(** [monthlyProgress] (lines 112-149). *)
Definition monthlyProgress : list MonthProgress := [
  mkMonthProgress "Jan" 6 180 2200; mkMonthProgress "Feb" 8 220 2800;
  mkMonthProgress "Mar" 10 280 3200; mkMonthProgress "Apr" 12 320 3600;
  mkMonthProgress "May" 15 380 4100; mkMonthProgress "Jun" 18 420 4800].

Record Milestone := mkMilestone { ms_title : string; ms_date : string; ms_points : Z }.

(** [achievements] (lines 151-182). *)
Definition achievements : list Milestone := [
  mkMilestone "First Budget Created" "2024-03-15" 100;
  mkMilestone "Completed Financial Basics" "2024-04-02" 250;
  mkMilestone "First Eco Purchase" "2024-04-10" 50;
  mkMilestone "7-Day Learning Streak" "2024-05-01" 150;
  mkMilestone "10 Sustainable Actions" "2024-05-15" 200;
  mkMilestone "Budget Goal Met" "2024-06-01" 300].

(** [getBadgeRarityColor] (lines 184-199). *)
Definition getBadgeRarityColor (rarity : string) : string :=
  if bool_decide (rarity = "common") then "bg-gray-100 text-gray-800"
  else if bool_decide (rarity = "uncommon") then "bg-green-100 text-green-800"
  else if bool_decide (rarity = "rare") then "bg-blue-100 text-blue-800"
  else if bool_decide (rarity = "epic") then "bg-purple-100 text-purple-800"
  else if bool_decide (rarity = "legendary") then "bg-yellow-100 text-yellow-800"
  else "bg-gray-100 text-gray-800".

(** ** State and handler *)

(** [const [isEditing, setIsEditing] = useState(false)] (line 36). *)
Record ProfileState := mkProfileState { isEditing : bool }.

Definition initial_profile_state : ProfileState := mkProfileState false.

(** The edit button's [onClick={() => setIsEditing(!isEditing)}] (line 225). *)
Definition toggleEditing (s : ProfileState) : ProfileState := mkProfileState (negb (isEditing s)).

(** ** What the JSX shows *)

Record HeaderView := mkHeaderView {
  hv_initials : string; hv_name : string; hv_email : string; hv_joinDate : string;
  hv_level : Z; hv_xpProgress : Q; hv_xpText : string; hv_rank : Z; hv_streak : Z;
  hv_totalPoints : Z
}.

(** The header card (lines 205-293): the avatar's initials, the name,
    the level with its progress bar [(totalXP / nextLevelXP) * 100], the
    rank, the streak and the points.  [props] is what [App] passes. *)
Definition header_view (props : option ProfileUpdate) (s : ProfileState) : HeaderView :=
  let u := userProfile in
  mkHeaderView (Board.initials (pc_name u)) (pc_name u) (pc_email u) (pc_joinDate u) (pc_level u)
    (inject_Z (pc_totalXP u) / inject_Z (pc_nextLevelXP u) * 100)%Q
    (pretty (pc_totalXP u) +:+ "/" +:+ pretty (pc_nextLevelXP u) +:+ " XP")
    (pc_rank u) (pc_streak u) (pc_totalPoints u).

(** The badges tab (lines 414-476): the count
    [badges.filter((b) => b.earned).length / badges.length], and for each
    badge its name, rarity colour and whether "Not Earned" is shown. *)
Definition badges_view (props : option ProfileUpdate) (s : ProfileState)
  : nat * nat * list (string * string * bool) :=
  (length (filter (fun b => b_earned b = true) badges), length badges,
   (fun b => (b_name b, getBadgeRarityColor (b_rarity b), negb (b_earned b))) <$> badges).

(** The progress tab (lines 478-529): per month, the three bars
    [lessonsCompleted / 20], [ecoPoints / 500] and [moneySaved / 5000],
    in percent. *)
Definition progress_view (props : option ProfileUpdate) (s : ProfileState)
  : list (string * Q * Q * Q) :=
  (fun m => (mp_month m, (inject_Z (mp_lessonsCompleted m) / 20 * 100)%Q,
             (inject_Z (mp_ecoPoints m) / 500 * 100)%Q, (inject_Z (mp_moneySaved m) / 5000 * 100)%Q))
    <$> monthlyProgress.

(** The timeline tab (lines 531-570). *)
Definition timeline_view (props : option ProfileUpdate) (s : ProfileState)
  : list (string * string * Z) :=
  (fun a => (ms_title a, ms_date a, ms_points a)) <$> achievements.

(** ** The tab ignores the signed-in user *)

(** C36: The profile tab shows Alex Johnson (level 9, rank 6, 15670
    points, 3 of 6 badges) whatever profile [App] passes.  For a
    signed-in user whose profile has a non-empty name [n], the App header
    shows [n] while the profile tab shows Alex Johnson.  No profile
    update changes any part of the tab. *)
Theorem profile_tab_ignores_profile (a : AppShell.AppState) email n (s : ProfileState) :
  AppShell.userProfile a ≫= u_name = Some n -> n <> "" ->
  AppShell.header_name email a = n /\
  hv_name (header_view (AppShell.userProfile a) s) = "Alex Johnson" /\
  hv_totalPoints (header_view (AppShell.userProfile a) s) = 15670 /\
  (badges_view (AppShell.userProfile a) s).1 = (3%nat, 6%nat) /\
  forall u, header_view (AppShell.userProfile (AppShell.updateUserProfile u a)) s
              = header_view (AppShell.userProfile a) s /\
            badges_view (AppShell.userProfile (AppShell.updateUserProfile u a)) s
              = badges_view (AppShell.userProfile a) s /\
            progress_view (AppShell.userProfile (AppShell.updateUserProfile u a)) s
              = progress_view (AppShell.userProfile a) s /\
            timeline_view (AppShell.userProfile (AppShell.updateUserProfile u a)) s
              = timeline_view (AppShell.userProfile a) s.
Proof.
  intros Hn Hne. split_and!; [|reflexivity..|intros u; split_and!; reflexivity].
  unfold AppShell.header_name. rewrite Hn. by destruct n.
Qed.

(** Witness of C36: bob signed in. *)
Lemma profile_tab_ignores_profile_witness :
  AppShell.header_name "bob@example.com"
    (AppShell.set_profile (Some (profile_object (mkProfile "bob" "Bob" "bob@example.com" 1 0 0 0 "t" "t")))
       AppShell.initial_app_state) = "Bob" /\
  hv_name (header_view (Some (profile_object (mkProfile "bob" "Bob" "bob@example.com" 1 0 0 0 "t" "t")))
             initial_profile_state) = "Alex Johnson".
Proof.
  destruct (profile_tab_ignores_profile
              (AppShell.set_profile (Some (profile_object (mkProfile "bob" "Bob" "bob@example.com"
                                                             1 0 0 0 "t" "t")))
                 AppShell.initial_app_state) "bob@example.com" "Bob" initial_profile_state
              eq_refl ltac:(discriminate)) as (H1 & H2 & _).
  split; [exact H1|exact H2].
Defined.

End UserProfileTab.
