(* ===== verification/System.v ===== *)
(** * System: the browser app and the server together

    The tabs of [App] share one profile object and talk to one server.  A
    state of the system holds the state of [App] and of each tab, the
    mounted quiz, the server's store, the session, the toasts shown and
    the [pending] work of the browser: requests sent and not yet answered
    and timeouts not yet fired, each with the [userProfile] of the render
    whose handler created it (the closure's snapshot).  The quiz dialog
    covers the page, so a quiz is started only while none is shown.  An event is a
    click or an input, the server answering the [i]-th pending request
    with the external answers [env] of that moment, or the [i]-th pending
    timeout firing; any interleaving of them is a sequence of events.
    All tabs are kept mounted (the tab panels that Radix unmounts keep
    their pending closures, which is what matters here).  [anon] is the
    public anon key, [parseFloat] reads number inputs and [today] is the
    date string of [handleAddExpense]. *)

From stdpp Require Import base list strings.
From Stdlib Require Import Ascii ZArith QArith Lia.
From S2P Require Import Prelude KvStore Quiz Server ServerProps Api Budget Eco Learning Dash AppShell.

Module System.
Import Server ServerProps Api AppShell.

Local Open Scope Z_scope.

Inductive Pending :=
| PAddExpense (snapshot : option ProfileUpdate) (route : Route)
| PAddPurchase (snapshot : option ProfileUpdate) (route : Route)
| PQuizSave (snapshot : option ProfileUpdate) (score xpEarned : Z) (route : Route)
| PLessonTimer (snapshot : option ProfileUpdate)
| PDashClear.

Inductive SysEvent :=
| TypeExpense (ne : Budget.NewExpense)
| ClickAddExpense
| TypePurchase (np : Eco.NewPurchase)
| ClickAddPurchase
| ClickStartLesson
| ClickStartQuiz (moduleId : Z)
| QuizInput (e : Quiz.UIEvent)
| ClickQuickAction (a : Dash.QuickAction)
| Serve (i : nat) (env : Env)
| Fire (i : nat).

(** The [{ expense }] and [{ eco_action, eco_points }] of an answer;
    the server answers these routes with such a body or an error
    ([post_answers]). *)
Definition expense_reply (r : ApiResult) : string + Expense :=
  match r with
  | ApiOk (BExpense e) => inr e
  | ApiOk _ => inl "unexpected answer"
  | ApiError m => inl m
  end.

Definition eco_reply (r : ApiResult) : string + (EcoAction * Z) :=
  match r with
  | ApiOk (BEcoAction ea pts) => inr (ea, pts)
  | ApiOk _ => inl "unexpected answer"
  | ApiError m => inl m
  end.

(** The requests among a handler's effects. *)
Definition requests (effs : list Effect) : list Route :=
  omap (fun e => match e with ERequest r => Some r | _ => None end) effs.

(** The toasts among a handler's effects. *)
Definition toasts_of (effs : list Effect) : list Toast :=
  omap (fun e => match e with EToast t => Some t | _ => None end) effs.

Section Sys.
Context {S : Type} `{KvStoreLaws KvValue S}.

Record Sys := mkSys {
  app : AppState; budget : Budget.BudgetState; eco : Eco.EcoState;
  learning : Learning.LearningState; quiz : option Quiz.QuizState; dash : Dash.DashState;
  store : S; session : option Session; pending : list Pending; toasts : list Toast
}.

(** The profile updates and toasts of a handler, then its new pending work. *)
Definition absorb (effs : list Effect) (ps : list Pending) (s : Sys) : Sys :=
  mkSys (apply_effects effs (app s)) (budget s) (eco s) (learning s) (quiz s) (dash s)
    (store s) (session s) (pending s ++ ps) (toasts s ++ toasts_of effs).

Definition with_budget (b : Budget.BudgetState) (s : Sys) : Sys :=
  mkSys (app s) b (eco s) (learning s) (quiz s) (dash s) (store s) (session s) (pending s) (toasts s).
Definition with_eco (e : Eco.EcoState) (s : Sys) : Sys :=
  mkSys (app s) (budget s) e (learning s) (quiz s) (dash s) (store s) (session s) (pending s) (toasts s).
Definition with_learning (l : Learning.LearningState) (q : option Quiz.QuizState) (s : Sys) : Sys :=
  mkSys (app s) (budget s) (eco s) l q (dash s) (store s) (session s) (pending s) (toasts s).
Definition with_dash (d : Dash.DashState) (s : Sys) : Sys :=
  mkSys (app s) (budget s) (eco s) (learning s) (quiz s) d (store s) (session s) (pending s) (toasts s).
Definition with_store (st : S) (ps : list Pending) (s : Sys) : Sys :=
  mkSys (app s) (budget s) (eco s) (learning s) (quiz s) (dash s) st (session s) ps (toasts s).

Variable anon : string.
Variable parseFloat : string -> Q.
Variable today : string.

(** The quiz of the module shown, mounted fresh when it opens. *)
Definition quiz_questions_of (s : Sys) : list Quiz.Question := Learning.quiz_questions (learning s).

(** The calls [onComplete(score, totalXP)] a quiz step made. *)
Definition new_completions (q q' : Quiz.QuizState) : list (nat * nat) :=
  drop (length (Quiz.completions q)) (Quiz.completions q').

(** [handleQuizComplete] started for each of them. *)
Definition quiz_saves (snap : option ProfileUpdate) (l : Learning.LearningState)
  (cs : list (nat * nat)) : list Pending * list Effect :=
  let (r, effs) := Learning.handleQuizComplete_start l in
  (match r with
   | Some route => (fun c => PQuizSave snap (Z.of_nat c.1) (Z.of_nat c.2) route) <$> cs
   | None => []
   end, mjoin ((fun _ => effs) <$> cs)).

(** The continuation of a pending request, on the answer. *)
Definition resume (p : Pending) (r : ApiResult) (s : Sys) : Sys :=
  match p with
  | PAddExpense snap _ =>
      let (b, effs) := Budget.handleAddExpense_done snap (expense_reply r) (budget s) in
      absorb effs [] (with_budget b s)
  | PAddPurchase snap _ =>
      let (e, effs) := Eco.handleAddPurchase_done snap (eco_reply r) (eco s) in
      absorb effs [] (with_eco e s)
  | PQuizSave snap score xp _ =>
      let (l, effs) := Learning.handleQuizComplete_done snap score xp r (learning s) in
      absorb effs [] (with_learning l (if Learning.quiz_open l then quiz s else None) s)
  | _ => s
  end.

Definition pending_route (p : Pending) : option Route :=
  match p with
  | PAddExpense _ r | PAddPurchase _ r | PQuizSave _ _ _ r => Some r
  | _ => None
  end.

(** One event. *)
Definition sys_step (s : Sys) (ev : SysEvent) : option Sys :=
  let snap := userProfile (app s) in
  match ev with
  | TypeExpense ne =>
      let b := budget s in
      Some (with_budget (Budget.mkBudgetState ne (Budget.expenses b) (Budget.loading b)
                           (Budget.addingExpense b)) s)
  | ClickAddExpense =>
      if Budget.addingExpense (budget s) then None else
      let (b, effs) := Budget.handleAddExpense_start parseFloat today (budget s) in
      Some (absorb effs (PAddExpense snap <$> requests effs) (with_budget b s))
  | TypePurchase np => Some (with_eco (Eco.mkEcoState np (Eco.addingPurchase (eco s))) s)
  | ClickAddPurchase =>
      if Eco.addingPurchase (eco s) then None else
      let (e, effs) := Eco.handleAddPurchase_start parseFloat (eco s) in
      Some (absorb effs (PAddPurchase snap <$> requests effs) (with_eco e s))
  | ClickStartLesson =>
      if bool_decide (Learning.startingLesson (learning s)
                      = Some (Learning.l_moduleId Learning.currentLesson)) then None else
      Some (absorb [] [PLessonTimer snap]
              (with_learning (Learning.handleStartLesson_start (learning s)) (quiz s) s))
  | ClickStartQuiz id =>
      if bool_decide (is_Some (quiz s)) then None else
      let l := Learning.handleStartQuiz (Learning.find_module id) (learning s) in
      Some (with_learning l (if Learning.quiz_open l
                             then Some Quiz.mounted else None) s)
  | QuizInput e =>
      q ← quiz s;
      q' ← Quiz.react (quiz_questions_of s) q e;
      let (ps, effs) := quiz_saves snap (learning s) (new_completions q q') in
      Some (absorb effs ps (with_learning (learning s) (Some q') s))
  | ClickQuickAction a =>
      if Dash.quick_action_enabled (dash s) a then
        let (d, effs) := Dash.handleQuickAction snap a (dash s) in
        Some (absorb effs [PDashClear] (with_dash d s))
      else None
  | Serve i env =>
      p ← pending s !! i;
      route ← pending_route p;
      let (st', r) := call anon env (session s) route (store s) in
      Some (resume p r (with_store st' (delete i (pending s)) s))
  | Fire i =>
      p ← pending s !! i;
      match p with
      | PLessonTimer snap' =>
          let (l, effs) := Learning.handleStartLesson_fire snap' (learning s) in
          Some (absorb effs [] (with_learning l (quiz s) (with_store (store s) (delete i (pending s)) s)))
      | PDashClear =>
          d ← Dash.clear_fires (dash s);
          Some (with_dash d (with_store (store s) (delete i (pending s)) s))
      | _ => None
      end
  end.

Fixpoint sys_run (s : Sys) (evs : list SysEvent) : option Sys :=
  match evs with
  | [] => Some s
  | ev :: evs' => s' ← sys_step s ev; sys_run s' evs'
  end.

(** ** Points of the profile object and of the server *)

Definition client_points (s : Sys) : Z := points_or_0 (userProfile (app s)).
Definition client_xp (s : Sys) : Z := xp_or_0 (userProfile (app s)).

(** The server's record of the caller [uid]. *)
Definition server_profile (uid : string) (s : Sys) : option Profile :=
  match kv_get (profile_key uid) (store s) with Some (VProfile p) => Some p | _ => None end.

(** The tab's profile object agrees with the server on the points. *)
Definition points_in_step (uid : string) (s : Sys) : Prop :=
  exists p, server_profile uid s = Some p /\ client_points s = p_total_points p.

Lemma points_spread prev n : points_or_0 (Some (spread prev (points_update n))) = n.
Proof. unfold points_or_0, spread. simpl. by destruct (u_total_points _). Qed.

Lemma xp_points_spread' prev x n :
  points_or_0 (Some (spread prev (xp_points_update x n))) = n /\
  xp_or_0 (Some (spread prev (xp_points_update x n))) = x.
Proof.
  unfold points_or_0, xp_or_0, spread. simpl.
  by destruct (u_total_points _), (u_total_xp _).
Qed.

Lemma points_or_0_spread a n :
  points_or_0 (userProfile (updateUserProfile (points_update n) a)) = n.
Proof. unfold points_or_0, updateUserProfile, spread. simpl. by destruct (u_total_points _). Qed.

Lemma xp_points_spread a x n :
  points_or_0 (userProfile (updateUserProfile (xp_points_update x n) a)) = n /\
  xp_or_0 (userProfile (updateUserProfile (xp_points_update x n) a)) = x.
Proof.
  unfold points_or_0, xp_or_0, updateUserProfile, spread. simpl.
  by destruct (u_total_points _), (u_total_xp _).
Qed.

(** The server's caller for the session of [s]. *)
Definition caller (env : Env) (s : Sys) : option string :=
  verifyUser env (Some (bearer (accessToken anon (session s)))).

Lemma handle_as_caller env sess (st : S) uid route :
  verifyUser env (Some (bearer (accessToken anon sess))) = Some uid -> protected_route route ->
  handle env (makeRequest anon sess route) st = authenticated env uid route st.
Proof.
  unfold makeRequest, handle. intros Hc Hr. cbn [req_route req_authorization].
  rewrite Hc. by destruct route.
Qed.

(** A form with its three fields filled. *)
Definition expense_filled (ne : Budget.NewExpense) : Prop :=
  Budget.ne_category ne <> "" /\ Budget.ne_amount ne <> "" /\ Budget.ne_description ne <> "".

Lemma handleAddExpense_start_filled b :
  expense_filled (Budget.newExpense b) ->
  Budget.handleAddExpense_start parseFloat today b =
    (Budget.mkBudgetState (Budget.newExpense b) (Budget.expenses b) (Budget.loading b) true,
     [ERequest (addExpense (Budget.ne_description (Budget.newExpense b))
        (parseFloat (Budget.ne_amount (Budget.newExpense b)))
        (Budget.ne_category (Budget.newExpense b)) today)]).
Proof.
  intros (H1 & H2 & H3). unfold Budget.handleAddExpense_start.
  by rewrite !bool_decide_eq_true_2.
Qed.

(** C28: Adding an expense from the Budget tab, with the profile object
    and the server agreeing on the caller's points, shows 10 more points
    in the browser while the server's points stay the same: the award of
    [handleAddExpense] is never sent to the server. *)
Theorem expense_award_not_persisted s env uid p :
  pending s = [] -> Budget.addingExpense (budget s) = false ->
  expense_filled (Budget.newExpense (budget s)) ->
  caller env s = Some uid -> server_profile uid s = Some p ->
  client_points s = p_total_points p ->
  exists s', sys_run s [ClickAddExpense; Serve 0 env] = Some s' /\
    client_points s' = p_total_points p + 10 /\ server_profile uid s' = Some p /\
    pending s' = [].
Proof.
  intros Hp Ha Hf Hc Hsp Hcp.
  destruct s as [a b e l q d st sess ps ts]; unfold caller in Hc; simpl in *. subst ps.
  unfold sys_run, sys_step. simpl. rewrite Ha, handleAddExpense_start_filled by done.
  simpl. rewrite (handle_as_caller env _ _ uid) by done. simpl.
  eexists. split; [reflexivity|]. split_and!; [|unfold server_profile in *; simpl|done].
  - unfold client_points. simpl. by rewrite points_spread, <- Hcp.
  - rewrite kv_get_set_ne by auto with yagna. done.
Qed.

Definition purchase_filled (np : Eco.NewPurchase) : Prop :=
  Eco.np_item np <> "" /\ Eco.np_amount np <> "" /\ Eco.np_category np <> "".

Lemma handleAddPurchase_start_filled e :
  purchase_filled (Eco.newPurchase e) ->
  Eco.handleAddPurchase_start parseFloat e =
    (Eco.mkEcoState (Eco.newPurchase e) true,
     [ERequest (addEcoAction (Eco.np_item (Eco.newPurchase e))
        (parseFloat (Eco.np_amount (Eco.newPurchase e))) (Eco.np_category (Eco.newPurchase e))
        (Eco.np_ecoRating (Eco.newPurchase e)))]).
Proof.
  intros (H1 & H2 & H3). unfold Eco.handleAddPurchase_start.
  by rewrite !bool_decide_eq_true_2.
Qed.

(** C29: Logging an eco purchase keeps the profile object and the server
    in step: both add the server's eco points
    [Math.floor(eco_rating * amount * 0.1)] to the caller's points. *)
Theorem eco_award_in_step s env uid p :
  pending s = [] -> Eco.addingPurchase (eco s) = false ->
  purchase_filled (Eco.newPurchase (eco s)) ->
  caller env s = Some uid -> server_profile uid s = Some p ->
  client_points s = p_total_points p ->
  exists s', sys_run s [ClickAddPurchase; Serve 0 env] = Some s' /\
    points_in_step uid s' /\ pending s' = [] /\
    client_points s' = p_total_points p
      + eco_points_of (Eco.np_ecoRating (Eco.newPurchase (eco s)))
                      (parseFloat (Eco.np_amount (Eco.newPurchase (eco s)))).
Proof.
  intros Hp Ha Hf Hc Hsp Hcp.
  destruct s as [a b e l q d st sess ps ts]; unfold caller in Hc; simpl in *. subst ps.
  unfold server_profile in Hsp. simpl in Hsp.
  destruct (kv_get (profile_key uid) st) as [[p0| | | | |]|] eqn:Hk; simplify_eq/=.
  unfold sys_run, sys_step. simpl. rewrite Ha, handleAddPurchase_start_filled by done.
  simpl. rewrite (handle_as_caller env _ _ uid) by done. simpl.
  eexists. split; [reflexivity|]. unfold points_in_step, server_profile, client_points. simpl.
  rewrite (updateUserEcoStats_profile _ _ _ _ _ p); [|rewrite kv_get_set_ne by auto with yagna; exact Hk].
  unfold client_points in Hcp. simpl in Hcp.
  assert (Ht : forall (b : bool) (x : AppState), apply_effects
    (if b then [EToast (ToastSuccess "Achievement: High Impact Purchase!")] else []) x = x)
    by (intros [] ?; reflexivity).
  rewrite !Ht, points_or_0_spread, Hcp. split_and!; [|done|done]. by eexists.
Qed.

(** The progress [handleQuizComplete] posts for a module. *)
Definition quiz_progress_route (m : Learning.LearningModule) : Route :=
  updateLearningProgress (Learning.m_id m) (Learning.m_title m)
    (Z.min (Learning.m_progress m + 20) 100) (Learning.m_lessons m) (Learning.m_lessons m).

(** C30: When the save of a finished quiz is answered, the profile object
    gains the quiz's [xpEarned] in both XP and points, while the server
    gains 25 XP per lesson of the module and no points: after every quiz
    that earned XP the two disagree on the points. *)
Theorem quiz_award_diverges s env uid p m score xpEarned :
  pending s = [PQuizSave (userProfile (app s)) score xpEarned (quiz_progress_route m)] ->
  caller env s = Some uid -> server_profile uid s = Some p ->
  client_points s = p_total_points p -> client_xp s = p_total_xp p ->
  exists s' p', sys_run s [Serve 0 env] = Some s' /\ server_profile uid s' = Some p' /\
    client_xp s' = p_total_xp p + xpEarned /\ client_points s' = p_total_points p + xpEarned /\
    p_total_xp p' = p_total_xp p + Learning.m_lessons m * 25 /\
    p_total_points p' = p_total_points p /\ pending s' = [].
Proof.
  intros Hp Hc Hsp Hcp Hcx.
  destruct s as [a b e l q d st sess ps ts]; unfold caller in Hc; simpl in *. subst ps.
  unfold server_profile in Hsp. simpl in Hsp.
  destruct (kv_get (profile_key uid) st) as [[p0| | | | |]|] eqn:Hk; simplify_eq/=.
  unfold sys_run, sys_step. simpl. rewrite (handle_as_caller env _ _ uid) by done. simpl.
  eexists _, _. split; [reflexivity|]. unfold server_profile, client_points, client_xp. simpl.
  rewrite (updateUserXP_profile _ _ _ _ p); [|rewrite kv_get_set_ne by auto with yagna; exact Hk].
  unfold client_points, client_xp in *. simpl in *.
  destruct (xp_points_spread a (xp_or_0 (userProfile a) + xpEarned)
              (points_or_0 (userProfile a) + xpEarned)) as [E1 E2].
  rewrite apply_effects_toasts by (repeat case_bool_decide; repeat constructor; eauto).
  rewrite E1, E2, Hcp, Hcx. split_and!; try reflexivity.
Qed.

(** One answered save of a module's quiz: the progress record is
    overwritten and the caller gains 25 XP per lesson of the module. *)
Lemma quiz_save_call env sess (st : S) uid p m :
  verifyUser env (Some (bearer (accessToken anon sess))) = Some uid ->
  kv_get (profile_key uid) st = Some (VProfile p) ->
  kv_get (profile_key uid) (call anon env sess (quiz_progress_route m) st).1 =
    Some (VProfile (mkProfile (p_user_id p) (p_name p) (p_email p)
      ((p_total_xp p + Learning.m_lessons m * 25) / 1000 + 1)
      (p_total_xp p + Learning.m_lessons m * 25) (p_streak_days p) (p_total_points p)
      (p_created_at p) (env_now env))) /\
  kv_get (progress_key uid (Learning.m_id m)) (call anon env sess (quiz_progress_route m) st).1 =
    Some (VProgress (mkProgress uid (Learning.m_id m) (Learning.m_title m)
      (Z.min (Learning.m_progress m + 20) 100) (Learning.m_lessons m) (Learning.m_lessons m)
      (env_now env))).
Proof.
  intros Hc Hp. unfold call. rewrite (handle_as_caller env _ _ uid) by done. simpl.
  split.
  - apply updateUserXP_profile. rewrite kv_get_set_ne by auto with yagna. exact Hp.
  - rewrite updateUserXP_other by auto with yagna. apply kv_get_set_eq.
Qed.

(** C11: The modules of the Learning tab are constants, so every save of
    a module's quiz posts the same progress (the module's static progress
    plus 20, at most 100), and the server pays the module's lesson XP
    again for each save: two saves of the same quiz leave the same
    progress record and twice the XP. *)
Theorem quiz_save_replays_xp (l : Learning.LearningState) env1 env2 sess (st : S) uid p m :
  verifyUser env1 (Some (bearer (accessToken anon sess))) = Some uid ->
  verifyUser env2 (Some (bearer (accessToken anon sess))) = Some uid ->
  kv_get (profile_key uid) st = Some (VProfile p) ->
  (Learning.handleQuizComplete_start (Learning.handleStartQuiz (Some m) l)).1
    = Some (quiz_progress_route m) /\
  exists p2,
    kv_get (profile_key uid)
      (call anon env2 sess (quiz_progress_route m) (call anon env1 sess (quiz_progress_route m) st).1).1
      = Some (VProfile p2) /\
    p_total_xp p2 = p_total_xp p + 2 * (Learning.m_lessons m * 25) /\
    kv_get (progress_key uid (Learning.m_id m))
      (call anon env2 sess (quiz_progress_route m) (call anon env1 sess (quiz_progress_route m) st).1).1
      = Some (VProgress (mkProgress uid (Learning.m_id m) (Learning.m_title m)
          (Z.min (Learning.m_progress m + 20) 100) (Learning.m_lessons m) (Learning.m_lessons m)
          (env_now env2))).
Proof.
  intros Hc1 Hc2 Hp. split; [reflexivity|].
  destruct (quiz_save_call env1 sess st uid p m Hc1 Hp) as [Hp1 _].
  destruct (quiz_save_call env2 sess _ uid _ m Hc2 Hp1) as [Hp2 Hpr2].
  eexists. split; [exact Hp2|]. split; [simpl; lia|exact Hpr2].
Qed.

(** C31: The 1.5-second timeout of [handleStartLesson] writes XP and
    points computed from the profile object of the click: a quick action
    taken on the Dashboard before it fires raises the points, and the
    timeout then sets them back to the old points plus 50, losing the
    quick action's award. *)
Theorem lesson_timer_loses_update s a :
  pending s = [] ->
  Learning.startingLesson (learning s) <> Some (Learning.l_moduleId Learning.currentLesson) ->
  Dash.quick_action_enabled (dash s) a = true ->
  exists s1 s2,
    sys_run s [ClickStartLesson; ClickQuickAction a] = Some s1 /\
    client_points s1 = client_points s + Dash.qa_points a /\
    sys_run s1 [Fire 0] = Some s2 /\
    client_points s2 = client_points s + 50 /\ client_xp s2 = client_xp s + 50.
Proof.
  intros Hp Hl Ha. destruct s as [ap b e l q d st sess ps ts]; simpl in *. subst ps.
  unfold sys_run, sys_step. simpl. rewrite bool_decide_eq_false_2 by done. simpl.
  rewrite Ha. simpl. eexists _, _. split; [reflexivity|].
  split; [unfold client_points; simpl; apply points_spread|]. split; [reflexivity|].
  unfold client_points, client_xp. simpl. apply xp_points_spread'.
Qed.

(** C32: The Dashboard disables a quick action only while it is the last
    one clicked: after actions [a] then [b], the timeout of [a] clears the
    mark, and [b] can be taken again before its own 2 seconds are over,
    earning its points twice. *)
Theorem quick_action_reenabled_early s a b :
  pending s = [] -> Dash.completedAction (dash s) = None -> Dash.qa_title a <> Dash.qa_title b ->
  exists s', sys_run s [ClickQuickAction a; ClickQuickAction b; Fire 0; ClickQuickAction b] = Some s' /\
    pending s' = [PDashClear; PDashClear] /\
    client_points s' = client_points s + Dash.qa_points a + 2 * Dash.qa_points b.
Proof.
  intros Hp Hc Hab. destruct s as [ap bs e l q d st sess ps ts]; simpl in *. subst ps.
  destruct d as [ca tr n]; simpl in Hc; subst ca.
  unfold sys_run, sys_step, Dash.quick_action_enabled. simpl.
  rewrite bool_decide_eq_false_2 by congruence. simpl.
  eexists. split; [reflexivity|]. split; [reflexivity|].
  unfold client_points. simpl. rewrite !points_spread. lia.
Qed.

(** [checkAuth] always ends the loading screen: without a signed-in
    user at once, with one after the single [GET /profile] it sends; and
    when the server holds a profile for the session's user, the App then
    holds exactly that profile. *)
Theorem checkAuth_loads_profile (a : AppState) (r : string + option Session) :
  (AppShell.loading (checkAuth_start r a).1 = false /\ (checkAuth_start r a).2 = []) \/
  (exists sess u, r = inr (Some sess) /\ session_user sess = Some u /\
     (checkAuth_start r a).2 = [ERequest getUserProfile] /\
     forall env (st : S) uid p,
       verifyUser env (Some (bearer (accessToken anon (Some sess)))) = Some uid ->
       kv_get (profile_key uid) st = Some (VProfile p) ->
       let res := call anon env (Some sess) getUserProfile st in
       res.1 = st /\
       userProfile (checkAuth_done res.2 (checkAuth_start r a).1) = Some (profile_object p) /\
       AppShell.loading (checkAuth_done res.2 (checkAuth_start r a).1) = false /\
       AppShell.user (checkAuth_done res.2 (checkAuth_start r a).1) = Some u).
Proof.
  destruct r as [err|[sess|]]; [by left| |by left].
  destruct (session_user sess) as [u|] eqn:Hu; [|left; simpl; by rewrite Hu].
  right. exists sess, u. simpl. rewrite Hu. split_and!; [done|done|done|].
  intros env st uid p Hc Hp. unfold call. simpl.
  rewrite (handle_as_caller env _ _ uid) by done. simpl. unfold getProfile. rewrite Hp.
  split_and!; reflexivity.
Qed.

(** Clicking "Add Expense" with a field left empty sends nothing and
    awards nothing: the only effect is the "Please fill in all fields"
    toast. *)
Theorem add_expense_needs_all_fields s :
  Budget.addingExpense (budget s) = false -> ~ expense_filled (Budget.newExpense (budget s)) ->
  sys_step s ClickAddExpense =
    Some (mkSys (app s) (budget s) (eco s) (learning s) (quiz s) (dash s) (store s) (session s)
            (pending s) (toasts s ++ [ToastError "Please fill in all fields"])).
Proof.
  intros Ha Hf. unfold sys_step. rewrite Ha. unfold Budget.handleAddExpense_start.
  destruct (bool_decide _ && bool_decide _ && bool_decide _) eqn:E.
  - exfalso. apply Hf. apply andb_true_iff in E as [E E3]. apply andb_true_iff in E as [E1 E2].
    apply bool_decide_eq_true in E1, E2, E3. by split_and!.
  - destruct s. unfold absorb, with_budget. simpl. by rewrite app_nil_r.
Qed.

End Sys.

(** ** Runs on the finite-map store *)

Definition demo_parse (s : string) : Q :=
  if bool_decide (s = "250") then 250 else if bool_decide (s = "800") then 800 else 0.

Definition demo_session : option Session := Some (mkSession (Some "alice") "tok-alice").

(** alice signed in, her profile loaded from [demo_store], both forms
    filled. *)
Definition demo_sys : @Sys Store :=
  mkSys (mkAppState "dashboard" (Some "alice") (Some (profile_object demo_alice)) false false)
    (Budget.mkBudgetState (Budget.mkNewExpense "Food & Dining" "250" "lunch") [] false false)
    (Eco.mkEcoState (Eco.mkNewPurchase "bike" "800" "Eco Transport" 5) false)
    Learning.initial_learning_state None Dash.initial_dash_state demo_store demo_session [] [].

Definition demo_env9 : Env := demo_env "t9" "u9".

Lemma demo_caller : caller "anon-key" demo_env9 demo_sys = Some "alice".
Proof. vm_compute. reflexivity. Qed.

Lemma demo_server_profile : server_profile "alice" demo_sys = Some demo_alice.
Proof. vm_compute. reflexivity. Qed.

(** Witness of C28: alice records a 250 lunch. *)
Lemma expense_award_not_persisted_witness :
  pending demo_sys = [] /\ Budget.addingExpense (budget demo_sys) = false /\
  expense_filled (Budget.newExpense (budget demo_sys)) /\
  caller "anon-key" demo_env9 demo_sys = Some "alice" /\
  server_profile "alice" demo_sys = Some demo_alice /\
  client_points demo_sys = p_total_points demo_alice /\
  exists s', sys_run "anon-key" demo_parse "2024-12-20" demo_sys [ClickAddExpense; Serve 0 demo_env9]
      = Some s' /\
    client_points s' = p_total_points demo_alice + 10 /\
    server_profile "alice" s' = Some demo_alice /\ pending s' = [].
Proof.
  assert (Hf : expense_filled (Budget.newExpense (budget demo_sys))) by (split_and!; discriminate).
  split_and!; [reflexivity|reflexivity|exact Hf|exact demo_caller|exact demo_server_profile
              |reflexivity|].
  exact (expense_award_not_persisted "anon-key" demo_parse "2024-12-20" demo_sys demo_env9
           "alice" demo_alice eq_refl eq_refl Hf demo_caller demo_server_profile eq_refl).
Defined.

(** Witness of C29: alice logs an 800 bike purchase rated 5 (400 eco points). *)
Lemma eco_award_in_step_witness :
  pending demo_sys = [] /\ Eco.addingPurchase (eco demo_sys) = false /\
  purchase_filled (Eco.newPurchase (eco demo_sys)) /\
  caller "anon-key" demo_env9 demo_sys = Some "alice" /\
  server_profile "alice" demo_sys = Some demo_alice /\
  client_points demo_sys = p_total_points demo_alice /\
  exists s', sys_run "anon-key" demo_parse "2024-12-20" demo_sys [ClickAddPurchase; Serve 0 demo_env9]
      = Some s' /\
    points_in_step "alice" s' /\ pending s' = [] /\
    client_points s' = p_total_points demo_alice
      + eco_points_of (Eco.np_ecoRating (Eco.newPurchase (eco demo_sys)))
                      (demo_parse (Eco.np_amount (Eco.newPurchase (eco demo_sys)))).
Proof.
  assert (Hf : purchase_filled (Eco.newPurchase (eco demo_sys))) by (split_and!; discriminate).
  split_and!; [reflexivity|reflexivity|exact Hf|exact demo_caller|exact demo_server_profile
              |reflexivity|].
  exact (eco_award_in_step "anon-key" demo_parse "2024-12-20" demo_sys demo_env9
           "alice" demo_alice eq_refl eq_refl Hf demo_caller demo_server_profile eq_refl).
Defined.

(** alice's Financial Basics quiz finished with score 100 and 325 XP,
    its save sent. *)
Definition demo_quiz_sys : @Sys Store :=
  mkSys (app demo_sys) (budget demo_sys) (eco demo_sys)
    (Learning.handleStartQuiz (Some Learning.financialBasics) Learning.initial_learning_state)
    None Dash.initial_dash_state demo_store demo_session
    [PQuizSave (Some (profile_object demo_alice)) 100 325 (quiz_progress_route Learning.financialBasics)]
    [].

(** Witness of C30: the server adds 8 * 25 = 200 XP, the browser 325 XP and
    325 points. *)
Lemma quiz_award_diverges_witness :
  pending demo_quiz_sys = [PQuizSave (userProfile (app demo_quiz_sys)) 100 325
                             (quiz_progress_route Learning.financialBasics)] /\
  caller "anon-key" demo_env9 demo_quiz_sys = Some "alice" /\
  server_profile "alice" demo_quiz_sys = Some demo_alice /\
  client_points demo_quiz_sys = p_total_points demo_alice /\
  client_xp demo_quiz_sys = p_total_xp demo_alice /\
  exists s' p', sys_run "anon-key" demo_parse "2024-12-20" demo_quiz_sys [Serve 0 demo_env9] = Some s' /\
    server_profile "alice" s' = Some p' /\
    client_xp s' = p_total_xp demo_alice + 325 /\ client_points s' = p_total_points demo_alice + 325 /\
    p_total_xp p' = p_total_xp demo_alice + Learning.m_lessons Learning.financialBasics * 25 /\
    p_total_points p' = p_total_points demo_alice /\ pending s' = [].
Proof.
  assert (Hc : caller "anon-key" demo_env9 demo_quiz_sys = Some "alice") by (vm_compute; reflexivity).
  assert (Hs : server_profile "alice" demo_quiz_sys = Some demo_alice) by (vm_compute; reflexivity).
  split_and!; [reflexivity|exact Hc|exact Hs|reflexivity|reflexivity|].
  exact (quiz_award_diverges "anon-key" demo_parse "2024-12-20" demo_quiz_sys demo_env9 "alice"
           demo_alice Learning.financialBasics 100 325 eq_refl Hc Hs eq_refl eq_refl).
Defined.

(** Witness of C31: "Add Expense" (10 points) clicked while the lesson
    starts. *)
Lemma lesson_timer_loses_update_witness :
  pending demo_sys = [] /\
  Learning.startingLesson (learning demo_sys) <> Some (Learning.l_moduleId Learning.currentLesson) /\
  Dash.quick_action_enabled (dash demo_sys) (Dash.mkQuickAction 2 "Add Expense" "budget" 10) = true /\
  exists s1 s2,
    sys_run "anon-key" demo_parse "2024-12-20" demo_sys
      [ClickStartLesson; ClickQuickAction (Dash.mkQuickAction 2 "Add Expense" "budget" 10)] = Some s1 /\
    client_points s1 = client_points demo_sys + 10 /\
    sys_run "anon-key" demo_parse "2024-12-20" s1 [Fire 0] = Some s2 /\
    client_points s2 = client_points demo_sys + 50 /\ client_xp s2 = client_xp demo_sys + 50.
Proof.
  assert (Hl : Learning.startingLesson (learning demo_sys)
                 <> Some (Learning.l_moduleId Learning.currentLesson)) by discriminate.
  split_and!; [reflexivity|exact Hl|reflexivity|].
  exact (lesson_timer_loses_update "anon-key" demo_parse "2024-12-20" demo_sys
           (Dash.mkQuickAction 2 "Add Expense" "budget" 10) eq_refl Hl eq_refl).
Defined.

(** Witness of C32: "Continue Learning" then "Add Expense", then "Add
    Expense" again once the first timeout fires. *)
Lemma quick_action_reenabled_early_witness :
  pending demo_sys = [] /\ Dash.completedAction (dash demo_sys) = None /\
  Dash.qa_title (Dash.mkQuickAction 1 "Continue Learning" "learn" 25)
    <> Dash.qa_title (Dash.mkQuickAction 2 "Add Expense" "budget" 10) /\
  exists s', sys_run "anon-key" demo_parse "2024-12-20" demo_sys
      [ClickQuickAction (Dash.mkQuickAction 1 "Continue Learning" "learn" 25);
       ClickQuickAction (Dash.mkQuickAction 2 "Add Expense" "budget" 10); Fire 0;
       ClickQuickAction (Dash.mkQuickAction 2 "Add Expense" "budget" 10)] = Some s' /\
    pending s' = [PDashClear; PDashClear] /\
    client_points s' = client_points demo_sys + 25 + 2 * 10.
Proof.
  assert (Hab : Dash.qa_title (Dash.mkQuickAction 1 "Continue Learning" "learn" 25)
                  <> Dash.qa_title (Dash.mkQuickAction 2 "Add Expense" "budget" 10)) by discriminate.
  split_and!; [reflexivity|reflexivity|exact Hab|].
  exact (quick_action_reenabled_early "anon-key" demo_parse "2024-12-20" demo_sys _ _
           eq_refl eq_refl Hab).
Defined.

(** Witness: the category left empty. *)
Lemma add_expense_needs_all_fields_witness :
  Budget.addingExpense (budget (with_budget (Budget.mkBudgetState
      (Budget.mkNewExpense "" "250" "lunch") [] false false) demo_sys)) = false /\
  ~ expense_filled (Budget.newExpense (budget (with_budget (Budget.mkBudgetState
      (Budget.mkNewExpense "" "250" "lunch") [] false false) demo_sys))) /\
  sys_step "anon-key" demo_parse "2024-12-20"
    (with_budget (Budget.mkBudgetState (Budget.mkNewExpense "" "250" "lunch") [] false false)
       demo_sys) ClickAddExpense =
    Some (mkSys (app demo_sys) (Budget.mkBudgetState (Budget.mkNewExpense "" "250" "lunch") [] false false)
            (eco demo_sys) (learning demo_sys) (quiz demo_sys) (dash demo_sys) (store demo_sys)
            (session demo_sys) (pending demo_sys)
            (toasts demo_sys ++ [ToastError "Please fill in all fields"])).
Proof.
  assert (Hf : ~ expense_filled (Budget.newExpense (budget (with_budget (Budget.mkBudgetState
      (Budget.mkNewExpense "" "250" "lunch") [] false false) demo_sys))))
    by (intros [H _]; by apply H).
  split_and!; [reflexivity|exact Hf|].
  exact (add_expense_needs_all_fields "anon-key" demo_parse "2024-12-20"
    (with_budget (Budget.mkBudgetState (Budget.mkNewExpense "" "250" "lunch") [] false false)
       demo_sys) eq_refl Hf).
Defined.

(** Witness: alice's session, her profile the only record. *)
Lemma checkAuth_loads_profile_witness :
  verifyUser demo_env9 (Some (bearer (accessToken "anon-key" demo_session))) = Some "alice" /\
  kv_get (profile_key "alice") (<[profile_key "alice" := VProfile demo_alice]> (∅ : Store))
    = Some (VProfile demo_alice) /\
  userProfile (checkAuth_done
    (call "anon-key" demo_env9 demo_session getUserProfile
       (<[profile_key "alice" := VProfile demo_alice]> (∅ : Store))).2
    (checkAuth_start (inr demo_session) initial_app_state).1) = Some (profile_object demo_alice).
Proof.
  assert (Hv : verifyUser demo_env9 (Some (bearer (accessToken "anon-key" demo_session)))
               = Some "alice") by reflexivity.
  assert (Hp : kv_get (profile_key "alice") (<[profile_key "alice" := VProfile demo_alice]> (∅ : Store))
               = Some (VProfile demo_alice)) by reflexivity.
  split_and!; [exact Hv|exact Hp|].
  destruct (checkAuth_loads_profile "anon-key" initial_app_state (inr demo_session))
    as [[Hl _]|(sess & u & Heq & _ & _ & Hall)]; [discriminate Hl|].
  injection Heq as <-.
  exact (proj1 (proj2 (Hall demo_env9 _ "alice" demo_alice Hv Hp))).
Defined.

(** Witness of C11: alice saves the Financial Basics quiz twice. *)
Lemma quiz_save_replays_xp_witness :
  verifyUser demo_env9 (Some (bearer (accessToken "anon-key" demo_session))) = Some "alice" /\
  exists p2,
    kv_get (profile_key "alice")
      (call "anon-key" demo_env9 demo_session (quiz_progress_route Learning.financialBasics)
        (call "anon-key" demo_env9 demo_session (quiz_progress_route Learning.financialBasics)
          (<[profile_key "alice" := VProfile demo_alice]> (∅ : Store))).1).1 = Some (VProfile p2) /\
    p_total_xp p2 = p_total_xp demo_alice + 400.
Proof.
  assert (Hv : verifyUser demo_env9 (Some (bearer (accessToken "anon-key" demo_session)))
               = Some "alice") by reflexivity.
  assert (Hp : kv_get (profile_key "alice") (<[profile_key "alice" := VProfile demo_alice]> (∅ : Store))
               = Some (VProfile demo_alice)) by reflexivity.
  destruct (quiz_save_replays_xp "anon-key" Learning.initial_learning_state demo_env9 demo_env9
              demo_session _ "alice" demo_alice Learning.financialBasics Hv Hv Hp)
    as [_ (p2 & H1 & H2 & _)].
  split; [exact Hv|]. exists p2. split; [exact H1|]. rewrite H2. reflexivity.
Defined.

End System.
