(* ===== verification/Auth.v ===== *)
(** * Auth: the identity client, the auth methods of api.ts and App's sign-in flow

    [api.ts] calls the Supabase auth client in three methods:
    - [signIn] (lines 36-47) calls [signInWithPassword];
    - [signOut] (lines 49-54) calls [signOut];
    - [getCurrentSession] (lines 56-62) calls [getSession].
    Each turns the [{ data, error }] answer into a value or a thrown
    [Error].  The auth client is an external service.  [IdentityClient]
    is the interface [api.ts] uses: three operations on an abstract client
    state [A].  [IdentityLaws] states what the client promises:
    - a sign-in without error yields a session with a user, and
      [getSession] then returns it;
    - a sign-out without error leaves no session;
    - a call that fails changes nothing.
    The App side is proved against these laws only.  [MemAuth] is one
    client that satisfies them, used for the concrete runs.

    [App] (src/App.tsx) runs [checkAuth] on mount and again from
    [handleAuthSuccess] (lines 63-65).  [checkAuth] reads the session and,
    with a user, sends [GET /profile].  Its answer is applied whenever it
    arrives.  The [Shell] below keeps the App state, the client state and
    the number of profile requests in flight.  A [ShellEvent] is a click
    the rendered page offers, or a profile answer arriving.  The
    [AuthModal] component is not in the repository.  Its sign-in is taken
    to be [apiService.signIn], followed by [onSuccess] when that returns. *)

From stdpp Require Import base list strings.
From Stdlib Require Import Ascii ZArith Lia.
From S2P Require Import Prelude KvStore Server ServerProps Api AppShell System.

Module Auth.
Import Server ServerProps Api AppShell System.

(** ** The identity client *)

(** The calls of [supabase.auth] that [api.ts] makes.  An answer carries
    the [error] (its message) and the [data]. *)
Class IdentityClient (A : Type) := {
  auth_getSession : A -> option string * option Session;
  auth_signInWithPassword : string -> string -> A -> option string * option Session * A;
  auth_signOut : A -> option string * A
}.

Class IdentityLaws (A : Type) `{IdentityClient A} := {
  sign_in_session e p a d a' :
    auth_signInWithPassword e p a = (None, Some d, a') -> auth_getSession a' = (None, Some d);
  sign_in_user e p a d a' :
    auth_signInWithPassword e p a = (None, Some d, a') -> is_Some (session_user d);
  sign_in_data e p a a' : auth_signInWithPassword e p a <> (None, None, a');
  sign_in_error e p a m d a' : auth_signInWithPassword e p a = (Some m, d, a') -> a' = a;
  sign_out_session a a' : auth_signOut a = (None, a') -> auth_getSession a' = (None, None);
  sign_out_error a m a' : auth_signOut a = (Some m, a') -> a' = a
}.

Section Methods.
Context {A : Type} `{IdentityClient A}.

(** [signIn] (lines 36-47): [if (error) throw new Error(error.message);
    return data]. *)
Definition signIn (email password : string) (a : A) : (string + option Session) * A :=
  match auth_signInWithPassword email password a with
  | (Some m, _, a') => (inl m, a')
  | (None, d, a') => (inr d, a')
  end.

(** [signOut] (lines 49-54). *)
Definition signOut (a : A) : (string + unit) * A :=
  match auth_signOut a with
  | (Some m, a') => (inl m, a')
  | (None, a') => (inr tt, a')
  end.

(** [getCurrentSession] (lines 56-62). *)
Definition getCurrentSession (a : A) : string + option Session :=
  match auth_getSession a with
  | (Some m, _) => inl m
  | (None, s) => inr s
  end.

End Methods.

(** ** What App renders (src/App.tsx, lines 81-289) *)

Inductive TabPanel := PDashboard | PLearn | PBudget | PSustainable | PLeaderboard | PProfile.

(** The [TabsContent] whose [value] is the active tab (lines 192-238). *)
Definition tab_panel (t : string) : option TabPanel :=
  if bool_decide (t = "dashboard") then Some PDashboard
  else if bool_decide (t = "learn") then Some PLearn
  else if bool_decide (t = "budget") then Some PBudget
  else if bool_decide (t = "sustainable") then Some PSustainable
  else if bool_decide (t = "leaderboard") then Some PLeaderboard
  else if bool_decide (t = "profile") then Some PProfile
  else None.

Inductive AppView :=
| LoadingScreen
| GuestView (authModal : bool)
| SignedInView (name : string) (levelLine : option (option Z * option Z))
    (panel : option TabPanel) (authModal : bool).

(** [if (loading) return <Loading/>] (lines 81-92), else the header
    (lines 108-137), the tabs or the guest view (lines 140-277) and the
    [AuthModal] with [isOpen={showAuthModal}] (lines 279-283).  The
    level line is [{userProfile && <p>Level {userProfile.level} ...
    {userProfile.total_points} pts</p>}] (lines 115-120). *)
Definition app_view (email : string) (s : AppState) : AppView :=
  if loading s then LoadingScreen else
  match user s with
  | Some _ =>
      SignedInView (header_name email s)
        ((fun p => (u_level p, u_total_points p)) <$> userProfile s)
        (tab_panel (activeTab s)) (showAuthModal s)
  | None => GuestView (showAuthModal s)
  end.

(** ** The sign-in flow *)

Record Shell (A : Type) := mkShell { sh_app : AppState; sh_idp : A; sh_inflight : nat }.
Arguments mkShell {A}.
Arguments sh_app {A}.
Arguments sh_idp {A}.
Arguments sh_inflight {A}.

Inductive ShellEvent :=
| ClickSignIn                              (** [setShowAuthModal(true)], lines 132, 256 *)
| CloseModal                               (** [onClose], line 281 *)
| ModalSignIn (email password : string)    (** the modal's sign-in, then [onSuccess] *)
| ClickSignOut                             (** [onClick={handleSignOut}], line 125 *)
| ProfileAnswer (r : ApiResult)            (** the answer of a [GET /profile] in flight *)
| SelectTab (t : string).                  (** [onValueChange={setActiveTab}], line 144 *)

Section Flow.
Context {A : Type} `{IdentityClient A}.

(** [checkAuth] (lines 40-52) up to its [await] of [GET /profile]: its
    only effect is that request. *)
Definition checkAuth (s : Shell A) : Shell A :=
  let (app', effs) := checkAuth_start (getCurrentSession (sh_idp s)) (sh_app s) in
  mkShell app' (sh_idp s) (sh_inflight s + length effs).

(** The mount effect (lines 36-38) on a client state. *)
Definition mount (a : A) : Shell A := checkAuth (mkShell initial_app_state a 0).

Definition shell_step (s : Shell A) (ev : ShellEvent) : option (Shell A) :=
  let app := sh_app s in
  match ev with
  | ClickSignIn =>
      if loading app || bool_decide (is_Some (user app)) then None
      else Some (mkShell (setShowAuthModal true app) (sh_idp s) (sh_inflight s))
  | CloseModal =>
      if negb (loading app) && showAuthModal app
      then Some (mkShell (setShowAuthModal false app) (sh_idp s) (sh_inflight s)) else None
  | ModalSignIn e p =>
      if negb (loading app) && showAuthModal app then
        match signIn e p (sh_idp s) with
        | (inl _, a') => Some (mkShell app a' (sh_inflight s))
        | (inr _, a') => Some (checkAuth (mkShell app a' (sh_inflight s)))
        end
      else None
  | ClickSignOut =>
      if negb (loading app) && bool_decide (is_Some (user app)) then
        let (r, a') := signOut (sh_idp s) in Some (mkShell (handleSignOut r app) a' (sh_inflight s))
      else None
  | ProfileAnswer r =>
      match sh_inflight s with
      | O => None
      | S n => Some (mkShell (checkAuth_done r app) (sh_idp s) n)
      end
  | SelectTab t =>
      if negb (loading app) && bool_decide (is_Some (user app))
      then Some (mkShell (setActiveTab t app) (sh_idp s) (sh_inflight s)) else None
  end.

Fixpoint shell_run (s : Shell A) (evs : list ShellEvent) : option (Shell A) :=
  match evs with
  | [] => Some s
  | ev :: evs' => s' ← shell_step s ev; shell_run s' evs'
  end.

End Flow.

(** ** A client that keeps the laws *)

(** An in-memory identity client: registered accounts (email, password,
    user id) and the current session. *)
Record MemAuth := mkMemAuth { accounts : list (string * string * string); current : option Session }.

#[export] Instance mem_identity : IdentityClient MemAuth := {|
  auth_getSession a := (None, current a);
  auth_signInWithPassword e p a :=
    match List.find (fun acc => bool_decide (acc.1.1 = e /\ acc.1.2 = p)) (accounts a) with
    | Some (_, _, uid) =>
        let d := mkSession (Some uid) ("tok-" +:+ uid) in (None, Some d, mkMemAuth (accounts a) (Some d))
    | None => (Some "Invalid login credentials", None, a)
    end;
  auth_signOut a := (None, mkMemAuth (accounts a) None)
|}.

#[export] Instance mem_identity_laws : IdentityLaws MemAuth.
Proof.
  split; cbn; intros *; repeat case_match; intros; simplify_eq; eauto.
Qed.

(** ** The App agrees with the identity client *)

Section FlowProps.
Context {A : Type} `{IdentityLaws A}.

(** The user App shows signed in is the user of the client's session. *)
Definition session_agrees (s : Shell A) : Prop :=
  forall u, user (sh_app s) = Some u ->
  exists d, auth_getSession (sh_idp s) = (None, Some d) /\ session_user d = Some u.

Lemma checkAuth_idp s : sh_idp (checkAuth s) = sh_idp s.
Proof. unfold checkAuth. by destruct (checkAuth_start _ _). Qed.

Lemma checkAuth_user s :
  user (sh_app (checkAuth s)) = user (sh_app s) \/
  exists d, auth_getSession (sh_idp s) = (None, Some d) /\
            user (sh_app (checkAuth s)) = session_user d.
Proof.
  unfold checkAuth, getCurrentSession, checkAuth_start.
  destruct (auth_getSession (sh_idp s)) as [[m|] [d|]]; simpl; auto.
  destruct (session_user d) eqn:Hu; simpl; [right; by exists d|auto].
Qed.

(** After a session with a user is read, App shows that user. *)
Lemma checkAuth_signed_in s d u :
  auth_getSession (sh_idp s) = (None, Some d) -> session_user d = Some u ->
  checkAuth s = mkShell (mkAppState (activeTab (sh_app s)) (Some u) (userProfile (sh_app s))
                           (showAuthModal (sh_app s)) (loading (sh_app s)))
                  (sh_idp s) (S (sh_inflight s)).
Proof.
  intros Hg Hu. unfold checkAuth, getCurrentSession, checkAuth_start. rewrite Hg; simpl.
  rewrite Hu; simpl. by rewrite Nat.add_1_r.
Qed.

Lemma checkAuth_agrees s : session_agrees s -> session_agrees (checkAuth s).
Proof.
  intros Hs u Hu. rewrite checkAuth_idp.
  destruct (checkAuth_user s) as [Heq|(d & Hd & Hu')]; [rewrite Heq in Hu; auto|].
  exists d. by rewrite <- Hu'.
Qed.

Lemma shell_step_agrees s ev s' :
  session_agrees s -> shell_step s ev = Some s' -> session_agrees s'.
Proof.
  intros Hs Hstep. destruct ev as [| |e p| |r|t]; simpl in Hstep; repeat case_match; simplify_eq;
    try exact Hs.
  - unfold signIn in *. destruct (auth_signInWithPassword e p _) as [[[m|] d] a'] eqn:Hsi;
      simplify_eq. by rewrite (sign_in_error _ _ _ _ _ _ Hsi).
  - unfold signIn in *. destruct (auth_signInWithPassword e p _) as [[[m|] [d|]] a'] eqn:Hsi;
      simplify_eq; [|by destruct (sign_in_data _ _ _ _ Hsi)].
    destruct (sign_in_user _ _ _ _ _ Hsi) as [v Hv].
    intros u. rewrite (checkAuth_signed_in (mkShell _ _ _) _ v (sign_in_session _ _ _ _ _ Hsi) Hv). simpl.
    intros [= <-]. exists d. split; [exact (sign_in_session _ _ _ _ _ Hsi)|exact Hv].
  - unfold signOut in *. destruct (auth_signOut _) as [[m|] a'] eqn:Hso; simplify_eq; [|done].
    by rewrite (sign_out_error _ _ _ Hso).
Qed.

Lemma shell_run_agrees s evs s' :
  session_agrees s -> shell_run s evs = Some s' -> session_agrees s'.
Proof.
  revert s. induction evs as [|ev evs IH]; intros s Hs Hrun; simpl in Hrun; [by simplify_eq|].
  destruct (shell_step s ev) as [s1|] eqn:Hstep; [|discriminate].
  exact (IH s1 (shell_step_agrees s ev s1 Hs Hstep) Hrun).
Qed.

(** A session read without a user, or an error, ends the loading. *)
Lemma checkAuth_no_user s :
  auth_getSession (sh_idp s) = (None, None) ->
  checkAuth s = mkShell (mkAppState (activeTab (sh_app s)) (user (sh_app s)) (userProfile (sh_app s))
                           (showAuthModal (sh_app s)) false) (sh_idp s) (sh_inflight s).
Proof.
  intros Hg. unfold checkAuth, getCurrentSession, checkAuth_start. rewrite Hg; simpl.
  by rewrite Nat.add_0_r.
Qed.

Lemma mount_agrees a0 : session_agrees (mount a0).
Proof. apply checkAuth_agrees. intros u Hu. discriminate Hu. Qed.

End FlowProps.

(** The answer of [GET /profile] sent with a session is the server's
    [getProfile] for the session's user. *)
Lemma call_getUserProfile {S} `{KvStoreLaws KvValue S} anon env sess uid (st : S) :
  verifyUser env (Some (bearer (accessToken anon (Some sess)))) = Some uid ->
  (call anon env (Some sess) getUserProfile st).2 = to_result (getProfile uid st).2.
Proof. intros Hc. unfold call. by rewrite (System.handle_as_caller anon env _ st uid) by done. Qed.

Section Races.
Context {A : Type} `{IdentityLaws A} {S : Type} `{KvStoreLaws KvValue S}.

(** C37: In every state the page can reach from the mount, through
    sign-ins, sign-outs, tab changes and profile answers in any order, the
    user App shows signed in is the user of the identity client's
    current session, read without error. *)
Theorem signed_in_user_is_session_user (a0 : A) evs s u :
  shell_run (mount a0) evs = Some s -> user (sh_app s) = Some u ->
  exists d, auth_getSession (sh_idp s) = (None, Some d) /\ session_user d = Some u.
Proof. intros Hrun. exact (shell_run_agrees _ _ _ (mount_agrees a0) Hrun u). Qed.

(** C38: A profile answer still in flight when the user signs out lands
    after the sign-out.  User 1 signs in and signs out before the
    [GET /profile] of the sign-in is answered.  User 2 then signs in and
    has no stored profile, so the server answers 404.  App then shows
    user 2 signed in with user 1's profile: the header shows user 1's
    name, level and points. *)
Theorem late_profile_answer_survives_sign_out (a0 a1 a2 a3 : A) e1 p1 e2 p2 d1 d2 anon
  env1 env2 uid1 uid2 (st : S) prof email :
  auth_getSession a0 = (None, None) ->
  auth_signInWithPassword e1 p1 a0 = (None, Some d1, a1) ->
  auth_signOut a1 = (None, a2) ->
  auth_signInWithPassword e2 p2 a2 = (None, Some d2, a3) ->
  verifyUser env1 (Some (bearer (accessToken anon (Some d1)))) = Some uid1 ->
  verifyUser env2 (Some (bearer (accessToken anon (Some d2)))) = Some uid2 ->
  kv_get (profile_key uid1) st = Some (VProfile prof) ->
  kv_get (profile_key uid2) st = None ->
  p_name prof <> "" ->
  exists s,
    shell_run (mount a0)
      [ClickSignIn; ModalSignIn e1 p1; CloseModal; ClickSignOut;
       ProfileAnswer (call anon env1 (Some d1) getUserProfile st).2;
       ClickSignIn; ModalSignIn e2 p2; CloseModal;
       ProfileAnswer (call anon env2 (Some d2) getUserProfile st).2] = Some s /\
    user (sh_app s) = session_user d2 /\
    userProfile (sh_app s) = Some (profile_object prof) /\
    app_view email (sh_app s) =
      SignedInView (p_name prof) (Some (Some (p_level prof), Some (p_total_points prof)))
        (Some PDashboard) false.
Proof.
  intros Hg0 Hs1 Ho Hs2 Hv1 Hv2 Hp1 Hp2 Hn.
  destruct (sign_in_user _ _ _ _ _ Hs1) as [u1 Hu1].
  destruct (sign_in_user _ _ _ _ _ Hs2) as [u2 Hu2].
  rewrite (call_getUserProfile _ _ _ _ _ Hv1), (call_getUserProfile _ _ _ _ _ Hv2).
  unfold getProfile. rewrite Hp1, Hp2.
  unfold mount. rewrite checkAuth_no_user by exact Hg0. simpl.
  unfold signIn. rewrite Hs1. simpl.
  rewrite (checkAuth_signed_in (mkShell _ a1 _) d1 u1) by (exact (sign_in_session _ _ _ _ _ Hs1) || exact Hu1).
  simpl. unfold signOut. rewrite Ho. simpl. rewrite Hs2. simpl.
  rewrite (checkAuth_signed_in (mkShell _ a3 _) d2 u2) by (exact (sign_in_session _ _ _ _ _ Hs2) || exact Hu2).
  simpl. eexists. split_and!; [reflexivity|done|reflexivity|].
  unfold app_view, header_name. simpl. by destruct (p_name prof).
Qed.

End Races.



(** ** Concrete runs *)

Definition demo_accounts : list (string * string * string) :=
  [("alice@example.com", "pw-a", "alice"); ("bob@example.com", "pw-b", "bob")].

Definition demo_auth : MemAuth := mkMemAuth demo_accounts None.

Definition alice_session : Session := mkSession (Some "alice") "tok-alice".
Definition bob_session : Session := mkSession (Some "bob") "tok-bob".

(** Witness of C37: after alice signs in and opens the Budget tab, App
    shows alice, the user of the client's session. *)
Lemma signed_in_user_is_session_user_witness :
  exists d, auth_getSession (mkMemAuth demo_accounts (Some alice_session)) = (None, Some d) /\
            session_user d = Some "alice".
Proof.
  apply (signed_in_user_is_session_user demo_auth
           [ClickSignIn; ModalSignIn "alice@example.com" "pw-a"; SelectTab "budget"]
           (mkShell (mkAppState "budget" (Some "alice") None true false)
              (mkMemAuth demo_accounts (Some alice_session)) 1)); reflexivity.
Defined.

(** Witness of C38: alice (name "alice", 50 points) signs in and out
    before her profile arrives; bob, who has no stored profile, then
    signs in and the header shows alice's name and points. *)
Lemma late_profile_answer_survives_sign_out_witness :
  exists s,
    shell_run (mount demo_auth)
      [ClickSignIn; ModalSignIn "alice@example.com" "pw-a"; CloseModal; ClickSignOut;
       ProfileAnswer (call "anon-key" demo_env9 (Some alice_session) getUserProfile
                        (<[profile_key "alice" := VProfile demo_alice]> (∅ : Store))).2;
       ClickSignIn; ModalSignIn "bob@example.com" "pw-b"; CloseModal;
       ProfileAnswer (call "anon-key" demo_env9 (Some bob_session) getUserProfile
                        (<[profile_key "alice" := VProfile demo_alice]> (∅ : Store))).2] = Some s /\
    user (sh_app s) = Some "bob" /\
    userProfile (sh_app s) = Some (profile_object demo_alice) /\
    app_view "bob@example.com" (sh_app s) =
      SignedInView "alice" (Some (Some 1%Z, Some 50%Z)) (Some PDashboard) false.
Proof.
  apply (late_profile_answer_survives_sign_out demo_auth
           (mkMemAuth demo_accounts (Some alice_session)) demo_auth
           (mkMemAuth demo_accounts (Some bob_session))
           _ _ _ _ alice_session bob_session "anon-key" demo_env9 demo_env9 "alice" "bob");
    reflexivity || discriminate.
Defined.

End Auth.
